(** * Orchestrator Go clients: response decoding, instance keys, leader resolution

    A shallow embedding of the two Go client packages of the repository:

    - [Client]   : [src/client], the SDK whose envelope carries an integer
                   [APIResponseCode] (ERROR = 0, OK = 1);
    - [GoClient] : [src/go/client], the client whose envelope carries the
                   code as a string (["OK"], ["ERROR"]) and which resolves a
                   leader among several endpoints.

    Go strings are byte sequences and are modelled by [string]; Go's [int] and
    [int64] are modelled by [Z] with their 64-bit range written out where the
    code depends on it. *)

From Stdlib Require Import String Ascii List ZArith Lia Bool Arith SpecFloat.
Import ListNotations.

Set Warnings "-register-all".

Local Open Scope list_scope.
Local Open Scope string_scope.

(** [len(s)], the number of bytes of a Go string. *)
Abbreviation len := String.length.

(** ** The parts of Go's [strings] package the clients call *)

Module GoStrings.

(** [s[n:]] for [n <= len(s)]. *)
Fixpoint drop (n : nat) (s : string) : string :=
  match n, s with
  | O, _ => s
  | S _, EmptyString => EmptyString
  | S n', String _ s' => drop n' s'
  end.

(** [s[:n]] for [n <= len(s)]. *)
Fixpoint take (n : nat) (s : string) : string :=
  match n, s with
  | O, _ => EmptyString
  | S _, EmptyString => EmptyString
  | S n', String c s' => String c (take n' s')
  end.

(** [func HasSuffix(s, suffix string) bool {
      return len(s) >= len(suffix) && s[len(s)-len(suffix):] == suffix }] *)
Definition HasSuffix (s suffix : string) : bool :=
  (len suffix <=? len s)%nat
  && String.eqb (drop (len s - len suffix) s) suffix.

(** [func HasPrefix(s, prefix string) bool {
      return len(s) >= len(prefix) && s[:len(prefix)] == prefix }] *)
Definition HasPrefix (s prefix : string) : bool :=
  (len prefix <=? len s)%nat
  && String.eqb (take (len prefix) s) prefix.

(** [func TrimSuffix(s, suffix string) string {
      if HasSuffix(s, suffix) { return s[:len(s)-len(suffix)] }
      return s }] *)
Definition TrimSuffix (s suffix : string) : string :=
  if HasSuffix s suffix then take (len s - len suffix) s else s.

(** [func TrimPrefix(s, prefix string) string {
      if HasPrefix(s, prefix) { return s[len(prefix):] }
      return s }] *)
Definition TrimPrefix (s prefix : string) : string :=
  if HasPrefix s prefix then drop (len prefix) s else s.

(** [strings.Split(s, sep)] for a separator of one byte, the only way the
    clients call it ([strings.Split(hostPort, ":")]): the substrings between
    the occurrences of [sep]; a string with [n] occurrences gives [n + 1]
    parts, and the empty string gives the one part [""]. *)
Fixpoint Split (s : string) (sep : ascii) : list string :=
  match s with
  | EmptyString => [EmptyString]
  | String c s' =>
      if Ascii.eqb c sep then EmptyString :: Split s' sep
      else match Split s' sep with
           | [] => [String c EmptyString]
           | p :: ps => String c p :: ps
           end
  end.

(** Number of occurrences of the byte [c] in [s]. *)
Fixpoint Count (s : string) (c : ascii) : nat :=
  match s with
  | EmptyString => 0
  | String d s' => (if Ascii.eqb d c then 1 else 0) + Count s' c
  end.

(** Joining the parts of a split with the one-byte separator. *)
Fixpoint Join (parts : list string) (sep : ascii) : string :=
  match parts with
  | [] => EmptyString
  | [p] => p
  | p :: ps => p ++ String sep (Join ps sep)
  end.

(** The last byte of a string, if any. *)
Fixpoint last_byte (s : string) : option ascii :=
  match s with
  | EmptyString => None
  | String c EmptyString => Some c
  | String _ s' => last_byte s'
  end.

(** [strings.Replace(s, old, new, 1)]: the first occurrence of [old] in [s],
    scanning from the left, is replaced by [new]; a string without [old] is
    returned as it is.  (An empty [old] matches at the start.) *)
Fixpoint Replace1 (s old new : string) : string :=
  if HasPrefix s old then new ++ drop (len old) s
  else match s with
       | EmptyString => EmptyString
       | String c s' => String c (Replace1 s' old new)
       end.

(** Whether [substr] occurs in [s]. *)
Fixpoint Contains (s substr : string) : bool :=
  if HasPrefix s substr then true
  else match s with
       | EmptyString => false
       | String _ s' => Contains s' substr
       end.

End GoStrings.

(** ** Errors and results

    A Go [error] is modelled by its message (what [err.Error()] returns): the
    clients build their errors with [fmt.Errorf], and wrapping with [%w]
    produces the text of the cause after the prefix. *)

Definition error := string.

Inductive result (A : Type) : Type :=
| Ok (a : A)
| Err (e : error).
Arguments Ok {A} a.
Arguments Err {A} e.

Definition is_err {A : Type} (r : result A) : bool :=
  match r with Ok _ => false | Err _ => true end.

(** [x, err := f(); if err != nil { return ..., err }; k x] *)
Definition bind {A B : Type} (r : result A) (k : A -> result B) : result B :=
  match r with Ok a => k a | Err e => Err e end.

(** [x, err := f(); if err != nil { return ..., fmt.Errorf(prefix + "%w", err) }] *)
Definition wrap {A : Type} (prefix : string) (r : result A) : result A :=
  match r with Ok a => Ok a | Err e => Err (prefix ++ e) end.

Declare Scope go_scope.
Delimit Scope go_scope with go.
Notation "x <- c ;; k" := (bind c (fun x => k))
  (at level 61, c at next level, right associativity) : go_scope.

(** ** Decimal integers: [%d] in [fmt.Sprintf] and in [fmt.Sscanf] *)

Module GoFmt.

Definition byte_of (n : Z) : ascii := ascii_of_nat (Z.to_nat n).
Definition code (c : ascii) : Z := Z.of_nat (nat_of_ascii c).

Definition isDigit (c : ascii) : bool := (48 <=? code c)%Z && (code c <=? 57)%Z.
Definition digitVal (c : ascii) : Z := code c - 48.
Definition digitChar (d : Z) : ascii := byte_of (48 + d).

(** The decimal digits of [u >= 0], most significant first, written in
    front of [acc]; [fuel] bounds the number of digits. *)
Fixpoint fmtUint (fuel : nat) (u : Z) (acc : string) : string :=
  match fuel with
  | O => acc
  | S f =>
      if (u <? 10)%Z then String (digitChar u) acc
      else fmtUint f (u / 10) (String (digitChar (u mod 10)) acc)
  end.

Definition FormatUint (u : Z) : string :=
  fmtUint (S (Z.to_nat (Z.log2 u))) u "".

(** [%d] of a signed integer: a minus sign for negative values, no padding. *)
Definition FormatInt (i : Z) : string :=
  if (i <? 0)%Z then String "-" (FormatUint (- i)) else FormatUint i.

Definition minInt64 : Z := - 2 ^ 63.
Definition maxInt64 : Z := 2 ^ 63 - 1.
Definition inInt64 (i : Z) : bool := (minInt64 <=? i)%Z && (i <=? maxInt64)%Z.

(** *** [fmt.Sscanf(str, "%d", &port)]

    The scanner skips leading white space, fails on a newline, accepts one
    optional sign, requires one decimal digit and takes the longest run of
    digits; what follows the digits is left unread and is not an error.
    The token goes through [strconv.ParseInt(tok, 10, 64)], which fails
    outside the 64-bit range. ([int] is 64 bits wide; the scanner's limit of
    [1<<30] runes per operand is not modelled.) *)

(** Number of bytes of the white-space rune [s] starts with, [0] when [s]
    does not start with white space.  [isSpace] of [fmt/scan.go] knows the
    runes U+0009..U+000D, U+0020, U+0085, U+00A0, U+1680, U+2000..U+200A,
    U+2028, U+2029, U+202F, U+205F, U+3000; the input is read as UTF-8. *)
Definition spaceLen (s : string) : nat :=
  match s with
  | EmptyString => 0
  | String c1 s1 =>
      let b1 := code c1 in
      if ((9 <=? b1) && (b1 <=? 13) || (b1 =? 32))%Z then 1
      else match s1 with
           | EmptyString => 0
           | String c2 s2 =>
               let b2 := code c2 in
               if ((b1 =? 194) && ((b2 =? 133) || (b2 =? 160)))%Z then 2
               else match s2 with
                    | EmptyString => 0
                    | String c3 _ =>
                        let b3 := code c3 in
                        if ((b1 =? 225) && (b2 =? 154) && (b3 =? 128)
                            || (b1 =? 226) && (b2 =? 128)
                               && ((128 <=? b3) && (b3 <=? 138)
                                   || (b3 =? 168) || (b3 =? 169) || (b3 =? 175))
                            || (b1 =? 226) && (b2 =? 129) && (b3 =? 159)
                            || (b1 =? 227) && (b2 =? 128) && (b3 =? 128))%Z
                        then 3 else 0
                    end
           end
  end.

(** [SkipSpace] of the scan state, with [nlIsSpace = false]: [None] is the scan error
    "unexpected newline". *)
Fixpoint SkipSpace (s : string) : option string :=
  match s with
  | EmptyString => Some s
  | String c1 s1 =>
      if (code c1 =? 10)%Z then None
      else match spaceLen s with
           | 1 => SkipSpace s1
           | 2 => match s1 with
                  | String _ s2 => SkipSpace s2
                  | EmptyString => Some s
                  end
           | 3 => match s1 with
                  | String _ (String _ s3) => SkipSpace s3
                  | _ => Some s
                  end
           | _ => Some s
           end
  end.

(** [for s.accept(digits) {}]: the longest run of decimal digits [s] starts
    with, and the rest. *)
Fixpoint scanDigits (s : string) : string * string :=
  match s with
  | EmptyString => (EmptyString, EmptyString)
  | String c s' =>
      if isDigit c then let (d, r) := scanDigits s' in (String c d, r)
      else (EmptyString, s)
  end.

(** The value of a run of decimal digits, after the digits already read. *)
Fixpoint parseDigits (s : string) (acc : Z) : Z :=
  match s with
  | EmptyString => acc
  | String c s' => parseDigits s' (acc * 10 + digitVal c)
  end.

Definition Sscanf_d (str : string) : result Z :=
  match SkipSpace str with
  | None => Err "unexpected newline"
  | Some EmptyString => Err "unexpected EOF"
  | Some (String c rest as s) =>
      let '(neg, s') :=
        if Ascii.eqb c "-" then (true, rest)
        else if Ascii.eqb c "+" then (false, rest)
        else (false, s) in
      match s' with
      | EmptyString => Err "unexpected EOF"
      | String d _ =>
          if isDigit d then
            let (tok, _) := scanDigits s' in
            let v := parseDigits tok 0 in
            let i := if neg then (- v)%Z else v in
            if inInt64 i then Ok i
            else Err "value out of range"
          else Err "expected integer"
      end
  end.

(** Every byte of [s] is a decimal digit. *)
Definition allDigits (s : string) : Prop :=
  forall c, In c (list_ascii_of_string s) -> isDigit c = true.

End GoFmt.

(** ** Instance keys ([src/client/client.go]) *)

Record InstanceKey : Type := mkInstanceKey {
  Hostname : string;
  Port : Z
}.

(** [func (key InstanceKey) String() string {
      return fmt.Sprintf("%s:%d", key.Hostname, key.Port) }] *)
Definition InstanceKey_String (key : InstanceKey) : string :=
  key.(Hostname) ++ ":" ++ GoFmt.FormatInt key.(Port).

(** [func ParseInstanceKey(hostPort string) (InstanceKey, error)] *)
Definition ParseInstanceKey (hostPort : string) : result InstanceKey :=
  let parts := GoStrings.Split hostPort ":" in
  match parts with
  | [host; portStr] =>
      match GoFmt.Sscanf_d portStr with
      | Err _ => Err ("invalid port in instance key: " ++ portStr)
      | Ok port => Ok {| Hostname := host; Port := port |}
      end
  | _ => Err ("invalid instance key format: " ++ hostPort)
  end.

(** ** JSON documents and the values [encoding/json] decodes them to *)

(** A [float64]: IEEE-754 binary64 as sign, mantissa and binary exponent. *)
Definition float64 : Type := spec_float.

(** Go slices and maps distinguish the nil value from an empty one: both have
    length zero, only the second is "non-nil". *)
Inductive GoSlice (A : Type) : Type :=
| NilSlice
| SliceOf (elems : list A).
Arguments NilSlice {A}.
Arguments SliceOf {A} elems.

Inductive GoMap (A : Type) : Type :=
| NilMap
| MapOf (entries : list (string * A)).
Arguments NilMap {A}.
Arguments MapOf {A} entries.

Definition slice_is_nil {A : Type} (s : GoSlice A) : bool :=
  match s with NilSlice => true | SliceOf _ => false end.

Definition slice_len {A : Type} (s : GoSlice A) : nat :=
  match s with NilSlice => 0 | SliceOf l => List.length l end.

Definition map_is_nil {A : Type} (m : GoMap A) : bool :=
  match m with NilMap => true | MapOf _ => false end.

Definition map_len {A : Type} (m : GoMap A) : nat :=
  match m with NilMap => 0 | MapOf l => List.length l end.

Module Json.

(** A number literal of a JSON text, by what the decoder makes of it:
    [asInt] is the result of [strconv.ParseInt(lit, 10, 64)] ([None] for a
    literal with a fraction or an exponent, or outside 64 bits), [asFloat]
    the result of [strconv.ParseFloat(lit, 64)] ([None] when out of range). *)
Record NumLit : Type := mkNumLit {
  asInt : option Z;
  asFloat : option float64
}.

(** A syntactically valid JSON text. *)
Inductive json : Type :=
| JNull
| JBool (b : bool)
| JNumber (n : NumLit)
| JString (s : string)
| JArray (elems : list json)
| JObject (members : list (string * json)).

(** The dynamic values an [interface{}] holds in the clients.  Decoding JSON
    produces [Nil], [Bool], [Float64], [Str], [Slice] ([[]interface{}]) and
    [Map] ([map[string]interface{}], kept sorted by key, the order in which
    [json.Marshal] and [fmt] write a map); [Int64] and [Int] are the other
    two types the lag accessor's type switch names.  Strings decoded from
    JSON are valid UTF-8, which [json.Marshal] followed by [json.Unmarshal]
    returns unchanged. *)
Inductive any : Type :=
| Nil
| Bool (b : bool)
| Float64 (f : float64)
| Int64 (i : Z)
| Int (i : Z)
| Str (s : string)
| Slice (elems : list any)
| Map (entries : list (string * any)).

Definition is_nil (a : any) : bool :=
  match a with Nil => true | _ => false end.

(** [%T]: the name of the dynamic type. *)
Definition typeName (a : any) : string :=
  match a with
  | Nil => "<nil>"
  | Bool _ => "bool"
  | Float64 _ => "float64"
  | Int64 _ => "int64"
  | Int _ => "int"
  | Str _ => "string"
  | Slice _ => "[]interface {}"
  | Map _ => "map[string]interface {}"
  end.

(** The word [encoding/json] uses for a JSON value in its type errors. *)
Definition jsonKind (a : any) : string :=
  match a with
  | Nil => "null"
  | Bool _ => "bool"
  | Float64 _ | Int64 _ | Int _ => "number"
  | Str _ => "string"
  | Slice _ => "array"
  | Map _ => "object"
  end.

(** The text of an [UnmarshalTypeError]. *)
Definition typeError (value target : string) : error :=
  "json: cannot unmarshal " ++ value ++ " into Go value of type " ++ target.

(** [m[k] = v] on a map kept sorted by key. *)
Fixpoint map_insert {A : Type} (k : string) (v : A) (m : list (string * A))
  : list (string * A) :=
  match m with
  | [] => [(k, v)]
  | (k', v') :: m' =>
      match String.compare k k' with
      | Lt => (k, v) :: m
      | Eq => (k, v) :: m'
      | Gt => (k', v') :: map_insert k v m'
      end
  end.

(** Decoding into an [interface{}]: [null] gives nil, a number a [float64],
    an array a [[]interface{}], an object a [map[string]interface{}] in
    which a repeated key keeps its last value. *)
Fixpoint toAny (j : json) : result any :=
  match j with
  | JNull => Ok Nil
  | JBool b => Ok (Bool b)
  | JNumber n =>
      match asFloat n with
      | Some f => Ok (Float64 f)
      | None => Err (typeError "number" "float64")
      end
  | JString s => Ok (Str s)
  | JArray elems =>
      let fix go (l : list json) : result (list any) :=
        match l with
        | [] => Ok []
        | x :: r =>
            match toAny x with
            | Err e => Err e
            | Ok a => match go r with
                      | Err e => Err e
                      | Ok rs => Ok (a :: rs)
                      end
            end
        end in
      match go elems with
      | Err e => Err e
      | Ok l => Ok (Slice l)
      end
  | JObject members =>
      let fix go (l : list (string * json)) (acc : list (string * any))
        : result (list (string * any)) :=
        match l with
        | [] => Ok acc
        | (k, x) :: r =>
            match toAny x with
            | Err e => Err e
            | Ok a => go r (map_insert k a acc)
            end
        end in
      match go members [] with
      | Err e => Err e
      | Ok m => Ok (Map m)
      end
  end.

(** *** Matching an object key to a struct field

    [encoding/json] prefers the exact name and otherwise compares under
    Unicode simple case folding: ASCII letters regardless of case, and the
    two non-ASCII runes that fold to ASCII letters, U+017F (long s) to [s]
    and U+212A (Kelvin sign) to [k]. *)
Definition upper (c : ascii) : ascii :=
  let n := GoFmt.code c in
  if ((97 <=? n) && (n <=? 122))%Z then GoFmt.byte_of (n - 32) else c.

Fixpoint foldName (s : string) : string :=
  match s with
  | EmptyString => EmptyString
  | String c1 s1 =>
      match s1 with
      | String c2 s2 =>
          if ((GoFmt.code c1 =? 197) && (GoFmt.code c2 =? 191))%Z
          then String "S" (foldName s2)
          else match s2 with
               | String c3 s3 =>
                   if ((GoFmt.code c1 =? 226) && (GoFmt.code c2 =? 132)
                       && (GoFmt.code c3 =? 170))%Z
                   then String "K" (foldName s3)
                   else String (upper c1) (foldName s1)
               | EmptyString => String (upper c1) (foldName s1)
               end
      | EmptyString => String (upper c1) EmptyString
      end
  end.

(** The fields of the envelope struct, which both packages declare with
    the JSON names [Code], [Message] and [Details]. *)
Inductive Field : Type := FCode | FMessage | FDetails.

Definition fieldOf (key : string) : option Field :=
  let k := foldName key in
  if String.eqb k "CODE" then Some FCode
  else if String.eqb k "MESSAGE" then Some FMessage
  else if String.eqb k "DETAILS" then Some FDetails
  else None.

(** Decoding into a [string]: [null] leaves the target as it is. *)
Definition toString (target : string) (a : any) : result string :=
  match a with
  | Nil => Ok target
  | Str s => Ok s
  | _ => Err (typeError (jsonKind a) "string")
  end.

(** Decoding into a [bool]. *)
Definition toBool (target : bool) (a : any) : result bool :=
  match a with
  | Nil => Ok target
  | Bool b => Ok b
  | _ => Err (typeError (jsonKind a) "bool")
  end.

(** Decoding the elements of an array one after the other; the first element
    that does not fit decides the error. *)
Fixpoint decodeElems {A : Type} (elem : any -> result A) (l : list any)
  : result (list A) :=
  match l with
  | [] => Ok []
  | x :: r =>
      match elem x with
      | Err e => Err e
      | Ok a => match decodeElems elem r with
                | Err e => Err e
                | Ok rs => Ok (a :: rs)
                end
      end
  end.

Fixpoint decodeEntries {A : Type} (elem : any -> result A)
    (l : list (string * any)) : result (list (string * A)) :=
  match l with
  | [] => Ok []
  | (k, x) :: r =>
      match elem x with
      | Err e => Err e
      | Ok a => match decodeEntries elem r with
                | Err e => Err e
                | Ok rs => Ok ((k, a) :: rs)
                end
      end
  end.

(** Decoding into a nil slice [var xs []T]: [null] leaves it nil, an array
    (also the empty one) makes it non-nil, anything else is a type error. *)
Definition toSlice {A : Type} (T : string) (elem : any -> result A) (a : any)
  : result (GoSlice A) :=
  match a with
  | Nil => Ok NilSlice
  | Slice l => match decodeElems elem l with
               | Err e => Err e
               | Ok xs => Ok (SliceOf xs)
               end
  | _ => Err (typeError (jsonKind a) ("[]" ++ T))
  end.

(** Decoding into a nil map [var m map[string]T]. *)
Definition toMap {A : Type} (T : string) (elem : any -> result A) (a : any)
  : result (GoMap A) :=
  match a with
  | Nil => Ok NilMap
  | Map l => match decodeEntries elem l with
             | Err e => Err e
             | Ok xs => Ok (MapOf xs)
             end
  | _ => Err (typeError (jsonKind a) ("map[string]" ++ T))
  end.

End Json.

(** ** [net/url]: [QueryEscape] *)

Module GoURL.
Import GoFmt.

Definition isAlnum (c : ascii) : bool :=
  let n := code c in
  ((97 <=? n) && (n <=? 122) || (65 <=? n) && (n <=? 90)
   || (48 <=? n) && (n <=? 57))%Z.

(** [shouldEscape(c, encodeQueryComponent)]: letters, digits and the marks
    [-], [_], [.], [~] stay; the reserved characters and everything else are
    escaped. *)
Definition shouldEscape (c : ascii) : bool :=
  if isAlnum c then false
  else if (Ascii.eqb c "-" || Ascii.eqb c "_" || Ascii.eqb c "." || Ascii.eqb c "~")%bool
       then false
       else true.

(** ["0123456789ABCDEF"[n]] for [0 <= n < 16]. *)
Definition upperhex (n : Z) : ascii :=
  if (n <? 10)%Z then byte_of (48 + n) else byte_of (55 + n).

(** [func QueryEscape(s string) string]: a space becomes [+], every other
    byte to escape becomes [%] and two upper-case hexadecimal digits. *)
Fixpoint QueryEscape (s : string) : string :=
  match s with
  | EmptyString => EmptyString
  | String c s' =>
      if Ascii.eqb c " " then String "+" (QueryEscape s')
      else if shouldEscape c
           then String "%" (String (upperhex (Z.shiftr (code c) 4))
                              (String (upperhex (Z.land (code c) 15))
                                 (QueryEscape s')))
           else String c (QueryEscape s')
  end.

Definition isHex (c : ascii) : bool :=
  let n := code c in
  ((48 <=? n) && (n <=? 57) || (65 <=? n) && (n <=? 70)
   || (97 <=? n) && (n <=? 102))%Z.

(** The characters RFC 3986 allows in a path segment besides the
    percent-encoded triplets: unreserved, sub-delimiters, [:] and [@]. *)
Definition isSegmentChar (c : ascii) : bool :=
  isAlnum c
  || existsb (Ascii.eqb c)
       ["-"; "."; "_"; "~"; "!"; "$"; "&"; "'"; "("; ")"; "*"; "+"; ","; ";";
        "="; ":"; "@"]%char.

(** A well-formed path segment: segment characters and [%XX] triplets. *)
Fixpoint wellFormedSegment (s : string) : bool :=
  match s with
  | EmptyString => true
  | String c s' =>
      if Ascii.eqb c "%" then
        match s' with
        | String h1 (String h2 s'') =>
            isHex h1 && isHex h2 && wellFormedSegment s''
        | _ => false
        end
      else isSegmentChar c && wellFormedSegment s'
  end.

(** What [QueryEscape] writes for one byte. *)
Definition escapeByte (c : ascii) : string := QueryEscape (String c "").

(** One unit of an escaped string: a segment character, or a [%XX] triplet. *)
Definition escapedUnit (p : string) : bool :=
  match p with
  | String c EmptyString => isSegmentChar c
  | String c (String h1 (String h2 EmptyString)) =>
      Ascii.eqb c "%" && (isHex h1 && isHex h2)
  | _ => false
  end.

(** A well-formed path: segments separated by [/]. *)
Definition wellFormedPath (p : string) : bool :=
  forallb wellFormedSegment (GoStrings.Split p "/").

(** [shouldEscape(c, encodePathSegment)]: letters, digits and the marks stay;
    of the reserved characters [$ & + , / : ; = ? @] the four that give a
    path segment its structure, [/ ; , ?], are escaped and the other six
    stay; everything else is escaped. *)
Definition shouldEscapeSegment (c : ascii) : bool :=
  if isAlnum c then false
  else if (Ascii.eqb c "-" || Ascii.eqb c "_" || Ascii.eqb c "." || Ascii.eqb c "~")%bool
       then false
       else if existsb (Ascii.eqb c)
                 ["$"; "&"; "+"; ","; "/"; ":"; ";"; "="; "?"; "@"]%char
            then (Ascii.eqb c "/" || Ascii.eqb c ";" || Ascii.eqb c ","
                  || Ascii.eqb c "?")%bool
            else true.

(** [func PathEscape(s string) string]: every byte to escape becomes [%] and
    two upper-case hexadecimal digits (a space too: only [QueryEscape] writes
    it as [+]). *)
Fixpoint PathEscape (s : string) : string :=
  match s with
  | EmptyString => EmptyString
  | String c s' =>
      if shouldEscapeSegment c
      then String "%" (String (upperhex (Z.shiftr (code c) 4))
                         (String (upperhex (Z.land (code c) 15))
                            (PathEscape s')))
      else String c (PathEscape s')
  end.

(** The bytes [QueryEscape] can write: letters, digits, the four marks, [+]
    for a space and [%] in front of two hexadecimal digits. *)
Definition isQueryByte (c : ascii) : bool :=
  isAlnum c
  || existsb (Ascii.eqb c) ["-"; "_"; "."; "~"; "+"; "%"]%char.

(** The bytes [PathEscape] can write: letters, digits, the four marks, the
    six reserved characters it leaves alone and [%] in front of two
    hexadecimal digits. *)
Definition isPathSegmentByte (c : ascii) : bool :=
  isAlnum c
  || existsb (Ascii.eqb c)
       ["-"; "_"; "."; "~"; "$"; "&"; "+"; ":"; "="; "@"; "%"]%char.

Fixpoint allBytes (P : ascii -> bool) (s : string) : bool :=
  match s with
  | EmptyString => true
  | String c s' => P c && allBytes P s'
  end.

End GoURL.

(** * The SDK with an integer response code ([src/client]) *)

Module Client.
Import Json.

(** ** The envelope ([types.go])

    [type APIResponseCode int] with [ERROR APIResponseCode = iota] and [OK]
    after it. *)
Definition APIResponseCode : Type := Z.
Definition ERROR : APIResponseCode := 0%Z.
Definition OK : APIResponseCode := 1%Z.

(** [func (code APIResponseCode) HttpStatus() int] *)
Definition HttpStatus (code : APIResponseCode) : Z :=
  if (code =? OK)%Z then 200%Z else 500%Z.

Record APIResponse : Type := mkAPIResponse {
  Code : APIResponseCode;
  Message : string;
  Details : any
}.

(** [var response APIResponse]: every field at the zero value of its type. *)
Definition zeroAPIResponse : APIResponse :=
  {| Code := 0%Z; Message := ""; Details := Nil |}.

(** One member of the envelope object: a key that names no field is
    skipped; [null] leaves a field of a number or string type as it is; a
    value of the wrong JSON type is a type error. *)
Definition setField (r : APIResponse) (key : string) (v : json)
  : result APIResponse :=
  match fieldOf key with
  | None => Ok r
  | Some FCode =>
      match v with
      | JNull => Ok r
      | JNumber n =>
          match asInt n with
          | Some i => Ok {| Code := i; Message := Message r; Details := Details r |}
          | None => Err (typeError "number" "client.APIResponseCode")
          end
      | JBool _ => Err (typeError "bool" "client.APIResponseCode")
      | JString _ => Err (typeError "string" "client.APIResponseCode")
      | JArray _ => Err (typeError "array" "client.APIResponseCode")
      | JObject _ => Err (typeError "object" "client.APIResponseCode")
      end
  | Some FMessage =>
      match v with
      | JNull => Ok r
      | JString m => Ok {| Code := Code r; Message := m; Details := Details r |}
      | JBool _ => Err (typeError "bool" "string")
      | JNumber _ => Err (typeError "number" "string")
      | JArray _ => Err (typeError "array" "string")
      | JObject _ => Err (typeError "object" "string")
      end
  | Some FDetails =>
      match toAny v with
      | Err e => Err e
      | Ok d => Ok {| Code := Code r; Message := Message r; Details := d |}
      end
  end.

Fixpoint setFields (r : APIResponse) (members : list (string * json))
  : result APIResponse :=
  match members with
  | [] => Ok r
  | (k, v) :: rest =>
      match setField r k v with
      | Err e => Err e
      | Ok r' => setFields r' rest
      end
  end.

(** [json.Unmarshal(body, &response)] into a zero [APIResponse], for a body
    that is valid JSON. *)
Definition unmarshalAPIResponse (j : json) : result APIResponse :=
  match j with
  | JNull => Ok zeroAPIResponse
  | JObject members => setFields zeroAPIResponse members
  | JBool _ => Err (typeError "bool" "client.APIResponse")
  | JNumber _ => Err (typeError "number" "client.APIResponse")
  | JString _ => Err (typeError "string" "client.APIResponse")
  | JArray _ => Err (typeError "array" "client.APIResponse")
  end.

(** ** The transport as the operations see it ([client.go]) *)

(** What one HTTP exchange comes to: [parsed] is the body as a JSON
    document, or the syntax error of [encoding/json]. *)
Inductive HttpOutcome : Type :=
| RequestInvalid (cause : error)
| RequestFailed (cause : error)
| ReadFailed (status : Z) (cause : error)
| Responded (status : Z) (body : string) (parsed : result json).

(** [getJSON] and [postJSON]: [doRequest] then [parseResponse] with the
    envelope as target. *)
Definition getJSON (o : HttpOutcome) : result APIResponse :=
  match o with
  | RequestInvalid cause => Err ("failed to create request: " ++ cause)
  | RequestFailed cause => Err ("failed to execute request: " ++ cause)
  | ReadFailed _ cause => Err ("failed to read response body: " ++ cause)
  | Responded status body parsed =>
      if (400 <=? status)%Z then
        Err ("API request failed with status " ++ GoFmt.FormatInt status
             ++ ": " ++ body)
      else
        match bind parsed unmarshalAPIResponse with
        | Err e => Err ("failed to parse response: " ++ e
                        ++ " (body: " ++ body ++ ")")
        | Ok r => Ok r
        end
  end.

(** ** The operations

    Every operation that reads an envelope has the same shape: [getJSON] (or
    [postJSON]), the test [response.Code != OK] with an error made of a
    fixed prefix and [response.Message], and a conversion of
    [response.Details].  [Conv] names the conversions that occur. *)
Inductive Conv : Type :=
| CNone                                   (* [return nil] *)
| CRecord (T : string)                    (* [convertToT(response.Details)] *)
| CRecordWrapped (T : string)             (* the same, its error wrapped *)
| CRecordChecked (T : string) (nilMsg : string)
                                          (* a nil check, then [CRecordWrapped] *)
| CSlice (T : string)                     (* [convertToTSlice] *)
| CStringSlice                            (* [convertToStringSlice] *)
| CPoolInstancesMap                       (* [convertToPoolInstancesMap] *)
| CKeys                                   (* strings, then [ParseInstanceKey] *)
| CFilters                                (* strings, as filter patterns *)
| CBool                                   (* [convertToBool] *)
| CStringOrSprint                         (* nil, a string, or [fmt.Sprint] *)
| CLag                                    (* the type switch of the lag accessor *)
| CInlineSlice (T : string) (msg : string)   (* Marshal and Unmarshal in place *)
| CInlineMap (T : string) (msg : string)
| CInlineMapNilChecked (T : string) (msg : string)
| CInlineRecord (T : string) (msg : string).

Record Operation : Type := mkOp {
  opName : string;
  opErrPrefix : string;
  opConv : Conv
}.

(** The methods of [*Client] that read an envelope, by source document.
    (The four [getPlainText] methods and [GetRaftSnapshot] read no envelope
    and are not listed.) *)
Definition operations : list Operation := [
  (* src/client/agent.go *)
  mkOp "GetAgents" "API error: " (CSlice "Agent");
  mkOp "GetAgent" "API error: " (CRecord "Agent");
  mkOp "AgentUnmount" "API error: " (CNone);
  mkOp "AgentMount" "API error: " (CNone);
  mkOp "AgentCreateSnapshot" "API error: " (CNone);
  mkOp "AgentRemoveLV" "API error: " (CNone);
  mkOp "AgentMySQLStop" "API error: " (CNone);
  mkOp "AgentMySQLStart" "API error: " (CNone);
  mkOp "AgentSeed" "API error: " (CRecord "AgentSeed");
  mkOp "GetAgentActiveSeeds" "API error: " (CSlice "AgentSeed");
  mkOp "GetAgentRecentSeeds" "API error: " (CSlice "AgentSeed");
  mkOp "GetAgentSeedDetails" "API error: " (CRecord "AgentSeed");
  mkOp "GetAgentSeedStates" "API error: " (CSlice "AgentSeedState");
  mkOp "AbortAgentSeed" "API error: " (CNone);
  mkOp "AgentCustomCommand" "API error: " (CNone);
  mkOp "GetAllSeeds" "API error: " (CSlice "AgentSeed");
  (* src/client/cluster.go *)
  mkOp "GetCluster" "API error: " (CSlice "Instance");
  mkOp "GetClusterByAlias" "API error: " (CSlice "Instance");
  mkOp "GetClusterByInstance" "API error: " (CSlice "Instance");
  mkOp "GetClusterInfo" "API error: " (CRecord "ClusterInfo");
  mkOp "GetClusterInfoByAlias" "API error: " (CRecord "ClusterInfo");
  mkOp "GetClusterOSCReplicas" "API error: " (CSlice "Instance");
  mkOp "SetClusterAlias" "API error: " (CNone);
  mkOp "GetClusters" "API error: " (CStringSlice);
  mkOp "GetClustersInfo" "API error: " (CSlice "ClusterInfo");
  mkOp "GetClusterMaster" "API error: " (CRecordWrapped "Instance");
  mkOp "GetAllMasters" "API error: " (CSlice "Instance");
  mkOp "ReloadClusterAlias" "API error: " (CNone);
  (* src/client/extended_test.go (second document) *)
  mkOp "BeginMaintenance" "API error: " (CRecord "Maintenance");
  mkOp "BeginMaintenanceWithDuration" "API error: " (CRecord "Maintenance");
  mkOp "EndMaintenanceByInstance" "API error: " (CRecord "Maintenance");
  mkOp "EndMaintenanceByKey" "API error: " (CRecord "Maintenance");
  mkOp "InMaintenance" "API error: " (CBool);
  mkOp "GetMaintenance" "API error: " (CSlice "Maintenance");
  mkOp "BeginDowntime" "API error: " (CRecordWrapped "Instance");
  mkOp "BeginDowntimeWithDuration" "API error: " (CRecordWrapped "Instance");
  mkOp "EndDowntime" "API error: " (CRecordWrapped "Instance");
  mkOp "GetDowntimedInstances" "API error: " (CSlice "Instance");
  mkOp "GetDowntimedInstancesByCluster" "API error: " (CSlice "Instance");
  (* src/client/instance.go *)
  mkOp "GetInstance" "API error: " (CRecordChecked "Instance" "no instance data in response");
  mkOp "GetInstanceReplicas" "API error: " (CSlice "Instance");
  mkOp "DiscoverInstance" "API error: " (CRecordWrapped "Instance");
  mkOp "AsyncDiscoverInstance" "API error: " (CRecordWrapped "Instance");
  mkOp "RefreshInstance" "API error: " (CRecordWrapped "Instance");
  mkOp "ForgetInstance" "API error: " (CRecordWrapped "Instance");
  mkOp "ForgetCluster" "API error: " (CSlice "Instance");
  mkOp "GetAllInstances" "API error: " (CSlice "Instance");
  mkOp "ResolveInstance" "API error: " (CRecordWrapped "Instance");
  mkOp "SetReadOnly" "API error: " (CRecordWrapped "Instance");
  mkOp "SetWriteable" "API error: " (CRecordWrapped "Instance");
  mkOp "KillQuery" "API error: " (CRecordWrapped "Instance");
  mkOp "SearchInstances" "API error: " (CSlice "Instance");
  mkOp "SearchAllInstances" "API error: " (CSlice "Instance");
  mkOp "BulkInstances" "API error: " (CSlice "Instance");
  mkOp "GetProblems" "API error: " (CSlice "Instance");
  mkOp "GetClusterProblems" "API error: " (CSlice "Instance");
  (* src/client/monitoring.go *)
  mkOp "GetDiscoveryMetricsRaw" "API error: " (CInlineSlice "DiscoveryMetric" "failed to unmarshal discovery metrics: ");
  mkOp "GetDiscoveryMetricsAggregated" "API error: " (CInlineSlice "DiscoveryMetric" "failed to unmarshal discovery metrics: ");
  mkOp "GetDiscoveryQueueMetricsRaw" "API error: " (CInlineSlice "DiscoveryQueueMetric" "failed to unmarshal queue metrics: ");
  mkOp "GetDiscoveryQueueMetricsAggregated" "API error: " (CInlineSlice "DiscoveryQueueMetric" "failed to unmarshal queue metrics: ");
  mkOp "GetDiscoveryQueueMetricsRawByQueue" "API error: " (CInlineSlice "DiscoveryQueueMetric" "failed to unmarshal queue metrics: ");
  mkOp "GetDiscoveryQueueMetricsAggregatedByQueue" "API error: " (CInlineSlice "DiscoveryQueueMetric" "failed to unmarshal queue metrics: ");
  mkOp "GetBackendQueryMetricsRaw" "API error: " (CInlineSlice "BackendQueryMetric" "failed to unmarshal backend metrics: ");
  mkOp "GetBackendQueryMetricsAggregated" "API error: " (CInlineSlice "BackendQueryMetric" "failed to unmarshal backend metrics: ");
  mkOp "GetWriteBufferMetricsRaw" "API error: " (CInlineSlice "WriteBufferMetric" "failed to unmarshal write buffer metrics: ");
  mkOp "GetWriteBufferMetricsAggregated" "API error: " (CInlineSlice "WriteBufferMetric" "failed to unmarshal write buffer metrics: ");
  (* src/client/recovery.go *)
  mkOp "GetReplicationAnalysis" "API error: " (CSlice "ReplicationAnalysis");
  mkOp "GetClusterReplicationAnalysis" "API error: " (CSlice "ReplicationAnalysis");
  mkOp "GetInstanceReplicationAnalysis" "API error: " (CRecord "ReplicationAnalysis");
  mkOp "GetReplicationAnalysisChangelog" "API error: " (CSlice "ReplicationAnalysis");
  mkOp "RecoverInstance" "API error: " (CRecord "TopologyRecovery");
  mkOp "RecoverInstanceWithCandidate" "API error: " (CRecord "TopologyRecovery");
  mkOp "RecoverLite" "API error: " (CRecord "TopologyRecovery");
  mkOp "RecoverLiteWithCandidate" "API error: " (CRecord "TopologyRecovery");
  mkOp "GracefulMasterTakeoverInstance" "API error: " (CRecord "TopologyRecovery");
  mkOp "GracefulMasterTakeoverCluster" "API error: " (CRecord "TopologyRecovery");
  mkOp "GracefulMasterTakeoverInstanceWithDesignated" "API error: " (CRecord "TopologyRecovery");
  mkOp "GracefulMasterTakeoverClusterWithDesignated" "API error: " (CRecord "TopologyRecovery");
  mkOp "GracefulMasterTakeoverAutoInstance" "API error: " (CRecord "TopologyRecovery");
  mkOp "GracefulMasterTakeoverAutoCluster" "API error: " (CRecord "TopologyRecovery");
  mkOp "ForceMasterFailoverInstance" "API error: " (CRecord "TopologyRecovery");
  mkOp "ForceMasterFailoverCluster" "API error: " (CRecord "TopologyRecovery");
  mkOp "ForceMasterTakeoverCluster" "API error: " (CRecord "TopologyRecovery");
  mkOp "ForceMasterTakeoverInstance" "API error: " (CRecord "TopologyRecovery");
  mkOp "RegisterCandidate" "API error: " (CRecordWrapped "Instance");
  mkOp "GetAutomatedRecoveryFilters" "API error: " (CFilters);
  mkOp "AuditFailureDetection" "API error: " (CSlice "ReplicationAnalysis");
  mkOp "AuditFailureDetectionByID" "API error: " (CRecord "ReplicationAnalysis");
  mkOp "AuditFailureDetectionByAlias" "API error: " (CSlice "ReplicationAnalysis");
  mkOp "AuditRecovery" "API error: " (CSlice "TopologyRecovery");
  mkOp "AuditRecoveryByID" "API error: " (CRecord "TopologyRecovery");
  mkOp "AuditRecoveryByUID" "API error: " (CSlice "TopologyRecovery");
  mkOp "AuditRecoveryByCluster" "API error: " (CSlice "TopologyRecovery");
  mkOp "AuditRecoveryByAlias" "API error: " (CSlice "TopologyRecovery");
  mkOp "AuditRecoverySteps" "API error: " (CSlice "RecoveryStep");
  mkOp "GetActiveClusterRecovery" "API error: " (CRecord "TopologyRecovery");
  mkOp "GetRecentlyActiveClusterRecovery" "API error: " (CSlice "TopologyRecovery");
  mkOp "GetRecentlyActiveInstanceRecovery" "API error: " (CSlice "TopologyRecovery");
  mkOp "AcknowledgeClusterRecovery" "API error: " (CRecord "TopologyRecovery");
  mkOp "AcknowledgeClusterRecoveryByAlias" "API error: " (CRecord "TopologyRecovery");
  mkOp "AcknowledgeInstanceRecovery" "API error: " (CRecord "TopologyRecovery");
  mkOp "AcknowledgeRecoveryByID" "API error: " (CRecord "TopologyRecovery");
  mkOp "AcknowledgeRecoveryByUID" "API error: " (CRecord "TopologyRecovery");
  mkOp "AcknowledgeAllRecoveries" "API error: " (CSlice "TopologyRecovery");
  mkOp "GetBlockedRecoveries" "API error: " (CInlineSlice "BlockedTopologyRecovery" "failed to unmarshal blocked recoveries: ");
  mkOp "GetBlockedRecoveriesByCluster" "API error: " (CInlineSlice "BlockedTopologyRecovery" "failed to unmarshal blocked recoveries: ");
  mkOp "DisableGlobalRecoveries" "API error: " (CNone);
  mkOp "EnableGlobalRecoveries" "API error: " (CNone);
  mkOp "CheckGlobalRecoveries" "API error: " (CBool);
  (* src/client/tagging.go *)
  mkOp "GetTaggedInstances" "API error: " (CSlice "Instance");
  mkOp "GetInstanceTags" "API error: " (CInlineSlice "Tag" "failed to unmarshal tags: ");
  mkOp "GetInstanceTagValue" "API error: " (CInlineMap "string" "failed to unmarshal tag values: ");
  mkOp "GetInstanceSpecificTagValue" "API error: " (CStringOrSprint);
  mkOp "GetInstanceTag" "API error: " (CInlineSlice "Tag" "failed to unmarshal tags: ");
  mkOp "TagInstance" "API error: " (CRecordWrapped "Instance");
  mkOp "UntagInstance" "API error: " (CRecordWrapped "Instance");
  mkOp "UntagInstanceSpecific" "API error: " (CRecordWrapped "Instance");
  mkOp "UntagAll" "API error: " (CSlice "Instance");
  mkOp "UntagAllSpecific" "API error: " (CSlice "Instance");
  (* src/go/client/recovery.go (third document) *)
  mkOp "Relocate" "API error: " (CRecordWrapped "Instance");
  mkOp "RelocateBelow" "API error: " (CRecordWrapped "Instance");
  mkOp "RelocateReplicas" "API error: " (CSlice "Instance");
  mkOp "RegroupReplicas" "API error: " (CSlice "Instance");
  mkOp "MoveUp" "API error: " (CRecordWrapped "Instance");
  mkOp "MoveUpReplicas" "API error: " (CSlice "Instance");
  mkOp "MoveBelow" "API error: " (CRecordWrapped "Instance");
  mkOp "MoveEquivalent" "API error: " (CRecordWrapped "Instance");
  mkOp "Repoint" "API error: " (CRecordWrapped "Instance");
  mkOp "RepointReplicas" "API error: " (CSlice "Instance");
  mkOp "MakeCoMaster" "API error: " (CRecordWrapped "Instance");
  mkOp "TakeSiblings" "API error: " (CRecordWrapped "Instance");
  mkOp "TakeMaster" "API error: " (CRecordWrapped "Instance");
  mkOp "MasterEquivalent" "API error: " (CRecordWrapped "Instance");
  mkOp "RegroupReplicasBinlogServers" "API error: " (CSlice "Instance");
  mkOp "MoveBelowGTID" "API error: " (CRecordWrapped "Instance");
  mkOp "MoveReplicasGTID" "API error: " (CSlice "Instance");
  mkOp "RegroupReplicasGTID" "API error: " (CSlice "Instance");
  mkOp "Match" "API error: " (CRecordWrapped "Instance");
  mkOp "MatchBelow" "API error: " (CRecordWrapped "Instance");
  mkOp "MatchUp" "API error: " (CRecordWrapped "Instance");
  mkOp "MatchReplicas" "API error: " (CSlice "Instance");
  mkOp "MatchUpReplicas" "API error: " (CSlice "Instance");
  mkOp "RegroupReplicasPseudoGTID" "API error: " (CSlice "Instance");
  mkOp "CanReplicateFrom" "API error: " (CRecordWrapped "Instance");
  mkOp "CanReplicateFromGTID" "API error: " (CRecordWrapped "Instance");
  mkOp "LastPseudoGTID" "API error: " (CRecordWrapped "Instance");
  mkOp "GetTopologyTags" "API error: " (CSlice "Instance");
  mkOp "GetTopologyTagsFromInstance" "API error: " (CSlice "Instance");
  mkOp "SnapshotTopologies" "API error: " (CKeys);
  (* src/go/client/recovery.go (fourth document) *)
  mkOp "StartReplica" "API error: " (CRecordWrapped "Instance");
  mkOp "RestartReplica" "API error: " (CRecordWrapped "Instance");
  mkOp "StopReplica" "API error: " (CRecordWrapped "Instance");
  mkOp "StopReplicaNice" "API error: " (CRecordWrapped "Instance");
  mkOp "ResetReplica" "API error: " (CRecordWrapped "Instance");
  mkOp "DetachReplica" "API error: " (CRecordWrapped "Instance");
  mkOp "ReattachReplica" "API error: " (CRecordWrapped "Instance");
  mkOp "DetachReplicaMasterHost" "API error: " (CRecordWrapped "Instance");
  mkOp "ReattachReplicaMasterHost" "API error: " (CRecordWrapped "Instance");
  mkOp "SkipQuery" "API error: " (CRecordWrapped "Instance");
  mkOp "FlushBinaryLogs" "API error: " (CRecordWrapped "Instance");
  mkOp "PurgeBinaryLogs" "API error: " (CRecordWrapped "Instance");
  mkOp "RestartReplicaStatements" "API error: " (CStringSlice);
  mkOp "DelayReplication" "API error: " (CRecordWrapped "Instance");
  mkOp "EnableSemiSyncMaster" "API error: " (CRecordWrapped "Instance");
  mkOp "DisableSemiSyncMaster" "API error: " (CRecordWrapped "Instance");
  mkOp "EnableSemiSyncReplica" "API error: " (CRecordWrapped "Instance");
  mkOp "DisableSemiSyncReplica" "API error: " (CRecordWrapped "Instance");
  (* src/unnamed/part_000 *)
  mkOp "EnableGTID" "API error: " (CRecordWrapped "Instance");
  mkOp "DisableGTID" "API error: " (CRecordWrapped "Instance");
  mkOp "LocateErrantGTID" "API error: " (CRecordWrapped "Instance");
  mkOp "GTIDErrantResetMaster" "API error: " (CRecordWrapped "Instance");
  mkOp "GTIDErrantInjectEmpty" "API error: " (CRecordWrapped "Instance");
  (* src/unnamed/part_001 (second document) *)
  mkOp "SubmitPoolInstances" "API error: " (CNone);
  mkOp "GetClusterPoolInstances" "API error: " (CPoolInstancesMap);
  mkOp "GetClusterPoolInstancesForPool" "API error: " (CKeys);
  mkOp "GetHeuristicClusterPoolInstances" "API error: " (CPoolInstancesMap);
  mkOp "GetHeuristicClusterPoolInstancesForPool" "API error: " (CKeys);
  mkOp "GetHeuristicClusterPoolLag" "API error: " (CInlineMap "int64" "failed to unmarshal lag map: ");
  mkOp "GetHeuristicClusterPoolLagForPool" "API error: " (CLag);
  mkOp "SubmitMastersToKVStores" "API error: " (CNone);
  mkOp "SubmitClusterMasterToKVStores" "API error: " (CNone);
  mkOp "GetAudit" "API error: " (CSlice "AuditEntry");
  mkOp "GetAuditForInstance" "API error: " (CSlice "AuditEntry");
  mkOp "GetHeaders" "API error: " (CInlineMap "[]string" "failed to unmarshal headers: ");
  mkOp "Health" "health check failed: " (CNone);
  mkOp "LBCheck" "LB check failed: " (CNone);
  mkOp "Ping" "ping failed: " (CNone);
  mkOp "LeaderCheck" "leader check failed: " (CNone);
  mkOp "LeaderCheckWithErrorCode" "leader check failed: " (CNone);
  mkOp "Status" "API error: " (CInlineMap "interface {}" "failed to unmarshal status: ");
  mkOp "ReloadConfiguration" "API error: " (CNone);
  mkOp "GetHostnameResolveCache" "API error: " (CInlineSlice "HostnameResolveCache" "failed to unmarshal hostname cache: ");
  mkOp "ResetHostnameResolveCache" "API error: " (CNone);
  mkOp "DeregisterHostnameUnresolve" "API error: " (CNone);
  mkOp "RegisterHostnameUnresolve" "API error: " (CNone);
  mkOp "BulkPromotionRules" "API error: " (CInlineMap "CandidatePromotionRule" "failed to unmarshal promotion rules: ");
  (* src/unnamed/part_002 (second document) *)
  mkOp "GrabElection" "API error: " (CNone);
  mkOp "AddRaftPeer" "API error: " (CNone);
  mkOp "RemoveRaftPeer" "API error: " (CNone);
  mkOp "YieldRaft" "API error: " (CNone);
  mkOp "YieldRaftHint" "API error: " (CNone);
  mkOp "GetRaftPeers" "API error: " (CStringSlice);
  mkOp "GetRaftState" "API error: " (CInlineRecord "RaftState" "failed to unmarshal raft state: ");
  mkOp "GetRaftLeader" "API error: " (CStringOrSprint);
  mkOp "GetRaftHealth" "API error: " (CInlineRecord "RaftMembershipHealth" "failed to unmarshal raft health: ");
  mkOp "GetRaftStatus" "API error: " (CInlineMapNilChecked "interface {}" "failed to unmarshal raft status: ");
  mkOp "SubmitRaftFollowerHealthReport" "API error: " (CNone);
  mkOp "Reelect" "API error: " (CNone)
].

(** ** Request paths

    The methods build their path with [fmt.Sprintf] from the parameters as
    they are; three of those that take free-form strings.  ([client.go]
    also declares [buildPath], which applies [url.PathEscape] to every
    parameter; no method calls it.) *)

(** [SearchInstances]: [fmt.Sprintf("/api/search/%s", searchString)] *)
Definition SearchInstances_path (searchString : string) : string :=
  "/api/search/" ++ searchString.

(** [BeginDowntime]: [fmt.Sprintf("/api/begin-downtime/%s/%d/%s/%s",
    instanceKey.Hostname, instanceKey.Port, owner, reason)] *)
Definition BeginDowntime_path (instanceKey : InstanceKey) (owner reason : string)
  : string :=
  "/api/begin-downtime/" ++ Hostname instanceKey ++ "/"
  ++ GoFmt.FormatInt (Port instanceKey) ++ "/" ++ owner ++ "/" ++ reason.

(** [TagInstance]: [fmt.Sprintf("/api/tag/%s/%d/%s/%s",
    instanceKey.Hostname, instanceKey.Port, tagName, tagValue)] *)
Definition TagInstance_path (instanceKey : InstanceKey) (tagName tagValue : string)
  : string :=
  "/api/tag/" ++ Hostname instanceKey ++ "/"
  ++ GoFmt.FormatInt (Port instanceKey) ++ "/" ++ tagName ++ "/" ++ tagValue.

(** ** Converting [response.Details] ([helpers.go])

    The structs of [types.go] are not spelled out: [Rec] stands for their
    decoded values and [unmarshalRecord T data] for
    [json.Unmarshal(jsonData, &v)] with [jsonData] the [json.Marshal] of
    [data] and [v] a zero value of the type named [T] (the marshalling of
    a decoded JSON value cannot fail).  [formatFloat] is the [%v] form of a
    [float64]; [float64_overflow] is the result of converting to [int64] a
    [float64] that no [int64] represents, which Go leaves to the
    implementation. *)
Section Conversions.
Variable Rec : Type.
Variable unmarshalRecord : string -> any -> result Rec.
Variable formatFloat : float64 -> string.
Variable float64_overflow : float64 -> Z.

(** The twelve [convertToT] helpers for a struct [T] differ in the type
    name only. *)
Definition convertToRecord (T : string) (data : any) : result Rec :=
  if is_nil data then Err "nil data"
  else wrap ("failed to unmarshal to " ++ T ++ ": ") (unmarshalRecord T data).

(** The [convertToTSlice] helpers: [if data == nil { return []T{}, nil }]. *)
Definition convertToSlice (T : string) (data : any) : result (GoSlice Rec) :=
  if is_nil data then Ok (SliceOf [])
  else wrap ("failed to unmarshal to []" ++ T ++ ": ")
         (toSlice T (unmarshalRecord T) data).

Definition convertToInstance := convertToRecord "Instance".
Definition convertToInstanceSlice := convertToSlice "Instance".
Definition convertToClusterInfo := convertToRecord "ClusterInfo".
Definition convertToClusterInfoSlice := convertToSlice "ClusterInfo".
Definition convertToReplicationAnalysis := convertToRecord "ReplicationAnalysis".
Definition convertToReplicationAnalysisSlice := convertToSlice "ReplicationAnalysis".
Definition convertToTopologyRecovery := convertToRecord "TopologyRecovery".
Definition convertToTopologyRecoverySlice := convertToSlice "TopologyRecovery".
Definition convertToMaintenance := convertToRecord "Maintenance".
Definition convertToMaintenanceSlice := convertToSlice "Maintenance".
Definition convertToAgent := convertToRecord "Agent".
Definition convertToAgentSlice := convertToSlice "Agent".
Definition convertToAgentSeed := convertToRecord "AgentSeed".
Definition convertToAgentSeedSlice := convertToSlice "AgentSeed".
Definition convertToAgentSeedStateSlice := convertToSlice "AgentSeedState".
Definition convertToAuditEntrySlice := convertToSlice "AuditEntry".
Definition convertToRecoveryStepSlice := convertToSlice "RecoveryStep".

(** [func convertToStringSlice(data interface{}) ([]string, error)] *)
Definition convertToStringSlice (data : any) : result (GoSlice string) :=
  if is_nil data then Ok (SliceOf [])
  else wrap "failed to unmarshal to []string: "
         (toSlice "string" (toString "") data).

(** [func convertToPoolInstancesMap(data interface{}) (PoolInstancesMap, error)]
    with [type PoolInstancesMap map[string][]InstanceKey]. *)
Definition convertToPoolInstancesMap (data : any) : result (GoMap Rec) :=
  if is_nil data then Ok (MapOf [])
  else wrap "failed to unmarshal to PoolInstancesMap: "
         (toMap "[]client.InstanceKey" (unmarshalRecord "[]InstanceKey") data).

(** [func convertToBool(data interface{}) (bool, error)] *)
Definition convertToBool (data : any) : result bool :=
  match data with
  | Nil => Err "nil data"
  | Bool b => Ok b
  | _ => Err "data is not a bool"
  end.

(** [fmt.Sprint] of one operand. *)
Fixpoint Sprint (a : any) : string :=
  match a with
  | Nil => "<nil>"
  | Bool b => if b then "true" else "false"
  | Float64 f => formatFloat f
  | Int64 i => GoFmt.FormatInt i
  | Int i => GoFmt.FormatInt i
  | Str s => s
  | Slice elems =>
      let fix go (l : list any) : string :=
        match l with
        | [] => ""
        | [x] => Sprint x
        | x :: r => Sprint x ++ " " ++ go r
        end in
      "[" ++ go elems ++ "]"
  | Map entries =>
      let fix go (l : list (string * any)) : string :=
        match l with
        | [] => ""
        | [(k, x)] => k ++ ":" ++ Sprint x
        | (k, x) :: r => k ++ ":" ++ Sprint x ++ " " ++ go r
        end in
      "map[" ++ go entries ++ "]"
  end.

(** The integer part of a finite [float64]. *)
Definition truncate (f : float64) : option Z :=
  match f with
  | S754_zero _ => Some 0%Z
  | S754_finite s m e =>
      let mag := if (0 <=? e)%Z then (Zpos m * 2 ^ e)%Z
                 else (Zpos m / 2 ^ (- e))%Z in
      Some (if s then (- mag)%Z else mag)
  | S754_infinity _ => None
  | S754_nan => None
  end.

(** [int64(v)] for [v float64]. *)
Definition int64_of_float64 (f : float64) : Z :=
  match truncate f with
  | Some t => if GoFmt.inInt64 t then t else float64_overflow f
  | None => float64_overflow f
  end.

(** The loop that both pool accessors and [SnapshotTopologies] run over
    the strings: [key, err := ParseInstanceKey(keyStr); if err != nil {
    continue }; keys = append(keys, key)]. *)
Fixpoint parseKeys (strs : list string) : list InstanceKey :=
  match strs with
  | [] => []
  | keyStr :: rest =>
      match ParseInstanceKey keyStr with
      | Err _ => parseKeys rest
      | Ok key => key :: parseKeys rest
      end
  end.

(** [range] over a slice visits the elements of a non-nil slice and
    nothing for a nil one. *)
Definition elements {A : Type} (s : GoSlice A) : list A :=
  match s with NilSlice => [] | SliceOf l => l end.

(** What an operation returns next to its [error]. *)
Inductive Value : Type :=
| VNone
| VRecord (r : Rec)
| VRecords (s : GoSlice Rec)
| VStrings (s : GoSlice string)
| VKeys (s : GoSlice InstanceKey)
| VFilters (s : GoSlice string)
| VRecordMap (m : GoMap Rec)
| VBool (b : bool)
| VString (s : string)
| VInt64 (i : Z).

Definition convert (c : Conv) (details : any) : result Value :=
  match c with
  | CNone => Ok VNone
  | CRecord T =>
      bind (convertToRecord T details) (fun r => Ok (VRecord r))
  | CRecordWrapped T =>
      bind (wrap "failed to convert response: " (convertToRecord T details))
           (fun r => Ok (VRecord r))
  | CRecordChecked T nilMsg =>
      if is_nil details then Err nilMsg
      else bind (wrap "failed to convert response: "
                   (convertToRecord T details))
                (fun r => Ok (VRecord r))
  | CSlice T =>
      bind (convertToSlice T details) (fun s => Ok (VRecords s))
  | CStringSlice =>
      bind (convertToStringSlice details) (fun s => Ok (VStrings s))
  | CPoolInstancesMap =>
      bind (convertToPoolInstancesMap details) (fun m => Ok (VRecordMap m))
  | CKeys =>
      bind (convertToStringSlice details)
           (fun strSlice => Ok (VKeys (SliceOf (parseKeys (elements strSlice)))))
  | CFilters =>
      bind (convertToStringSlice details)
           (fun jsonData => Ok (VFilters (SliceOf (elements jsonData))))
  | CBool =>
      bind (convertToBool details) (fun b => Ok (VBool b))
  | CStringOrSprint =>
      match details with
      | Nil => Ok (VString "")
      | Str str => Ok (VString str)
      | _ => Ok (VString (Sprint details))
      end
  | CLag =>
      match details with
      | Nil => Ok (VInt64 0%Z)
      | Float64 v => Ok (VInt64 (int64_of_float64 v))
      | Int64 v => Ok (VInt64 v)
      | Int v => Ok (VInt64 v)
      | _ => Err ("unexpected type for lag value: " ++ typeName details)
      end
  | CInlineSlice T msg =>
      bind (wrap msg (toSlice T (unmarshalRecord T) details))
           (fun s => Ok (VRecords s))
  | CInlineMap T msg =>
      bind (wrap msg (toMap T (unmarshalRecord T) details))
           (fun m => Ok (VRecordMap m))
  | CInlineMapNilChecked T msg =>
      if is_nil details then Ok (VRecordMap (MapOf []))
      else bind (wrap msg (toMap T (unmarshalRecord T) details))
                (fun m => Ok (VRecordMap m))
  | CInlineRecord T msg =>
      bind (wrap msg (unmarshalRecord T details)) (fun r => Ok (VRecord r))
  end.

(** The body every operation of the table shares. *)
Definition run (op : Operation) (o : HttpOutcome) : result Value :=
  match getJSON o with
  | Err err => Err err
  | Ok response =>
      if negb (Code response =? OK)%Z
      then Err (opErrPrefix op ++ Message response)
      else convert (opConv op) (Details response)
  end.

(** *** The methods the properties below name, written out *)

(** [func (c *Client) GetInstance(ctx, key)], returning [*Instance] and [error] *)
Definition GetInstance (o : HttpOutcome) : result Rec :=
  match getJSON o with
  | Err err => Err err
  | Ok response =>
      if negb (Code response =? OK)%Z
      then Err ("API error: " ++ Message response)
      else if is_nil (Details response)
      then Err "no instance data in response"
      else wrap "failed to convert response: "
             (convertToInstance (Details response))
  end.

(** [func (c *Client) GetInstanceReplicas(ctx, key) ([]Instance, error)] *)
Definition GetInstanceReplicas (o : HttpOutcome) : result (GoSlice Rec) :=
  match getJSON o with
  | Err err => Err err
  | Ok response =>
      if negb (Code response =? OK)%Z
      then Err ("API error: " ++ Message response)
      else convertToInstanceSlice (Details response)
  end.

(** [func (c *Client) Health(ctx) error] *)
Definition Health (o : HttpOutcome) : result unit :=
  match getJSON o with
  | Err err => Err err
  | Ok response =>
      if negb (Code response =? OK)%Z
      then Err ("health check failed: " ++ Message response)
      else Ok tt
  end.

(** [func (c *Client) CheckGlobalRecoveries(ctx) (bool, error)] *)
Definition CheckGlobalRecoveries (o : HttpOutcome) : result bool :=
  match getJSON o with
  | Err err => Err err
  | Ok response =>
      if negb (Code response =? OK)%Z
      then Err ("API error: " ++ Message response)
      else convertToBool (Details response)
  end.

(** [func (c *Client) GetRaftLeader(ctx) (string, error)] *)
Definition GetRaftLeader (o : HttpOutcome) : result string :=
  match getJSON o with
  | Err err => Err err
  | Ok response =>
      if negb (Code response =? OK)%Z
      then Err ("API error: " ++ Message response)
      else match Details response with
           | Nil => Ok ""
           | Str str => Ok str
           | d => Ok (Sprint d)
           end
  end.

(** [func (c *Client) GetClusterPoolInstancesForPool(ctx, clusterName, pool)
    ([]InstanceKey, error)]; [GetHeuristicClusterPoolInstancesForPool]
    has the same body after the path. *)
Definition GetClusterPoolInstancesForPool (o : HttpOutcome)
  : result (GoSlice InstanceKey) :=
  match getJSON o with
  | Err err => Err err
  | Ok response =>
      if negb (Code response =? OK)%Z
      then Err ("API error: " ++ Message response)
      else match convertToStringSlice (Details response) with
           | Err err => Err err
           | Ok strSlice => Ok (SliceOf (parseKeys (elements strSlice)))
           end
  end.

Definition GetHeuristicClusterPoolInstancesForPool (o : HttpOutcome)
  : result (GoSlice InstanceKey) :=
  match getJSON o with
  | Err err => Err err
  | Ok response =>
      if negb (Code response =? OK)%Z
      then Err ("API error: " ++ Message response)
      else match convertToStringSlice (Details response) with
           | Err err => Err err
           | Ok strSlice => Ok (SliceOf (parseKeys (elements strSlice)))
           end
  end.

(** [func (c *Client) GetHeuristicClusterPoolLagForPool(ctx, clusterName,
    pool) (int64, error)] *)
Definition GetHeuristicClusterPoolLagForPool (o : HttpOutcome) : result Z :=
  match getJSON o with
  | Err err => Err err
  | Ok response =>
      if negb (Code response =? OK)%Z
      then Err ("API error: " ++ Message response)
      else match Details response with
           | Nil => Ok 0%Z
           | Float64 v => Ok (int64_of_float64 v)
           | Int64 v => Ok v
           | Int v => Ok v
           | d => Err ("unexpected type for lag value: " ++ typeName d)
           end
  end.

End Conversions.

(** ** Notions the properties are stated with *)

(** The prefix of the error an operation returns for an envelope that is not
    [OK], by the name of the operation: the five probes of [part_001] have
    prefixes of their own. *)
Definition errPrefixOf (name : string) : string :=
  if String.eqb name "Health" then "health check failed: "
  else if String.eqb name "LBCheck" then "LB check failed: "
  else if String.eqb name "Ping" then "ping failed: "
  else if String.eqb name "LeaderCheck" then "leader check failed: "
  else if String.eqb name "LeaderCheckWithErrorCode" then "leader check failed: "
  else "API error: ".

(** An envelope object that does not give the code: every member named
    [Code] (under the decoder's matching of keys) is [null], which leaves the
    field as it is; in particular an object with no such member. *)
Definition omitsCode (members : list (string * json)) : Prop :=
  forall k v, In (k, v) members -> fieldOf k = Some FCode -> v = JNull.

(** The [float64] [f] holds exactly the integer [n]. *)
Definition holdsInteger (f : float64) (n : Z) : Prop :=
  match f with
  | S754_zero _ => n = 0%Z
  | S754_finite s m e =>
      let v := if s then Zneg m else Zpos m in
      if (0 <=? e)%Z then (v * 2 ^ e)%Z = n else v = (n * 2 ^ (- e))%Z
  | S754_infinity _ => False
  | S754_nan => False
  end.

(** The conversions that go through one of the slice or map helpers of
    [helpers.go], or through the nil check of [GetRaftStatus]. *)
Definition viaCollectionHelper (c : Conv) : bool :=
  match c with
  | CSlice _ | CStringSlice | CPoolInstancesMap | CKeys | CFilters
  | CInlineMapNilChecked _ _ => true
  | _ => false
  end.

(** An empty collection that is not nil. *)
Definition emptyNonNil {Rec : Type} (v : Value Rec) : bool :=
  match v with
  | VRecords _ (SliceOf []) => true
  | VStrings _ (SliceOf []) => true
  | VKeys _ (SliceOf []) => true
  | VFilters _ (SliceOf []) => true
  | VRecordMap _ (MapOf []) => true
  | _ => false
  end.

(** [n] is the integer part of the [float64] [f], the number left when the
    fraction is discarded: [f] is finite, [n] has the sign of [f] or is zero,
    and [|n| <= |f| < |n| + 1].  The value of [S754_finite s m e] is [m]
    times [2^e], negated when [s] is set; the inequalities are written
    without fractions. *)
Definition integerPart (f : float64) (n : Z) : Prop :=
  match f with
  | S754_zero _ => n = 0%Z
  | S754_finite s m e =>
      let a := if s then (- n)%Z else n in
      let num := (Zpos m * 2 ^ Z.max 0 e)%Z in
      let den := (2 ^ Z.max 0 (- e))%Z in
      (0 <= a)%Z /\ (a * den <= num)%Z /\ (num < (a + 1) * den)%Z
  | S754_infinity _ => False
  | S754_nan => False
  end.

(** [f] is a number, neither an infinity nor a NaN. *)
Definition isFinite (f : float64) : bool :=
  match f with
  | S754_zero _ | S754_finite _ _ _ => true
  | S754_infinity _ | S754_nan => false
  end.

(** What the lag accessor makes of the details, on its own: the nil test,
    [if response.Details == nil { return 0, nil }], and the type switch,
    [switch v := response.Details.(type) { case float64: return int64(v),
    nil; case int64: return v, nil; case int: return int64(v), nil;
    default: return 0, fmt.Errorf("unexpected type for lag value: %T",
    response.Details) }]. *)
Definition lagSwitch (float64_overflow : float64 -> Z) (details : any)
  : result Z :=
  match details with
  | Nil => Ok 0%Z
  | Float64 v => Ok (int64_of_float64 float64_overflow v)
  | Int64 v => Ok v
  | Int v => Ok v
  | d => Err ("unexpected type for lag value: " ++ typeName d)
  end.

(** The dynamic types the lag accessor converts. *)
Definition isLagNumber (a : any) : bool :=
  match a with
  | Float64 _ | Int64 _ | Int _ => true
  | _ => false
  end.

(** The conversions that decode a slice or a map in place, without a nil
    check. *)
Definition inlineCollection (c : Conv) : bool :=
  match c with
  | CInlineSlice _ _ | CInlineMap _ _ => true
  | _ => false
  end.

(** ** Creating a client and addressing a request ([client.go]) *)

(** An [http.Client], of which the SDK sets and reads the [Timeout] (a
    [time.Duration], in nanoseconds). *)
Record HttpClient : Type := mkHttpClient {
  HttpTimeout : Z
}.

(** [time.Second] *)
Definition Second : Z := 1000000000%Z.

(** [type Config struct]; [HTTPClient] is [None] for the nil pointer. *)
Record Config : Type := mkConfig {
  Host : string;
  Username : string;
  Password : string;
  UseHTTPS : bool;
  URLPrefix : string;
  HTTPClient : option HttpClient;
  Timeout : Z
}.

(** [type Client struct] *)
Record Client : Type := mkClient {
  baseURL : string;
  httpClient : HttpClient;
  username : string;
  password : string;
  urlPrefix : string
}.

(** [func NewClient(config Config)], returning [*Client]. *)
Definition NewClient (config : Config) : Client :=
  let timeout :=
    if (Timeout config =? 0)%Z then (30 * Second)%Z else Timeout config in
  let httpClient :=
    match HTTPClient config with
    | Some given => given
    | None => {| HttpTimeout := timeout |}
    end in
  let scheme := if UseHTTPS config then "https" else "http" in
  let baseURL := scheme ++ "://" ++ Host config in
  let urlPrefix := GoStrings.TrimSuffix (URLPrefix config) "/" in
  let urlPrefix :=
    if negb (String.eqb urlPrefix "") && negb (GoStrings.HasPrefix urlPrefix "/")
    then "/" ++ urlPrefix
    else urlPrefix in
  {| baseURL := baseURL;
     httpClient := httpClient;
     username := Username config;
     password := Password config;
     urlPrefix := urlPrefix |}.

(** [doRequest]: [url := c.baseURL + c.urlPrefix + path] *)
Definition requestURL (c : Client) (path : string) : string :=
  baseURL c ++ urlPrefix c ++ path.

(** [func (c *Client) getPlainText(ctx, path) (string, error)]: the body of
    the response as it is, read but not parsed. *)
Definition getPlainText (o : HttpOutcome) : result string :=
  match o with
  | RequestInvalid cause => Err ("failed to create request: " ++ cause)
  | RequestFailed cause => Err ("failed to execute request: " ++ cause)
  | ReadFailed _ cause => Err ("failed to read response body: " ++ cause)
  | Responded status body _ =>
      if (400 <=? status)%Z then
        Err ("API request failed with status " ++ GoFmt.FormatInt status
             ++ ": " ++ body)
      else Ok body
  end.

(** The four topology views return [c.getPlainText(ctx, path)]. *)
Definition GetTopologyASCII := getPlainText.
Definition GetTopologyASCIIFromInstance := getPlainText.
Definition GetTopologyTabulated := getPlainText.
Definition GetTopologyTabulatedFromInstance := getPlainText.

(** [func buildPath(pathTemplate string, params ...interface{}) string]:
    every parameter is printed with [fmt.Sprint] and escaped with
    [url.PathEscape]; then, parameter by parameter, the first [{}] of the
    path built so far is replaced. *)
Definition buildPath (formatFloat : float64 -> string)
    (pathTemplate : string) (params : list any) : string :=
  let parts :=
    map (fun p => GoURL.PathEscape (Sprint formatFloat p)) params in
  fold_left (fun result part => GoStrings.Replace1 result "{}" part)
    parts pathTemplate.

(** A text without braces. *)
Definition braceFree (s : string) : bool :=
  GoURL.allBytes (fun c => negb (Ascii.eqb c "{" || Ascii.eqb c "}")) s.

(** The literal chunks of a template with a value after each chunk but the
    last: [c0 v1 c1 v2 ... vn cn]. *)
Fixpoint interleave (chunk : string) (rest : list (string * string)) : string :=
  match rest with
  | [] => chunk
  | (value, next) :: rest' => chunk ++ value ++ interleave next rest'
  end.

End Client.
(** * The client with a string response code ([src/go/client]) *)

Module GoClient.
Import Json.

(** ** The envelope ([client.go])

    [type APIResponse struct { Code string; Message string;
    Details interface{} }] *)
Record APIResponse : Type := mkAPIResponse {
  Code : string;
  Message : string;
  Details : any
}.

Definition zeroAPIResponse : APIResponse :=
  {| Code := ""; Message := ""; Details := Nil |}.

Definition setField (r : APIResponse) (key : string) (v : json)
  : result APIResponse :=
  match fieldOf key with
  | None => Ok r
  | Some FCode =>
      match v with
      | JNull => Ok r
      | JString c => Ok {| Code := c; Message := Message r; Details := Details r |}
      | JBool _ => Err (typeError "bool" "string")
      | JNumber _ => Err (typeError "number" "string")
      | JArray _ => Err (typeError "array" "string")
      | JObject _ => Err (typeError "object" "string")
      end
  | Some FMessage =>
      match v with
      | JNull => Ok r
      | JString m => Ok {| Code := Code r; Message := m; Details := Details r |}
      | JBool _ => Err (typeError "bool" "string")
      | JNumber _ => Err (typeError "number" "string")
      | JArray _ => Err (typeError "array" "string")
      | JObject _ => Err (typeError "object" "string")
      end
  | Some FDetails =>
      match toAny v with
      | Err e => Err e
      | Ok d => Ok {| Code := Code r; Message := Message r; Details := d |}
      end
  end.

Fixpoint setFields (r : APIResponse) (members : list (string * json))
  : result APIResponse :=
  match members with
  | [] => Ok r
  | (k, v) :: rest =>
      match setField r k v with
      | Err e => Err e
      | Ok r' => setFields r' rest
      end
  end.

(** [json.Unmarshal(body, &apiResp)] into a zero [APIResponse]. *)
Definition unmarshalAPIResponse (j : json) : result APIResponse :=
  match j with
  | JNull => Ok zeroAPIResponse
  | JObject members => setFields zeroAPIResponse members
  | JBool _ => Err (typeError "bool" "client.APIResponse")
  | JNumber _ => Err (typeError "number" "client.APIResponse")
  | JString _ => Err (typeError "string" "client.APIResponse")
  | JArray _ => Err (typeError "array" "client.APIResponse")
  end.

(** ** Endpoint URLs *)

(** [func normalizeURL(baseURL string) string {
      baseURL = strings.TrimSuffix(baseURL, "/")
      if !strings.HasSuffix(baseURL, "/api") { baseURL += "/api" }
      return baseURL }] *)
Definition normalizeURL (baseURL : string) : string :=
  let baseURL := GoStrings.TrimSuffix baseURL "/" in
  if negb (GoStrings.HasSuffix baseURL "/api") then baseURL ++ "/api"
  else baseURL.

(** [func normalizeEndpoints(endpoints []string) []string]: the endpoints
    normalized one by one, in order.  (Only the length of the result is
    ever tested, so a list stands for the slice.) *)
Fixpoint normalizeEndpoints (endpoints : list string) : list string :=
  match endpoints with
  | [] => []
  | endpoint :: rest => normalizeURL endpoint :: normalizeEndpoints rest
  end.

(** ** The client and its leader *)

(** The fields of [Config] and [Client] that decide which endpoint is
    used.  ([Headers], [Timeout] and [InsecureSkipVerify] configure the HTTP
    client only.) *)
Record Config : Type := mkConfig {
  BaseURL : string;
  Endpoints : list string;
  Username : string;
  Password : string
}.

Record Client : Type := mkClient {
  baseURL : string;
  username : string;
  password : string;
  leader : string;
  endpoints : list string
}.

Definition set_leader (c : Client) (endpoint : string) : Client :=
  {| baseURL := baseURL c; username := username c; password := password c;
     leader := endpoint; endpoints := endpoints c |}.

(** The network is a state [World] that every request reads and changes;
    [httpGet url w] is one [GET] of [url], built and sent with the probing
    context: [None] when the request cannot be made or fails, otherwise the
    status code of the response. *)
Section Leader.
Variable World : Type.
Variable httpGet : string -> World -> option Z * World.

(** [func (c *Client) isLeader(ctx, endpoint string) bool] *)
Definition isLeader (endpoint : string) (w : World) : bool * World :=
  let (resp, w') := httpGet (endpoint ++ "/leader-check") w in
  (match resp with
   | None => false
   | Some status => (status =? 200)%Z
   end, w').

(** [func (c *Client) hasRoutedLeader(ctx, endpoint string) bool] *)
Definition hasRoutedLeader (endpoint : string) (w : World) : bool * World :=
  let (resp, w') := httpGet (endpoint ++ "/routed-leader-check") w in
  (match resp with
   | None => false
   | Some status => (status =? 200)%Z
   end, w').

(** [for _, endpoint := range c.endpoints { if check(ctx, endpoint) {
      c.leader = endpoint; return nil } }]: the first endpoint, in order,
    whose check answers yes; the endpoints after it are not checked. *)
Fixpoint firstAffirmative (check : string -> World -> bool * World)
    (endpoints : list string) (w : World) : option string * World :=
  match endpoints with
  | [] => (None, w)
  | endpoint :: rest =>
      let (yes, w') := check endpoint w in
      if yes then (Some endpoint, w')
      else firstAffirmative check rest w'
  end.

(** Specification of a pass in which nobody answers yes: every endpoint of
    the list is checked, in order, each check starting from the network the
    previous one left, and every answer is no. *)
Inductive declines (check : string -> World -> bool * World)
  : list string -> World -> World -> Prop :=
| declines_nil (w : World) : declines check [] w w
| declines_cons (e : string) (rest : list string) (w w1 w2 : World) :
    check e w = (false, w1) -> declines check rest w1 w2 ->
    declines check (e :: rest) w w2.

(** [func (c *Client) detectLeader() error]: the client after the call,
    the error if any, and the network after the probes. *)
Definition detectLeader (c : Client) (w : World)
  : Client * option error * World :=
  match firstAffirmative isLeader (endpoints c) w with
  | (Some endpoint, w1) => (set_leader c endpoint, None, w1)
  | (None, w1) =>
      match firstAffirmative hasRoutedLeader (endpoints c) w1 with
      | (Some endpoint, w2) => (set_leader c endpoint, None, w2)
      | (None, w2) => (c, Some "no leader found among endpoints", w2)
      end
  end.

(** [func NewClient(config *Config)], returning [*Client] and [error];
    [None] is the nil configuration. *)
Definition NewClient (config : option Config) (w : World)
  : result Client * World :=
  match config with
  | None => (Err "config cannot be nil", w)
  | Some config =>
      let client :=
        {| baseURL := normalizeURL (BaseURL config);
           username := Username config;
           password := Password config;
           leader := "";
           endpoints := normalizeEndpoints (Endpoints config) |} in
      match endpoints client with
      | _ :: _ :: _ =>
          match detectLeader client w with
          | (_, Some err, w') => (Err ("failed to detect leader: " ++ err), w')
          | (client', None, w') => (Ok client', w')
          end
      | [endpoint] => (Ok (set_leader client endpoint), w)
      | [] => (Ok (set_leader client (baseURL client)), w)
      end
  end.

(** [func (c *Client) RefreshLeader() error] *)
Definition RefreshLeader (c : Client) (w : World)
  : Client * option error * World :=
  match endpoints c with
  | _ :: _ :: _ => detectLeader c w
  | _ => (c, None, w)
  end.

(** [func (c *Client) GetLeader() string] *)
Definition GetLeader (c : Client) : string := leader c.

End Leader.

(** ** Requests and responses *)

(** [doRequest]: [url := c.leader + "/" + strings.TrimPrefix(path, "/")] *)
Definition requestURL (c : Client) (path : string) : string :=
  leader c ++ "/" ++ GoStrings.TrimPrefix path "/".

(** An HTTP response as the parsers see it: the status code and the body,
    which [io.ReadAll] may fail to read; [parsed] is the body as a JSON
    document, or the syntax error of [encoding/json]. *)
Inductive HttpResponse : Type :=
| Unreadable (status : Z) (cause : error)
| Readable (status : Z) (body : string) (parsed : result json).

(** What [doRequest] comes to. *)
Inductive HttpOutcome : Type :=
| RequestInvalid (cause : error)
| RequestFailed (cause : error)
| Responded (resp : HttpResponse).

Definition doRequest (o : HttpOutcome) : result HttpResponse :=
  match o with
  | RequestInvalid cause => Err ("failed to create request: " ++ cause)
  | RequestFailed cause => Err ("request failed: " ++ cause)
  | Responded resp => Ok resp
  end.

(** The structs of package [inst] are not spelled out: [Rec] stands for
    their decoded values, [zeroRecord T] for the zero value of the struct
    named [T], and [unmarshalRecord T data] for [json.Unmarshal] of the
    marshalled [data] into such a zero value. *)
Section Decoding.
Variable Rec : Type.
Variable zeroRecord : string -> Rec.
Variable unmarshalRecord : string -> any -> result Rec.

(** The [result] argument of [parseAPIResponse]: nil, or a pointer to a
    variable the caller has just declared. *)
Inductive Target : Type :=
| TgtNil
| TgtRecord (T : string)         (* [var instance inst.Instance] *)
| TgtRecords (T : string)        (* [var replicas []inst.Instance] *)
| TgtAnySlice                    (* [var analysis []interface{}] *)
| TgtAnyMap                      (* [var result map[string]interface{}] *)
| TgtBool                        (* [var result bool] *)
| TgtString.                     (* [var result string] *)

(** The value of that variable. *)
Inductive Decoded : Type :=
| DNil
| DRecord (r : Rec)
| DRecords (s : GoSlice Rec)
| DAnySlice (s : GoSlice any)
| DAnyMap (m : GoMap any)
| DBool (b : bool)
| DString (s : string).

(** [var x T]: the zero value. *)
Definition zeroOf (t : Target) : Decoded :=
  match t with
  | TgtNil => DNil
  | TgtRecord T => DRecord (zeroRecord T)
  | TgtRecords _ => DRecords NilSlice
  | TgtAnySlice => DAnySlice NilSlice
  | TgtAnyMap => DAnyMap NilMap
  | TgtBool => DBool false
  | TgtString => DString ""
  end.

(** [json.Unmarshal(detailsBytes, result)] *)
Definition unmarshalInto (t : Target) (details : any) : result Decoded :=
  match t with
  | TgtNil => Ok DNil
  | TgtRecord T => bind (unmarshalRecord T details) (fun r => Ok (DRecord r))
  | TgtRecords T =>
      bind (toSlice T (unmarshalRecord T) details) (fun s => Ok (DRecords s))
  | TgtAnySlice =>
      bind (toSlice "interface {}" (fun a => Ok a) details)
           (fun s => Ok (DAnySlice s))
  | TgtAnyMap =>
      bind (toMap "interface {}" (fun a => Ok a) details)
           (fun m => Ok (DAnyMap m))
  | TgtBool => bind (toBool false details) (fun b => Ok (DBool b))
  | TgtString => bind (toString "" details) (fun s => Ok (DString s))
  end.

(** What [parseAPIResponse] leaves behind: the returned envelope pointer
    (nil or not), the caller's variable, and the returned error.  (When
    decoding the details fails, [json.Unmarshal] may have written part of the
    variable; every caller drops it with the error, and [value] is then the
    zero value.) *)
Record Parsed : Type := mkParsed {
  apiResp : option APIResponse;
  value : Decoded;
  err : option error
}.

(** [func (c *Client) parseAPIResponse(resp *http.Response,
    result interface{})], returning [*APIResponse] and [error]. *)
Definition parseAPIResponse (resp : HttpResponse) (result : Target) : Parsed :=
  match resp with
  | Unreadable _ cause =>
      mkParsed None (zeroOf result)
               (Some ("failed to read response body: " ++ cause))
  | Readable _ body parsed =>
      match bind parsed unmarshalAPIResponse with
      | Err e =>
          mkParsed None (zeroOf result)
                   (Some ("failed to unmarshal API response: " ++ e))
      | Ok apiResp =>
          if String.eqb (Code apiResp) "ERROR" then
            mkParsed (Some apiResp) (zeroOf result)
                     (Some ("API error: " ++ Message apiResp))
          else
            match result with
            | TgtNil => mkParsed (Some apiResp) DNil None
            | _ =>
                if is_nil (Details apiResp) then
                  mkParsed (Some apiResp) (zeroOf result) None
                else
                  match unmarshalInto result (Details apiResp) with
                  | Err e =>
                      mkParsed (Some apiResp) (zeroOf result)
                               (Some ("failed to unmarshal details: " ++ e))
                  | Ok d => mkParsed (Some apiResp) d None
                  end
            end
      end
  end.

(** ** Operations of the facade

    (The methods that call [parseResponse] instead read the body as the
    result itself, not as an envelope; they are not modelled.) *)

(** The methods that end in [_, err = c.parseAPIResponse(resp, nil);
    return err]: [Forget], [AsyncDiscover], [BeginMaintenance],
    [BeginDowntime], [SetTag], ... *)
Definition errorOnly (o : HttpOutcome) : option error :=
  match doRequest o with
  | Err e => Some e
  | Ok resp => err (parseAPIResponse resp TgtNil)
  end.

Definition Forget := errorOnly.
Definition BeginDowntime := errorOnly.
Definition BeginMaintenance := errorOnly.

(** [func (c *Client) Discover(ctx, instanceKey)], returning
    [*inst.Instance] and [error]. *)
Definition Discover (o : HttpOutcome) : result Decoded :=
  match doRequest o with
  | Err e => Err e
  | Ok resp =>
      let p := parseAPIResponse resp (TgtRecord "Instance") in
      match err p, apiResp p with
      | Some e, _ => Err e
      | None, Some r =>
          if negb (String.eqb (Code r) "OK")
          then Err ("discover failed: " ++ Message r)
          else Ok (value p)
      | None, None => Ok (value p)
      end
  end.

(** The methods that declare a variable, pass its address to
    [parseAPIResponse] and return it when there is no error:
    [RemoveTagFromAll] and [RelocateReplicas] with [[]inst.Instance],
    [GetReplicationAnalysis] with [[]interface{}], [CheckGlobalRecoveries]
    with [bool], [GetLastPseudoGTID] with [string], ... *)
Definition decodeVia (t : Target) (o : HttpOutcome) : result Decoded :=
  match doRequest o with
  | Err e => Err e
  | Ok resp =>
      let p := parseAPIResponse resp t in
      match err p with
      | Some e => Err e
      | None => Ok (value p)
      end
  end.

Definition RemoveTagFromAll := decodeVia (TgtRecords "inst.Instance").
Definition RelocateReplicas := decodeVia (TgtRecords "inst.Instance").
Definition GetReplicationAnalysis := decodeVia TgtAnySlice.
Definition CheckGlobalRecoveries := decodeVia TgtBool.
Definition GetLastPseudoGTID := decodeVia TgtString.

(** [func (c *Client) InMaintenance(ctx, instanceKey) (bool, error)]:
    [var result string], then [return result == "true", nil]. *)
Definition InMaintenance (o : HttpOutcome) : result bool :=
  match decodeVia TgtString o with
  | Err e => Err e
  | Ok (DString result) => Ok (String.eqb result "true")
  | Ok _ => Ok false
  end.

(** [func (c *Client) GetTopology(ctx, clusterName) (string, error)] *)
Definition GetTopology (o : HttpOutcome) : result string :=
  match doRequest o with
  | Err e => Err e
  | Ok resp =>
      let p := parseAPIResponse resp TgtNil in
      match err p, apiResp p with
      | Some e, _ => Err e
      | None, Some r =>
          match Details r with
          | Str topology => Ok topology
          | _ => Err "unexpected response format"
          end
      | None, None => Err "unexpected response format"
      end
  end.

End Decoding.

(** ** Request paths with free-form strings *)

(** [Search]: [fmt.Sprintf("/search/%s", url.QueryEscape(searchString))] *)
Definition Search_path (searchString : string) : string :=
  "/search/" ++ GoURL.QueryEscape searchString.

(** [BeginMaintenance]: [fmt.Sprintf("/begin-maintenance/%s/%d/%s/%s",
    instanceKey.Hostname, instanceKey.Port, url.QueryEscape(owner),
    url.QueryEscape(reason))] *)
Definition BeginMaintenance_path (instanceKey : InstanceKey)
    (owner reason : string) : string :=
  "/begin-maintenance/" ++ Hostname instanceKey ++ "/"
  ++ GoFmt.FormatInt (Port instanceKey) ++ "/"
  ++ GoURL.QueryEscape owner ++ "/" ++ GoURL.QueryEscape reason.

(** [BeginDowntime]: [durationStr] is [""], or for [duration > 0] it is
    [fmt.Sprintf("/%ds", int(duration.Seconds()))]; the path is
    [fmt.Sprintf("/begin-downtime/%s/%d/%s/%s%s", instanceKey.Hostname,
    instanceKey.Port, url.QueryEscape(owner), url.QueryEscape(reason),
    durationStr)].  [duration] is the [time.Duration], a number of
    nanoseconds, and [seconds] the value of [int(duration.Seconds())]. *)
Definition BeginDowntime_path (instanceKey : InstanceKey)
    (owner reason : string) (duration seconds : Z) : string :=
  let durationStr :=
    if (0 <? duration)%Z then "/" ++ GoFmt.FormatInt seconds ++ "s" else "" in
  "/begin-downtime/" ++ Hostname instanceKey ++ "/"
  ++ GoFmt.FormatInt (Port instanceKey) ++ "/"
  ++ GoURL.QueryEscape owner ++ "/" ++ GoURL.QueryEscape reason
  ++ durationStr.

(** [SetTag] with a tag value: [fmt.Sprintf("/tag/%s/%d/%s/%s",
    instanceKey.Hostname, instanceKey.Port, url.QueryEscape(tagName),
    url.QueryEscape(tagValue))] *)
Definition SetTag_path (instanceKey : InstanceKey) (tagName tagValue : string)
  : string :=
  "/tag/" ++ Hostname instanceKey ++ "/"
  ++ GoFmt.FormatInt (Port instanceKey) ++ "/"
  ++ GoURL.QueryEscape tagName ++ "/" ++ GoURL.QueryEscape tagValue.

(** ** Probes that look at the status only ([client.go]) *)

(** [resp.StatusCode] *)
Definition statusOf (resp : HttpResponse) : Z :=
  match resp with
  | Unreadable status _ => status
  | Readable status _ _ => status
  end.

(** [func (c *Client) Health(ctx) error] *)
Definition Health (o : HttpOutcome) : option error :=
  match doRequest o with
  | Err e => Some e
  | Ok resp =>
      if negb (statusOf resp =? 200)%Z
      then Some ("health check failed with status "
                 ++ GoFmt.FormatInt (statusOf resp))
      else None
  end.

(** [func (c *Client) LeaderCheck(ctx) (bool, error)] *)
Definition LeaderCheck (o : HttpOutcome) : result bool :=
  match doRequest o with
  | Err e => Err e
  | Ok resp => Ok (statusOf resp =? 200)%Z
  end.

(** ** Responses that are the result itself ([parseResponse])

    [unmarshalBody t j] stands for [json.Unmarshal(body, result)] with
    [result] the address of a variable declared as [t] and [j] the body: the
    body is decoded into the variable directly, not through an envelope. *)
Section Direct.
Variable Rec : Type.
Variable zeroRecord : string -> Rec.
Variable unmarshalRecord : string -> any -> result Rec.
Variable unmarshalBody : Target -> json -> result (Decoded Rec).
Variable float64_overflow : float64 -> Z.

Local Abbreviation decoded := (result (Decoded Rec)).

(** [func (c *Client) parseResponse(resp *http.Response, result
    interface{}) error]: [Ok d] is the nil error with [d] in the caller's
    variable; with an error every caller drops the variable. *)
Definition parseResponse (resp : HttpResponse) (result : Target)
  : decoded :=
  match resp with
  | Unreadable _ cause => Err ("failed to read response body: " ++ cause)
  | Readable status body parsed =>
      if (400 <=? status)%Z then
        match bind parsed unmarshalAPIResponse with
        | Ok apiResp =>
            Err ("API error: " ++ Code apiResp ++ " - " ++ Message apiResp)
        | Err _ =>
            Err ("HTTP error " ++ GoFmt.FormatInt status ++ ": " ++ body)
        end
      else
        match result with
        | TgtNil => Ok (DNil Rec)
        | _ => wrap "failed to unmarshal response: "
                 (bind parsed (unmarshalBody result))
        end
  end.

(** The methods that declare a variable, pass its address to
    [parseResponse] and return it when there is no error. *)
Definition decodeDirect (t : Target) (o : HttpOutcome)
  : decoded :=
  match doRequest o with
  | Err e => Err e
  | Ok resp => parseResponse resp t
  end.

Definition GetInstance := decodeDirect (TgtRecord "inst.Instance").
Definition GetClusterMaster := decodeDirect (TgtRecord "inst.Instance").
Definition GetInstanceReplicas := decodeDirect (TgtRecords "inst.Instance").
Definition Search := decodeDirect (TgtRecords "inst.Instance").
Definition GetCluster := decodeDirect (TgtRecords "inst.Instance").
Definition GetAllInstances := decodeDirect (TgtRecords "inst.Instance").
Definition GetMaintenance := decodeDirect TgtAnySlice.
Definition GetTagValue := decodeDirect TgtString.

(** ** Takeovers: the successor of the details, then its instance
    ([recovery.go])

    These methods send two requests; [send path w] is [c.doRequest(ctx,
    "GET", path, nil)] on the network [w]. *)

(** [m[key]] for [m map[string]interface{}]: nil for a key that is not
    there. *)
Fixpoint mapIndex (entries : list (string * any)) (key : string) : any :=
  match entries with
  | [] => Nil
  | (k, v) :: rest => if String.eqb k key then v else mapIndex rest key
  end.

(** [if successorData, ok := result["SuccessorKey"].(map[string]interface{});
    ok { hostname, _ := successorData["Hostname"].(string); port, _ :=
    successorData["Port"].(float64); successorKey := inst.InstanceKey{
    Hostname: hostname, Port: int(port)} ... }] with an [int] of 64 bits. *)
Definition successorKey (result : GoMap any) : option InstanceKey :=
  let entries := match result with NilMap => [] | MapOf l => l end in
  match mapIndex entries "SuccessorKey" with
  | Map successorData =>
      let hostname :=
        match mapIndex successorData "Hostname" with
        | Str s => s
        | _ => ""
        end in
      let port :=
        match mapIndex successorData "Port" with
        | Float64 f => f
        | _ => S754_zero false
        end in
      Some {| Hostname := hostname;
              Port := Client.int64_of_float64 float64_overflow port |}
  | _ => None
  end.

(** [GetInstance]: [fmt.Sprintf("/instance/%s/%d", instanceKey.Hostname,
    instanceKey.Port)] *)
Definition GetInstance_path (instanceKey : InstanceKey) : string :=
  "/instance/" ++ Hostname instanceKey ++ "/"
  ++ GoFmt.FormatInt (Port instanceKey).

Section Network.
Variable World : Type.
Variable send : string -> World -> HttpOutcome * World.

(** [c.GetInstance(ctx, instanceKey)] on the network. *)
Definition GetInstanceOn (instanceKey : InstanceKey) (w : World)
  : decoded * World :=
  let (o, w') := send (GetInstance_path instanceKey) w in
  (GetInstance o, w').

(** The body the four takeover methods share after building [path]. *)
Definition takeover (path : string) (w : World)
  : decoded * World :=
  let (o, w1) := send path w in
  match decodeVia Rec zeroRecord unmarshalRecord TgtAnyMap o with
  | Err e => (Err e, w1)
  | Ok (DAnyMap _ result) =>
      match successorKey result with
      | Some key => GetInstanceOn key w1
      | None => (Err "unexpected response format", w1)
      end
  | Ok _ => (Err "unexpected response format", w1)
  end.

(** [func (c *Client) GracefulMasterTakeover(ctx, clusterName,
    designatedKey)], with [None] for the nil [designatedKey]. *)
Definition GracefulMasterTakeover (clusterName : string)
    (designatedKey : option InstanceKey) : World -> decoded * World :=
  takeover
    match designatedKey with
    | Some key =>
        "/graceful-master-takeover/" ++ GoURL.QueryEscape clusterName ++ "/"
        ++ Hostname key ++ "/" ++ GoFmt.FormatInt (Port key)
    | None => "/graceful-master-takeover/" ++ GoURL.QueryEscape clusterName
    end.

(** [func (c *Client) ForceMasterFailover(ctx, clusterName)] *)
Definition ForceMasterFailover (clusterName : string)
  : World -> decoded * World :=
  takeover ("/force-master-failover/" ++ GoURL.QueryEscape clusterName).

End Network.
End Direct.

(** ** Paths with a query ([recovery.go]) *)

(** [AcknowledgeClusterRecoveries]: [path := fmt.Sprintf(
    "/ack-recovery/cluster/%s", url.QueryEscape(clusterName)); if comment !=
    "" { path += "?comment=" + url.QueryEscape(comment) }] *)
Definition AcknowledgeClusterRecoveries_path (clusterName comment : string)
  : string :=
  let path := "/ack-recovery/cluster/" ++ GoURL.QueryEscape clusterName in
  if negb (String.eqb comment "")
  then path ++ "?comment=" ++ GoURL.QueryEscape comment
  else path.

(** [AcknowledgeAllRecoveries]: [path := "/ack-all-recoveries"; if comment
    != "" { path += "?comment=" + url.QueryEscape(comment) }] *)
Definition AcknowledgeAllRecoveries_path (comment : string) : string :=
  let path := "/ack-all-recoveries" in
  if negb (String.eqb comment "")
  then path ++ "?comment=" ++ GoURL.QueryEscape comment
  else path.

(** [GetBlockedRecoveries]: the path of one cluster, or of all for the
    empty cluster name. *)
Definition GetBlockedRecoveries_path (clusterName : string) : string :=
  if negb (String.eqb clusterName "")
  then "/blocked-recoveries/cluster/" ++ GoURL.QueryEscape clusterName
  else "/blocked-recoveries".

End GoClient.
(** * Sample inputs *)

Module Samples.
Import Json.

(** The double quote, and a quoted word of a JSON text. *)
Definition dq : string := String (ascii_of_nat 34) EmptyString.
Definition quoted (s : string) : string := dq ++ s ++ dq.

(** The literal of an integer written without fraction or exponent: its
    [float64] is the nearest one (the integer itself below [2^53]). *)
Definition intLit (n : Z) : NumLit :=
  {| asInt := if GoFmt.inInt64 n then Some n else None;
     asFloat := Some (binary_normalize 53 1024 n 0 false) |}.

(** [{"Code": code, "Message": message, "Details": details}] as the
    integer-code server writes it, and its text. *)
Definition intEnvelope (code : Z) (message : string) (details : json) : json :=
  JObject [("Code", JNumber (intLit code)); ("Message", JString message);
           ("Details", details)].

Definition intEnvelopeText (code : Z) (message detailsText : string) : string :=
  "{" ++ quoted "Code" ++ ":" ++ GoFmt.FormatInt code ++ ","
  ++ quoted "Message" ++ ":" ++ quoted message ++ ","
  ++ quoted "Details" ++ ":" ++ detailsText ++ "}".

(** The same with the code as a string. *)
Definition strEnvelope (code message : string) (details : json) : json :=
  JObject [("Code", JString code); ("Message", JString message);
           ("Details", details)].

Definition strEnvelopeText (code message detailsText : string) : string :=
  "{" ++ quoted "Code" ++ ":" ++ quoted code ++ ","
  ++ quoted "Message" ++ ":" ++ quoted message ++ ","
  ++ quoted "Details" ++ ":" ++ detailsText ++ "}".

(** Responses with status 200. *)
Definition intResponse (code : Z) (message : string) (details : json)
    (detailsText : string) : Client.HttpOutcome :=
  Client.Responded 200 (intEnvelopeText code message detailsText)
    (Ok (intEnvelope code message details)).

Definition strResponse (code message : string) (details : json)
    (detailsText : string) : GoClient.HttpOutcome :=
  GoClient.Responded
    (GoClient.Readable 200 (strEnvelopeText code message detailsText)
       (Ok (strEnvelope code message details))).

(** An envelope without the [Code] member. *)
Definition noCodeResponse : Client.HttpOutcome :=
  Client.Responded 200
    ("{" ++ quoted "Message" ++ ":" ++ quoted "done" ++ "}")
    (Ok (JObject [("Message", JString "done")])).

(** A stand-in for the struct decoders: records are kept as the decoded JSON
    value, and everything decodes. *)
Definition anyRecord (T : string) (data : any) : result any := Ok data.
Definition anyZero (T : string) : any := Nil.

(** A stand-in for the formatting of a [float64]. *)
Definition noFloats (f : float64) : string := "<float64>".

(** The conversion of an out-of-range [float64] on amd64. *)
Definition amd64Overflow (f : float64) : Z := GoFmt.minInt64.

(** Three pool members, the second of which is no instance key. *)
Definition poolMembers : list string := ["db1:3306"; "bogus"; "db2:3307"].

Definition poolResponse : Client.HttpOutcome :=
  intResponse 1 "" (JArray (map JString poolMembers))
    ("[" ++ quoted "db1:3306" ++ "," ++ quoted "bogus" ++ ","
     ++ quoted "db2:3307" ++ "]").

(** A network that answers 200 to the routed-leader check of
    [http://b/api] and 503 to every other request, and records the URLs it
    was asked for, oldest first. *)
Definition loggingGet (url : string) (log : list string)
  : option Z * list string :=
  (if String.eqb url "http://b/api/routed-leader-check"
   then Some 200%Z else Some 503%Z,
   (log ++ [url])%list).

Definition twoEndpoints : GoClient.Config :=
  {| GoClient.BaseURL := "http://base";
     GoClient.Endpoints := ["http://a"; "http://b/"];
     GoClient.Username := "";
     GoClient.Password := "" |}.

(** A stand-in for the direct decoding of a body into a record: the decoded
    JSON value is kept. *)
Definition bodyAsAny (t : GoClient.Target) (j : json)
  : result (GoClient.Decoded any) :=
  bind (toAny j) (fun a => Ok (GoClient.DRecord any a)).

(** The details of a takeover that names the successor [db2:3306]. *)
Definition successorDetails : json :=
  JObject [("SuccessorKey",
            JObject [("Hostname", JString "db2");
                     ("Port", JNumber (intLit 3306))])].

Definition successorDetailsText : string :=
  "{" ++ quoted "SuccessorKey" ++ ":{" ++ quoted "Hostname" ++ ":"
  ++ quoted "db2" ++ "," ++ quoted "Port" ++ ":3306}}".

(** A network that answers the graceful takeover of the cluster [c1] with
    those details and every other request with its own path as a JSON
    string, and records the paths it was asked for, oldest first. *)
Definition takeoverSend (path : string) (log : list string)
  : GoClient.HttpOutcome * list string :=
  (if String.eqb path "/graceful-master-takeover/c1"
   then strResponse "OK" "" successorDetails successorDetailsText
   else GoClient.Responded
          (GoClient.Readable 200 (quoted path) (Ok (JString path))),
   (log ++ [path])%list).

End Samples.

(** ** Facts about splitting and about decimal integers *)

Module GoStringsFacts.
Import GoStrings.

Lemma len_app (a b : string) : len (a ++ b) = (len a + len b)%nat.
Proof. induction a as [|c a IH]; simpl; [reflexivity | now rewrite IH]. Qed.

Lemma app_empty_r (a : string) : a ++ "" = a.
Proof. induction a as [|c a IH]; simpl; [reflexivity | now rewrite IH]. Qed.

Lemma app_assoc (a b c : string) : (a ++ b) ++ c = a ++ (b ++ c).
Proof. induction a as [|x a IH]; simpl; [reflexivity | now rewrite IH]. Qed.

Lemma drop_app (a b : string) : drop (len a) (a ++ b) = b.
Proof. induction a as [|c a IH]; simpl; [now destruct b | exact IH]. Qed.

Lemma take_app (a b : string) : take (len a) (a ++ b) = a.
Proof. induction a as [|c a IH]; simpl; [now destruct b | now rewrite IH]. Qed.

Lemma take_drop (n : nat) (s : string) : take n s ++ drop n s = s.
Proof.
  revert s; induction n as [|n IH]; intros [|c s]; simpl; try reflexivity.
  now rewrite IH.
Qed.

Lemma len_drop (n : nat) (s : string) : len (drop n s) = (len s - n)%nat.
Proof.
  revert s; induction n as [|n IH]; intros [|c s]; simpl; try reflexivity.
  apply IH.
Qed.

(** [HasSuffix] is the usual "ends with" relation. *)
Lemma HasSuffix_app (p suffix : string) : HasSuffix (p ++ suffix) suffix = true.
Proof.
  unfold HasSuffix. rewrite len_app.
  replace (len p + len suffix - len suffix)%nat with (len p) by lia.
  rewrite drop_app, String.eqb_refl, andb_true_r.
  apply Nat.leb_le; lia.
Qed.

Lemma HasSuffix_inv (s suffix : string) :
  HasSuffix s suffix = true ->
  s = take (len s - len suffix) s ++ suffix.
Proof.
  unfold HasSuffix; intros H.
  apply andb_true_iff in H as [_ H]. apply String.eqb_eq in H.
  pose proof (take_drop (len s - len suffix) s) as T.
  rewrite H in T. symmetry; exact T.
Qed.

Lemma HasSuffix_iff (s suffix : string) :
  HasSuffix s suffix = true <-> exists p, s = p ++ suffix.
Proof.
  split.
  - intros H; eexists; apply HasSuffix_inv; exact H.
  - intros [p ->]; apply HasSuffix_app.
Qed.

Lemma TrimSuffix_app (p suffix : string) : TrimSuffix (p ++ suffix) suffix = p.
Proof.
  unfold TrimSuffix. rewrite HasSuffix_app, len_app.
  replace (len p + len suffix - len suffix)%nat with (len p) by lia.
  apply take_app.
Qed.

Lemma last_byte_app_cons (p : string) (c : ascii) (q : string) :
  last_byte (p ++ String c q) = last_byte (String c q).
Proof.
  induction p as [|x p IH]; [reflexivity|].
  change ((String x p) ++ String c q) with (String x (p ++ String c q)).
  simpl last_byte at 1. rewrite IH.
  destruct (p ++ String c q) eqn:E; [now destruct p | reflexivity].
Qed.

Lemma HasSuffix_last_byte (s p : string) (c : ascii) :
  HasSuffix s (p ++ String c "") = true -> last_byte s = Some c.
Proof.
  intros H. apply HasSuffix_iff in H as [q ->].
  rewrite <- app_assoc. apply last_byte_app_cons.
Qed.

Lemma HasSuffix_1_false (s : string) (c : ascii) :
  last_byte s <> Some c -> HasSuffix s (String c "") = false.
Proof.
  intros H. destruct (HasSuffix s (String c "")) eqn:E; [|reflexivity].
  exfalso; apply H. apply (HasSuffix_last_byte s "" c E).
Qed.

Lemma Split_nonempty (s : string) (sep : ascii) : Split s sep <> [].
Proof.
  induction s as [|c s IH]; simpl; [discriminate|].
  destruct (Ascii.eqb c sep); [discriminate|].
  destruct (Split s sep); discriminate.
Qed.

(** A string with [n] separators splits into [n + 1] parts. *)
Lemma Split_length (s : string) (sep : ascii) :
  List.length (Split s sep) = S (Count s sep).
Proof.
  induction s as [|c s IH]; simpl; [reflexivity|].
  destruct (Ascii.eqb c sep); simpl.
  - now rewrite IH.
  - destruct (Split s sep) eqn:E; [now apply Split_nonempty in E|].
    simpl in *. exact IH.
Qed.

Lemma Split_no_sep (s : string) (sep : ascii) :
  Count s sep = 0%nat -> Split s sep = [s].
Proof.
  induction s as [|c s IH]; simpl; [reflexivity|].
  destruct (Ascii.eqb c sep); simpl; [discriminate|].
  intros H. now rewrite (IH H).
Qed.

Lemma Split_app (host rest : string) (sep : ascii) :
  Count host sep = 0%nat ->
  Split (host ++ String sep rest) sep = host :: Split rest sep.
Proof.
  induction host as [|c host IH]; simpl.
  - intros _. now rewrite Ascii.eqb_refl.
  - destruct (Ascii.eqb c sep); simpl; [discriminate|].
    intros H. now rewrite (IH H).
Qed.

Lemma Count_app (a b : string) (c : ascii) :
  Count (a ++ b) c = (Count a c + Count b c)%nat.
Proof. induction a as [|x a IH]; simpl; [reflexivity | rewrite IH; lia]. Qed.

(** Splitting loses nothing: joining the parts gives the string back. *)
Lemma Join_Split (s : string) (sep : ascii) : Join (Split s sep) sep = s.
Proof.
  induction s as [|c s IH]; simpl; [reflexivity|].
  destruct (Ascii.eqb c sep) eqn:E.
  - apply Ascii.eqb_eq in E; subst c.
    destruct (Split s sep) eqn:E'; [now apply Split_nonempty in E'|].
    simpl in *. now rewrite IH.
  - destruct (Split s sep) as [|p [|q ps]] eqn:E';
      [now apply Split_nonempty in E' | simpl in *; now rewrite IH |].
    simpl in *. now rewrite IH.
Qed.

End GoStringsFacts.

Module GoFmtFacts.
Import GoFmt.
Local Open Scope Z_scope.

Lemma code_byte_of (n : Z) : 0 <= n < 256 -> code (byte_of n) = n.
Proof.
  intros H. unfold code, byte_of.
  rewrite nat_ascii_embedding by lia. lia.
Qed.

Lemma isDigit_digitChar (d : Z) : 0 <= d < 10 -> isDigit (digitChar d) = true.
Proof.
  intros H. unfold isDigit, digitChar. rewrite code_byte_of by lia.
  apply andb_true_iff; split; apply Z.leb_le; lia.
Qed.

Lemma digitVal_digitChar (d : Z) : 0 <= d < 10 -> digitVal (digitChar d) = d.
Proof.
  intros H. unfold digitVal, digitChar. rewrite code_byte_of by lia. lia.
Qed.

Lemma isDigit_range (c : ascii) : isDigit c = true -> 48 <= code c <= 57.
Proof.
  unfold isDigit. intros H. apply andb_true_iff in H as [H1 H2].
  apply Z.leb_le in H1, H2. lia.
Qed.

Lemma allDigits_nil : allDigits "".
Proof. intros c []. Qed.

Lemma allDigits_cons (c : ascii) (s : string) :
  isDigit c = true -> allDigits s -> allDigits (String c s).
Proof. intros Hc Hs x [<-|Hx]; [exact Hc | now apply Hs]. Qed.

Lemma allDigits_inv (c : ascii) (s : string) :
  allDigits (String c s) -> isDigit c = true /\ allDigits s.
Proof.
  intros H; split; [apply H; now left | intros x Hx; apply H; now right].
Qed.

Lemma fmtUint_allDigits (fuel : nat) (u : Z) (acc : string) :
  0 <= u -> allDigits acc -> allDigits (fmtUint fuel u acc).
Proof.
  revert u acc; induction fuel as [|f IH]; intros u acc Hu Hacc; simpl;
    [exact Hacc|].
  destruct (u <? 10) eqn:E.
  - apply Z.ltb_lt in E. apply allDigits_cons; [|exact Hacc].
    apply isDigit_digitChar; lia.
  - apply Z.ltb_ge in E. apply IH; [apply Z.div_pos; lia|].
    apply allDigits_cons; [|exact Hacc].
    apply isDigit_digitChar. apply Z.mod_pos_bound; lia.
Qed.

Lemma fmtUint_nonempty (f : nat) (u : Z) (acc : string) :
  fmtUint (S f) u acc <> "".
Proof.
  revert u acc; induction f as [|f IH]; intros u acc; simpl.
  - destruct (u <? 10); discriminate.
  - destruct (u <? 10); [discriminate|]. apply IH.
Qed.

Lemma parseDigits_acc (s : string) (acc : Z) :
  parseDigits s acc = acc * 10 ^ Z.of_nat (len s) + parseDigits s 0.
Proof.
  revert acc; induction s as [|c s IH]; intros acc.
  - simpl. lia.
  - cbn [parseDigits String.length]. rewrite IH, (IH (0 * 10 + digitVal c)).
    rewrite Nat2Z.inj_succ, Z.pow_succ_r by lia. ring.
Qed.

Lemma fmtUint_S (f : nat) (u : Z) (acc : string) :
  fmtUint (S f) u acc
  = if u <? 10 then String (digitChar u) acc
    else fmtUint f (u / 10) (String (digitChar (u mod 10)) acc).
Proof. reflexivity. Qed.

Lemma parseDigits_fmtUint (f : nat) (u : Z) (acc : string) :
  0 <= u < 2 ^ Z.of_nat (S f) ->
  parseDigits (fmtUint (S f) u acc) 0
  = u * 10 ^ Z.of_nat (len acc) + parseDigits acc 0.
Proof.
  revert u acc; induction f as [|f IH]; intros u acc Hu; rewrite fmtUint_S.
  - assert (u < 10) as E by (change (2 ^ Z.of_nat 1) with 2 in Hu; lia).
    apply Z.ltb_lt in E as E'. rewrite E'.
    cbn [parseDigits]. rewrite parseDigits_acc, digitVal_digitChar by lia.
    ring.
  - destruct (u <? 10) eqn:E.
    + apply Z.ltb_lt in E.
      cbn [parseDigits]. rewrite parseDigits_acc, digitVal_digitChar by lia.
      ring.
    + apply Z.ltb_ge in E.
      rewrite IH.
      * cbn [parseDigits String.length].
        rewrite (parseDigits_acc acc), digitVal_digitChar
          by (apply Z.mod_pos_bound; lia).
        rewrite Nat2Z.inj_succ, Z.pow_succ_r by lia.
        pose proof (Z.div_mod u 10 ltac:(lia)) as D.
        rewrite D at 3. ring.
      * split; [apply Z.div_pos; lia|].
        rewrite Nat2Z.inj_succ, Z.pow_succ_r in Hu by lia.
        apply Z.div_lt_upper_bound; lia.
Qed.

Lemma FormatUint_allDigits (u : Z) : 0 <= u -> allDigits (FormatUint u).
Proof. intros H. apply fmtUint_allDigits; [exact H | apply allDigits_nil]. Qed.

Lemma parseDigits_FormatUint (u : Z) :
  0 <= u -> parseDigits (FormatUint u) 0 = u.
Proof.
  intros H. unfold FormatUint. rewrite parseDigits_fmtUint.
  - simpl. ring.
  - split; [exact H|].
    rewrite Nat2Z.inj_succ, Z2Nat.id by apply Z.log2_nonneg.
    destruct (Z.eq_dec u 0) as [->|N]; [reflexivity|].
    apply Z.log2_spec; lia.
Qed.

Lemma scanDigits_allDigits (s : string) :
  allDigits s -> scanDigits s = (s, "").
Proof.
  induction s as [|c s IH]; intros H; [reflexivity|].
  apply allDigits_inv in H as [Hc Hs]. simpl. now rewrite Hc, (IH Hs).
Qed.

(** The scanner stops at the first byte that is not a digit. *)
Lemma scanDigits_app (ds rest : string) (c : ascii) :
  allDigits ds -> isDigit c = false ->
  scanDigits (ds ++ String c rest) = (ds, String c rest).
Proof.
  induction ds as [|d ds IH]; intros H Hc; simpl.
  - now rewrite Hc.
  - apply allDigits_inv in H as [Hd Hs]. now rewrite Hd, (IH Hs Hc).
Qed.

(** A visible ASCII byte is neither white space nor a newline. *)
Lemma SkipSpace_visible (c : ascii) (s : string) :
  33 <= code c < 128 -> SkipSpace (String c s) = Some (String c s).
Proof.
  intros H. cbn [SkipSpace].
  replace (code c =? 10) with false by (symmetry; apply Z.eqb_neq; lia).
  unfold spaceLen.
  replace (9 <=? code c) with true by (symmetry; apply Z.leb_le; lia).
  replace (code c <=? 13) with false by (symmetry; apply Z.leb_gt; lia).
  replace (code c =? 32) with false by (symmetry; apply Z.eqb_neq; lia).
  replace (code c =? 194) with false by (symmetry; apply Z.eqb_neq; lia).
  replace (code c =? 225) with false by (symmetry; apply Z.eqb_neq; lia).
  replace (code c =? 226) with false by (symmetry; apply Z.eqb_neq; lia).
  replace (code c =? 227) with false by (symmetry; apply Z.eqb_neq; lia).
  cbn. destruct s as [|c2 [|c3 s3]]; reflexivity.
Qed.

End GoFmtFacts.

(** ** [ParseInstanceKey] and [InstanceKey.String] *)

Module InstanceKeyFacts.
Import GoStrings GoStringsFacts GoFmt GoFmtFacts.
Local Open Scope Z_scope.

Lemma allDigits_head (s : string) :
  allDigits s -> s <> "" -> exists d r, s = String d r /\ isDigit d = true.
Proof.
  destruct s as [|d r]; [congruence|].
  intros H _. exists d, r. split; [reflexivity | now apply allDigits_inv in H].
Qed.

Lemma FormatUint_head (u : Z) :
  0 <= u -> exists d r, FormatUint u = String d r /\ isDigit d = true.
Proof.
  intros H. apply allDigits_head; [now apply FormatUint_allDigits|].
  apply fmtUint_nonempty.
Qed.

Lemma isDigit_not_sign (d : ascii) :
  isDigit d = true -> Ascii.eqb d "-" = false /\ Ascii.eqb d "+" = false.
Proof.
  intros H. apply isDigit_range in H.
  split; apply Ascii.eqb_neq; intros ->;
    [change (code "-") with 45 in H | change (code "+") with 43 in H]; lia.
Qed.

(** Scanning the decimal form of a 64-bit integer gives the integer back. *)
Lemma Sscanf_d_FormatInt (p : Z) :
  inInt64 p = true -> Sscanf_d (FormatInt p) = Ok p.
Proof.
  intros Hp. unfold FormatInt. destruct (p <? 0) eqn:E.
  - apply Z.ltb_lt in E.
    destruct (FormatUint_head (- p)) as (d & r & Hf & Hd); [lia|].
    unfold Sscanf_d.
    rewrite SkipSpace_visible by (vm_compute; split; [discriminate | reflexivity]).
    change (Ascii.eqb "-" "-") with true. cbv iota beta.
    pose proof (FormatUint_allDigits (- p) ltac:(lia)) as A.
    pose proof (parseDigits_FormatUint (- p) ltac:(lia)) as V.
    rewrite Hf in *. rewrite Hd, (scanDigits_allDigits _ A), V.
    replace (- - p) with p by lia. now rewrite Hp.
  - apply Z.ltb_ge in E.
    destruct (FormatUint_head p) as (d & r & Hf & Hd); [lia|].
    pose proof (FormatUint_allDigits p ltac:(lia)) as A.
    pose proof (parseDigits_FormatUint p ltac:(lia)) as V.
    unfold Sscanf_d. rewrite Hf in *.
    rewrite SkipSpace_visible by (apply isDigit_range in Hd; lia).
    destruct (isDigit_not_sign d Hd) as [-> ->].
    rewrite Hd, (scanDigits_allDigits _ A), V. now rewrite Hp.
Qed.

(** What follows the digits is ignored: a byte that is not a digit ends the
    number and the scan succeeds all the same. *)
Lemma Sscanf_d_trailing (p : Z) (c : ascii) (junk : string) :
  inInt64 p = true -> isDigit c = false ->
  Sscanf_d (FormatInt p ++ String c junk) = Ok p.
Proof.
  intros Hp Hc. unfold FormatInt. destruct (p <? 0) eqn:E.
  - apply Z.ltb_lt in E.
    destruct (FormatUint_head (- p)) as (d & r & Hf & Hd); [lia|].
    unfold Sscanf_d. cbn [append].
    rewrite SkipSpace_visible by (vm_compute; split; [discriminate | reflexivity]).
    change (Ascii.eqb "-" "-") with true. cbv iota beta.
    pose proof (FormatUint_allDigits (- p) ltac:(lia)) as A.
    pose proof (parseDigits_FormatUint (- p) ltac:(lia)) as V.
    pose proof (scanDigits_app _ junk c A Hc) as Sc.
    rewrite Hf in *. cbn [append] in *. rewrite Hd, Sc, V.
    replace (- - p) with p by lia. now rewrite Hp.
  - apply Z.ltb_ge in E.
    destruct (FormatUint_head p) as (d & r & Hf & Hd); [lia|].
    pose proof (FormatUint_allDigits p ltac:(lia)) as A.
    pose proof (parseDigits_FormatUint p ltac:(lia)) as V.
    pose proof (scanDigits_app _ junk c A Hc) as Sc.
    unfold Sscanf_d. rewrite Hf in *. cbn [append] in *.
    rewrite SkipSpace_visible by (apply isDigit_range in Hd; lia).
    destruct (isDigit_not_sign d Hd) as [-> ->].
    rewrite Hd, Sc, V. now rewrite Hp.
Qed.

Lemma allDigits_no_colon (s : string) : allDigits s -> Count s ":" = 0%nat.
Proof.
  induction s as [|c s IH]; intros H; [reflexivity|].
  apply allDigits_inv in H as [Hc Hs]. simpl. rewrite (IH Hs).
  replace (Ascii.eqb c ":") with false; [reflexivity|].
  symmetry; apply Ascii.eqb_neq; intros ->. discriminate Hc.
Qed.

Lemma FormatInt_no_colon (p : Z) : Count (FormatInt p) ":" = 0%nat.
Proof.
  unfold FormatInt. destruct (p <? 0) eqn:E.
  - apply Z.ltb_lt in E. simpl.
    apply allDigits_no_colon, FormatUint_allDigits; lia.
  - apply Z.ltb_ge in E. apply allDigits_no_colon, FormatUint_allDigits; lia.
Qed.

(** Round trip: a host name without a colon, a colon and the decimal form of
    a 64-bit port parse to that host and port, and formatting the key gives
    the same string again. *)
Theorem ParseInstanceKey_String_roundtrip (host : string) (port : Z) :
  Count host ":" = 0%nat -> inInt64 port = true ->
  let s := host ++ ":" ++ FormatInt port in
  ParseInstanceKey s = Ok {| Hostname := host; Port := port |}
  /\ InstanceKey_String {| Hostname := host; Port := port |} = s.
Proof.
  intros Hh Hp s. split; [|reflexivity].
  unfold ParseInstanceKey, s. cbn [append].
  rewrite (Split_app host _ ":" Hh), (Split_no_sep _ _ (FormatInt_no_colon port)).
  now rewrite Sscanf_d_FormatInt.
Qed.

(** Property X3.  Formatting then parsing gives the key back, for keys whose
    host has no colon and whose port is a 64-bit integer. *)
Theorem String_ParseInstanceKey (key : InstanceKey) :
  Count key.(Hostname) ":" = 0%nat -> inInt64 key.(Port) = true ->
  ParseInstanceKey (InstanceKey_String key) = Ok key.
Proof.
  destruct key as [host port]; intros Hh Hp.
  apply (ParseInstanceKey_String_roundtrip host port Hh Hp).
Qed.

(** A string without exactly one colon is rejected. *)
Theorem ParseInstanceKey_colons (s : string) :
  Count s ":" <> 1%nat ->
  ParseInstanceKey s = Err ("invalid instance key format: " ++ s).
Proof.
  intros H. unfold ParseInstanceKey.
  pose proof (Split_length s ":") as L.
  destruct (Split s ":") as [|a [|b [|c l]]]; try reflexivity.
  simpl in L. exfalso; apply H; congruence.
Qed.

(** Property X4.  A port that is empty, or that starts with a visible ASCII
    byte which is neither a digit nor a sign, is rejected. *)
Theorem ParseInstanceKey_port_not_a_number (host port : string) :
  Count host ":" = 0%nat -> Count port ":" = 0%nat ->
  (port = ""
   \/ exists c r, port = String c r /\ 33 <= code c < 128
                  /\ isDigit c = false
                  /\ Ascii.eqb c "-" = false /\ Ascii.eqb c "+" = false) ->
  ParseInstanceKey (host ++ ":" ++ port)
  = Err ("invalid port in instance key: " ++ port).
Proof.
  intros Hh Hp H. unfold ParseInstanceKey. cbn [append].
  rewrite (Split_app host _ ":" Hh), (Split_no_sep _ _ Hp).
  destruct H as [->|(c & r & -> & Hc & Hd & Hm & Hpl)]; [reflexivity|].
  unfold Sscanf_d. rewrite SkipSpace_visible by exact Hc.
  now rewrite Hm, Hpl, Hd.
Qed.

(** Trailing bytes after the digits of the port are accepted and dropped:
    the returned key formats to a different string than the input. *)
Theorem ParseInstanceKey_trailing_bytes
    (host : string) (port : Z) (c : ascii) (junk : string) :
  Count host ":" = 0%nat -> inInt64 port = true ->
  isDigit c = false -> Count (String c junk) ":" = 0%nat ->
  ParseInstanceKey (host ++ ":" ++ FormatInt port ++ String c junk)
  = Ok {| Hostname := host; Port := port |}.
Proof.
  intros Hh Hp Hc Hj. unfold ParseInstanceKey. cbn [append].
  rewrite (Split_app host _ ":" Hh).
  rewrite Split_no_sep
    by (rewrite Count_app, FormatInt_no_colon; exact Hj).
  now rewrite Sscanf_d_trailing.
Qed.

End InstanceKeyFacts.

(** ** Endpoint normalization and leader resolution *)

Module LeaderFacts.
Import GoStrings GoStringsFacts GoClient.

Lemma normalizeURL_has_suffix (u : string) :
  HasSuffix (normalizeURL u) "/api" = true.
Proof.
  unfold normalizeURL.
  destruct (HasSuffix (TrimSuffix u "/") "/api") eqn:E; simpl.
  - exact E.
  - apply HasSuffix_app.
Qed.

(** A URL that ends with ["/api"] is a fixed point. *)
Lemma normalizeURL_fixed (u : string) :
  HasSuffix u "/api" = true -> normalizeURL u = u.
Proof.
  intros H. unfold normalizeURL.
  assert (TrimSuffix u "/" = u) as ->.
  { unfold TrimSuffix. rewrite HasSuffix_1_false; [reflexivity|].
    rewrite (HasSuffix_last_byte u "/ap" "i" H). discriminate. }
  now rewrite H.
Qed.

Lemma normalizeEndpoints_map (l : list string) :
  normalizeEndpoints l = map normalizeURL l.
Proof. induction l as [|e l IH]; simpl; [reflexivity | now rewrite IH]. Qed.

Section Probes.
Variable World : Type.
Variable check : string -> World -> bool * World.

Local Abbreviation declines := (GoClient.declines World check).

Lemma firstAffirmative_Some (eps : list string) (w w' : World) (e : string) :
  firstAffirmative World check eps w = (Some e, w') ->
  exists pre post w1,
    eps = (pre ++ e :: post)%list /\ declines pre w w1 /\ check e w1 = (true, w').
Proof.
  revert w; induction eps as [|x eps IH]; intros w H; simpl in H;
    [discriminate|].
  destruct (check x w) as [yes w1] eqn:E. destruct yes.
  - injection H as <- <-. exists [], eps, w.
    repeat split; [constructor | exact E].
  - destruct (IH _ H) as (pre & post & w2 & -> & D & C).
    exists (x :: pre), post, w2. repeat split; [|exact C].
    econstructor; eassumption.
Qed.

Lemma firstAffirmative_None (eps : list string) (w w' : World) :
  firstAffirmative World check eps w = (None, w') -> declines eps w w'.
Proof.
  revert w; induction eps as [|x eps IH]; intros w H; simpl in H.
  - injection H as <-. constructor.
  - destruct (check x w) as [yes w1] eqn:E. destruct yes; [discriminate|].
    econstructor; [exact E | now apply IH].
Qed.

Lemma declines_firstAffirmative (pre : list string) (w w1 : World) :
  declines pre w w1 ->
  forall rest, firstAffirmative World check (pre ++ rest)%list w
               = firstAffirmative World check rest w1.
Proof.
  induction 1 as [|e r w w1 w2 E D IH]; intros rest; [reflexivity|].
  simpl. rewrite E. apply IH.
Qed.

End Probes.

End LeaderFacts.

(** ** The SDK's operations *)

Module ClientFacts.
Import Json Client.

Lemma setFields_app (r : APIResponse) (a b : list (string * json)) :
  setFields r (a ++ b)%list
  = match setFields r a with
    | Err e => Err e
    | Ok r' => setFields r' b
    end.
Proof.
  revert r; induction a as [|[k v] a IH]; intros r; simpl; [reflexivity|].
  destruct (setField r k v); [apply IH | reflexivity].
Qed.

(** A member that leaves the code untouched: its key names another field or
    none, or its value is [null]. *)
Lemma setField_Code (r r' : APIResponse) (k : string) (v : json) :
  setField r k v = Ok r' ->
  Code r' = Code r
  \/ (fieldOf k = Some FCode
      /\ exists n, v = JNumber n /\ asInt n = Some (Code r')).
Proof.
  unfold setField. destruct (fieldOf k) as [[| |]|] eqn:F.
  - destruct v as [|b|n|s|l|m]; try discriminate.
    + intros [= <-]. now left.
    + destruct (asInt n) as [i|] eqn:A; [|discriminate].
      intros [= <-]. right. split; [reflexivity|]. exists n. now split.
  - destruct v; try discriminate; intros [= <-]; now left.
  - destruct (toAny v); [|discriminate]. intros [= <-]; now left.
  - intros [= <-]; now left.
Qed.

(** The code a decoded envelope carries is the zero value [ERROR], unless a
    member of the object names the field and gives it that number. *)
Lemma setFields_Code (members : list (string * json)) (r r' : APIResponse) :
  setFields r members = Ok r' ->
  Code r' = Code r
  \/ exists k n, In (k, JNumber n) members /\ fieldOf k = Some FCode
                 /\ asInt n = Some (Code r').
Proof.
  revert r; induction members as [|[k v] ms IH]; intros r; simpl.
  - intros [= <-]. now left.
  - destruct (setField r k v) as [r1|] eqn:S1; [|discriminate].
    intros H. destruct (IH _ H) as [E|(k' & n & Hin & Hf & Hn)].
    + destruct (setField_Code _ _ _ _ S1) as [E1|(Hf & n & -> & Hn)].
      * left; congruence.
      * right. exists k, n. rewrite E. repeat split; auto.
    + right. exists k', n. repeat split; auto.
Qed.

Lemma unmarshalAPIResponse_Code (j : json) (r : APIResponse) :
  unmarshalAPIResponse j = Ok r ->
  Code r = ERROR
  \/ exists members k n,
       j = JObject members /\ In (k, JNumber n) members
       /\ fieldOf k = Some FCode /\ asInt n = Some (Code r).
Proof.
  destruct j as [|b|n|s|l|members]; simpl; try discriminate.
  - intros [= <-]. now left.
  - intros H. destruct (setFields_Code _ _ _ H) as [E|(k & n & H1 & H2 & H3)].
    + now left.
    + right. exists members, k, n. auto.
Qed.

(** What [getJSON] accepts: a response below status 400 whose body is a JSON
    document that decodes into the envelope. *)
Lemma getJSON_Ok (o : HttpOutcome) (r : APIResponse) :
  getJSON o = Ok r ->
  exists status body j,
    o = Responded status body (Ok j) /\ (status < 400)%Z
    /\ unmarshalAPIResponse j = Ok r.
Proof.
  destruct o as [c|c|s c|status body parsed]; simpl; try discriminate.
  destruct (400 <=? status)%Z eqn:E; [discriminate|].
  apply Z.leb_gt in E.
  destruct parsed as [j|e]; simpl; [|discriminate].
  destruct (unmarshalAPIResponse j) as [r'|] eqn:U; [|discriminate].
  intros [= <-]. exists status, body, j. auto.
Qed.

(** The prefix each operation puts before the message of the envelope. *)
Lemma operations_prefix (op : Operation) :
  In op operations -> opErrPrefix op = errPrefixOf (opName op).
Proof.
  intros H.
  assert (forallb (fun op => String.eqb (opErrPrefix op) (errPrefixOf (opName op)))
            operations = true) as F by (vm_compute; reflexivity).
  rewrite forallb_forall in F. apply String.eqb_eq, F, H.
Qed.

Section Operations.
Variable Rec : Type.
Variable unmarshalRecord : string -> any -> result Rec.
Variable formatFloat : float64 -> string.
Variable float64_overflow : float64 -> Z.

Local Abbreviation run := (Client.run Rec unmarshalRecord formatFloat float64_overflow).
Local Abbreviation convert := (Client.convert Rec unmarshalRecord formatFloat float64_overflow).

Lemma run_not_OK (op : Operation) (o : HttpOutcome) (response : APIResponse) :
  getJSON o = Ok response -> Code response <> OK ->
  run op o = Err (opErrPrefix op ++ Message response).
Proof.
  intros G C. unfold Client.run. rewrite G.
  replace (Code response =? OK)%Z with false; [reflexivity|].
  symmetry; now apply Z.eqb_neq.
Qed.

Lemma run_OK (op : Operation) (o : HttpOutcome) (response : APIResponse) :
  getJSON o = Ok response -> Code response = OK ->
  run op o = convert (opConv op) (Details response).
Proof.
  intros G C. unfold Client.run. rewrite G, C. reflexivity.
Qed.

(** An operation that succeeds has read an envelope whose code is [OK]. *)
Lemma run_Ok_inv (op : Operation) (o : HttpOutcome) (v : Value Rec) :
  run op o = Ok v ->
  exists response, getJSON o = Ok response /\ Code response = OK.
Proof.
  unfold Client.run. destruct (getJSON o) as [response|] eqn:G; [|discriminate].
  destruct (Code response =? OK)%Z eqn:C; simpl; [|discriminate].
  intros _. exists response. split; [reflexivity | now apply Z.eqb_eq].
Qed.

(** An operation that decodes a slice or a map in place returns the nil
    collection for nil details: [json.Marshal(nil)] is [null], and
    [json.Unmarshal] of [null] leaves the declared variable as it is. *)
Lemma run_inline_nil (op : Operation) (o : HttpOutcome) (response : APIResponse) :
  inlineCollection (opConv op) = true ->
  getJSON o = Ok response -> Code response = OK -> Details response = Nil ->
  run op o = Ok (VRecords Rec NilSlice) \/ run op o = Ok (VRecordMap Rec NilMap).
Proof.
  intros I G C D. rewrite (run_OK op o response G C), D.
  destruct (opConv op); try discriminate I; [left | right]; reflexivity.
Qed.

(** The methods written out are the table's entries. *)
Lemma GetInstance_run (o : HttpOutcome) :
  bind (GetInstance Rec unmarshalRecord o) (fun r => Ok (VRecord Rec r))
  = run (mkOp "GetInstance" "API error: "
           (CRecordChecked "Instance" "no instance data in response")) o.
Proof.
  unfold GetInstance, Client.run. destruct (getJSON o) as [r|]; [|reflexivity].
  simpl. destruct (negb (Code r =? OK)%Z); [reflexivity|].
  destruct (is_nil (Details r)); reflexivity.
Qed.

Lemma GetInstanceReplicas_run (o : HttpOutcome) :
  bind (GetInstanceReplicas Rec unmarshalRecord o) (fun s => Ok (VRecords Rec s))
  = run (mkOp "GetInstanceReplicas" "API error: " (CSlice "Instance")) o.
Proof.
  unfold GetInstanceReplicas, Client.run.
  destruct (getJSON o) as [r|]; [|reflexivity].
  simpl. destruct (negb (Code r =? OK)%Z); reflexivity.
Qed.

Lemma Health_run (o : HttpOutcome) :
  bind (Health o) (fun _ => Ok (VNone Rec))
  = run (mkOp "Health" "health check failed: " CNone) o.
Proof.
  unfold Health, Client.run. destruct (getJSON o) as [r|]; [|reflexivity].
  simpl. destruct (negb (Code r =? OK)%Z); reflexivity.
Qed.

Lemma CheckGlobalRecoveries_run (o : HttpOutcome) :
  bind (CheckGlobalRecoveries o) (fun b => Ok (VBool Rec b))
  = run (mkOp "CheckGlobalRecoveries" "API error: " CBool) o.
Proof.
  unfold CheckGlobalRecoveries, Client.run.
  destruct (getJSON o) as [r|]; [|reflexivity].
  simpl. destruct (negb (Code r =? OK)%Z); reflexivity.
Qed.

Lemma GetRaftLeader_run (o : HttpOutcome) :
  bind (GetRaftLeader formatFloat o) (fun s => Ok (VString Rec s))
  = run (mkOp "GetRaftLeader" "API error: " CStringOrSprint) o.
Proof.
  unfold GetRaftLeader, Client.run.
  destruct (getJSON o) as [r|]; [|reflexivity].
  simpl. destruct (negb (Code r =? OK)%Z); [reflexivity|].
  destruct (Details r); reflexivity.
Qed.

Lemma GetClusterPoolInstancesForPool_run (o : HttpOutcome) :
  bind (GetClusterPoolInstancesForPool o) (fun s => Ok (VKeys Rec s))
  = run (mkOp "GetClusterPoolInstancesForPool" "API error: " CKeys) o.
Proof.
  unfold GetClusterPoolInstancesForPool, Client.run.
  destruct (getJSON o) as [r|]; [|reflexivity].
  simpl. destruct (negb (Code r =? OK)%Z); [reflexivity|].
  destruct (convertToStringSlice (Details r)); reflexivity.
Qed.

Lemma GetHeuristicClusterPoolLagForPool_run (o : HttpOutcome) :
  bind (GetHeuristicClusterPoolLagForPool float64_overflow o)
       (fun i => Ok (VInt64 Rec i))
  = run (mkOp "GetHeuristicClusterPoolLagForPool" "API error: " CLag) o.
Proof.
  unfold GetHeuristicClusterPoolLagForPool, Client.run.
  destruct (getJSON o) as [r|]; [|reflexivity].
  simpl. destruct (negb (Code r =? OK)%Z); [reflexivity|].
  destruct (Details r); reflexivity.
Qed.

End Operations.

(** The written-out methods and the entries they are compared with above are
    in the table. *)
Lemma written_out_in_table :
  incl
    [mkOp "GetInstance" "API error: "
       (CRecordChecked "Instance" "no instance data in response");
     mkOp "GetInstanceReplicas" "API error: " (CSlice "Instance");
     mkOp "Health" "health check failed: " CNone;
     mkOp "CheckGlobalRecoveries" "API error: " CBool;
     mkOp "GetRaftLeader" "API error: " CStringOrSprint;
     mkOp "GetClusterPoolInstancesForPool" "API error: " CKeys;
     mkOp "GetHeuristicClusterPoolInstancesForPool" "API error: " CKeys;
     mkOp "GetHeuristicClusterPoolLagForPool" "API error: " CLag]
    operations.
Proof.
  intros op H. simpl in H.
  repeat (destruct H as [<-|H]; [unfold operations; simpl; tauto|]).
  destruct H.
Qed.

(** Converting a list of JSON strings to [[]string] gives the strings. *)
Lemma decodeElems_strings (strs : list string) :
  decodeElems (toString "") (map Str strs) = Ok strs.
Proof.
  induction strs as [|s l IH]; simpl; [reflexivity | now rewrite IH].
Qed.

Lemma convertToStringSlice_strings (strs : list string) :
  convertToStringSlice (Slice (map Str strs)) = Ok (SliceOf strs).
Proof.
  unfold convertToStringSlice. simpl. now rewrite decodeElems_strings.
Qed.

Lemma parseKeys_flat_map (strs : list string) :
  parseKeys strs
  = flat_map (fun s => match ParseInstanceKey s with
                       | Ok key => [key]
                       | Err _ => []
                       end) strs.
Proof.
  induction strs as [|s l IH]; simpl; [reflexivity|].
  destruct (ParseInstanceKey s); simpl; now rewrite IH.
Qed.

Lemma parseKeys_In (strs : list string) (key : InstanceKey) :
  In key (parseKeys strs)
  <-> exists s, In s strs /\ ParseInstanceKey s = Ok key.
Proof.
  rewrite parseKeys_flat_map, in_flat_map. split.
  - intros (s & Hs & Hk). exists s. split; [exact Hs|].
    destruct (ParseInstanceKey s) as [k|]; simpl in Hk; [|contradiction].
    destruct Hk as [->|[]]. reflexivity.
  - intros (s & Hs & Hk). exists s. split; [exact Hs|]. rewrite Hk. now left.
Qed.

Lemma parseKeys_app (a b : list string) :
  parseKeys (a ++ b)%list = (parseKeys a ++ parseKeys b)%list.
Proof. rewrite !parseKeys_flat_map. apply flat_map_app. Qed.

(** The integer a [float64] holds, when it holds one. *)
Lemma truncate_holdsInteger (f : float64) (n : Z) :
  holdsInteger f n -> truncate f = Some n.
Proof.
  destruct f as [s|s| |s m e]; unfold holdsInteger, truncate; try contradiction.
  - now intros ->.
  - destruct (0 <=? e)%Z eqn:E.
    + intros <-. destruct s; f_equal.
      change (Z.neg m) with (- Z.pos m)%Z. ring.
    + apply Z.leb_gt in E. intros H.
      assert (0 < 2 ^ (- e))%Z as P by (apply Z.pow_pos_nonneg; lia).
      destruct s; f_equal.
      * assert (Z.pos m = (- n) * 2 ^ (- e))%Z as ->.
        { change (Z.neg m) with (- Z.pos m)%Z in H.
          rewrite Z.mul_opp_l, <- H. ring. }
        rewrite Z.div_mul by lia. ring.
      * rewrite H, Z.div_mul by lia. reflexivity.
Qed.

End ClientFacts.

(** ** The integer part of a [float64] and the details of an envelope *)

Module LagFacts.
Import Json Client.
Local Open Scope Z_scope.

(** [truncate] computes the integer part. *)
Lemma truncate_integerPart (f : float64) (t : Z) :
  truncate f = Some t -> integerPart f t.
Proof.
  destruct f as [s|s| |s m e]; unfold truncate, integerPart; try discriminate.
  - now intros [= <-].
  - set (mag := if 0 <=? e then Z.pos m * 2 ^ e else Z.pos m / 2 ^ (- e)).
    intros T.
    assert (t = if s then - mag else mag) as -> by (now injection T).
    clear T. cbv zeta.
    assert ((if s then - (if s then - mag else mag)
             else if s then - mag else mag) = mag) as ->
      by (destruct s; lia).
    subst mag. destruct (0 <=? e) eqn:E.
    + apply Z.leb_le in E.
      rewrite (Z.max_r 0 e), (Z.max_l 0 (- e)) by lia.
      change (2 ^ 0) with 1.
      assert (0 <= Z.pos m * 2 ^ e) by (apply Z.mul_nonneg_nonneg; [lia|];
                                       apply Z.pow_nonneg; lia).
      lia.
    + apply Z.leb_gt in E.
      rewrite (Z.max_l 0 e), (Z.max_r 0 (- e)) by lia.
      change (2 ^ 0) with 1. rewrite Z.mul_1_r.
      assert (0 < 2 ^ (- e)) as P by (apply Z.pow_pos_nonneg; lia).
      pose proof (Z.div_pos (Z.pos m) (2 ^ (- e)) ltac:(lia) P) as D0.
      pose proof (Z.mul_div_le (Z.pos m) (2 ^ (- e)) P) as D1.
      pose proof (Z.mul_succ_div_gt (Z.pos m) (2 ^ (- e)) P) as D2.
      repeat split; lia.
Qed.

(** A [float64] has at most one integer part. *)
Lemma integerPart_unique (f : float64) (n n' : Z) :
  integerPart f n -> integerPart f n' -> n = n'.
Proof.
  destruct f as [s|s| |s m e]; unfold integerPart; try contradiction.
  - congruence.
  - cbv zeta.
    assert (0 < 2 ^ Z.max 0 (- e)) as P by (apply Z.pow_pos_nonneg; lia).
    set (den := 2 ^ Z.max 0 (- e)) in *.
    set (num := Z.pos m * 2 ^ Z.max 0 e) in *.
    intros (A0 & A1 & A2) (B0 & B1 & B2).
    assert ((if s then - n else n) = (if s then - n' else n')) as E by nia.
    destruct s; lia.
Qed.

(** A finite [float64] has an integer part, the one [truncate] computes. *)
Lemma integerPart_truncate (f : float64) (n : Z) :
  integerPart f n -> truncate f = Some n.
Proof.
  intros H.
  destruct (truncate f) as [t|] eqn:T.
  - f_equal. exact (integerPart_unique f t n (truncate_integerPart f t T) H).
  - destruct f; try discriminate T; contradiction.
Qed.

Lemma integerPart_exists (f : float64) :
  isFinite f = true -> exists n, integerPart f n.
Proof.
  intros F. destruct (truncate f) as [t|] eqn:T.
  - exists t. now apply truncate_integerPart.
  - destruct f; discriminate.
Qed.

(** What [encoding/json] decodes into an [interface{}] is never an [int64]
    or an [int]. *)
Lemma toAny_no_integer (j : json) (d : any) :
  toAny j = Ok d -> forall n, d <> Int64 n /\ d <> Int n.
Proof.
  destruct j as [|b|num|s|elems|members]; cbn [toAny].
  - intros [= <-] n. split; discriminate.
  - intros [= <-] n. split; discriminate.
  - destruct (asFloat num); [|discriminate].
    intros [= <-] n. split; discriminate.
  - intros [= <-] n. split; discriminate.
  - match goal with |- match ?x with _ => _ end = _ -> _ =>
      destruct x; [|discriminate] end.
    intros [= <-] n. split; discriminate.
  - match goal with |- match ?x with _ => _ end = _ -> _ =>
      destruct x; [|discriminate] end.
    intros [= <-] n. split; discriminate.
Qed.

Lemma setFields_no_integer (members : list (string * json)) :
  forall r r',
    (forall n, Details r <> Int64 n /\ Details r <> Int n) ->
    setFields r members = Ok r' ->
    forall n, Details r' <> Int64 n /\ Details r' <> Int n.
Proof.
  induction members as [|[k v] rest IH]; intros r r' H; cbn [setFields].
  - now intros [= <-].
  - destruct (setField r k v) as [r1|] eqn:S; [|discriminate].
    apply IH. unfold setField in S.
    destruct (fieldOf k) as [[| |]|].
    + destruct v as [| |num| | |]; try discriminate S;
        [now injection S as <- | ].
      destruct (asInt num); [|discriminate].
      now injection S as <-.
    + destruct v; try discriminate S; now injection S as <-.
    + destruct (toAny v) as [d|] eqn:T; [|discriminate].
      injection S as <-. cbn [Details]. exact (toAny_no_integer v d T).
    + now injection S as <-.
Qed.

(** The details of a decoded envelope are never an [int64] or an [int]. *)
Lemma getJSON_no_integer (o : HttpOutcome) (response : APIResponse) :
  getJSON o = Ok response ->
  forall n, Details response <> Int64 n /\ Details response <> Int n.
Proof.
  intros G. apply ClientFacts.getJSON_Ok in G as (s & b & j & _ & _ & U).
  destruct j; try discriminate U.
  - injection U as <-. intros n. split; discriminate.
  - apply (setFields_no_integer members zeroAPIResponse); [|exact U].
    intros n. split; discriminate.
Qed.

End LagFacts.

(** ** Percent-encoding *)

Module GoURLFacts.
Import GoStrings GoStringsFacts GoFmt GoURL.

(** A property checked on the 256 bytes holds of every byte. *)
Lemma all_bytes (P : ascii -> bool) :
  forallb (fun n => P (ascii_of_nat n)) (seq 0 256) = true ->
  forall c, P c = true.
Proof.
  intros H c. rewrite forallb_forall in H.
  rewrite <- (ascii_nat_embedding c). apply H, in_seq.
  pose proof (nat_ascii_bounded c). lia.
Qed.

Lemma QueryEscape_cons (c : ascii) (s : string) :
  QueryEscape (String c s) = escapeByte c ++ QueryEscape s.
Proof.
  unfold escapeByte. simpl.
  destruct (Ascii.eqb c " "); [reflexivity|].
  destruct (shouldEscape c); reflexivity.
Qed.

Lemma escapeByte_unit (c : ascii) : escapedUnit (escapeByte c) = true.
Proof. revert c. apply all_bytes. vm_compute. reflexivity. Qed.

Lemma isSegmentChar_not_percent (c : ascii) :
  isSegmentChar c = true -> Ascii.eqb c "%" = false.
Proof.
  intros H. destruct (Ascii.eqb_spec c "%") as [->|]; [discriminate H | reflexivity].
Qed.

Lemma isSegmentChar_not_slash (c : ascii) :
  isSegmentChar c = true -> Ascii.eqb c "/" = false.
Proof.
  intros H. destruct (Ascii.eqb_spec c "/") as [->|]; [discriminate H | reflexivity].
Qed.

Lemma isHex_not_slash (c : ascii) : isHex c = true -> Ascii.eqb c "/" = false.
Proof.
  intros H. destruct (Ascii.eqb_spec c "/") as [->|]; [discriminate H | reflexivity].
Qed.

Lemma escapedUnit_inv (p : string) :
  escapedUnit p = true ->
  (exists c, p = String c "" /\ isSegmentChar c = true)
  \/ (exists h1 h2, p = String "%" (String h1 (String h2 ""))
                    /\ isHex h1 = true /\ isHex h2 = true).
Proof.
  unfold escapedUnit. destruct p as [|c [|h1 [|h2 [|x r]]]]; try discriminate.
  - intros H. left. exists c. now split.
  - destruct (Ascii.eqb_spec c "%") as [->|]; [|discriminate].
    simpl. intros H. apply andb_true_iff in H as [H1 H2].
    right. exists h1, h2. auto.
Qed.

Lemma wellFormedSegment_unit (p t : string) :
  escapedUnit p = true ->
  wellFormedSegment (p ++ t) = wellFormedSegment t.
Proof.
  intros H. destruct (escapedUnit_inv p H) as [(c & -> & Hc)|(h1 & h2 & -> & H1 & H2)].
  - simpl. now rewrite (isSegmentChar_not_percent c Hc), Hc.
  - simpl. now rewrite H1, H2.
Qed.

Lemma Count_unit (p t : string) :
  escapedUnit p = true -> Count (p ++ t) "/" = Count t "/".
Proof.
  intros H. destruct (escapedUnit_inv p H) as [(c & -> & Hc)|(h1 & h2 & -> & H1 & H2)].
  - simpl. now rewrite (isSegmentChar_not_slash c Hc).
  - simpl. now rewrite (isHex_not_slash h1 H1), (isHex_not_slash h2 H2).
Qed.

(** Whatever the input, the output of [QueryEscape] is one well-formed path
    segment: segment characters and [%XX] triplets, and no slash. *)
Lemma QueryEscape_wellFormed (s : string) :
  wellFormedSegment (QueryEscape s) = true /\ Count (QueryEscape s) "/" = 0.
Proof.
  induction s as [|c s [IH1 IH2]]; [split; reflexivity|].
  rewrite QueryEscape_cons.
  now rewrite wellFormedSegment_unit, Count_unit by apply escapeByte_unit.
Qed.

Lemma allDigits_wellFormed (s : string) :
  allDigits s -> wellFormedSegment s = true /\ Count s "/" = 0.
Proof.
  induction s as [|c s IH]; intros H; [split; reflexivity|].
  apply GoFmtFacts.allDigits_inv in H as [Hc Hs]. destruct (IH Hs) as [W C].
  assert (isSegmentChar c = true) as S.
  { unfold isSegmentChar, isAlnum. apply GoFmtFacts.isDigit_range in Hc.
    replace ((48 <=? code c)%Z && (code c <=? 57)%Z) with true.
    - now rewrite !orb_true_r.
    - symmetry; apply andb_true_iff; split; apply Z.leb_le; lia. }
  simpl. rewrite (isSegmentChar_not_percent c S), (isSegmentChar_not_slash c S), S.
  auto.
Qed.

Lemma FormatInt_wellFormed (i : Z) :
  wellFormedSegment (FormatInt i) = true /\ Count (FormatInt i) "/" = 0.
Proof.
  unfold FormatInt. destruct (i <? 0)%Z eqn:E.
  - apply Z.ltb_lt in E.
    destruct (allDigits_wellFormed (FormatUint (- i))) as [W C];
      [apply GoFmtFacts.FormatUint_allDigits; lia|].
    simpl. now rewrite W, C.
  - apply Z.ltb_ge in E. apply allDigits_wellFormed.
    apply GoFmtFacts.FormatUint_allDigits; lia.
Qed.

End GoURLFacts.

(** ** The string-code client's parser *)

Module GoClientFacts.
Import Json GoClient.

Section Parser.
Variable Rec : Type.
Variable zeroRecord : string -> Rec.
Variable unmarshalRecord : string -> any -> result Rec.

Local Abbreviation parseAPIResponse :=
  (GoClient.parseAPIResponse Rec zeroRecord unmarshalRecord).
Local Abbreviation zeroOf := (GoClient.zeroOf Rec zeroRecord).

(** An envelope whose code is ["ERROR"] is the API error, with the message
    as it came. *)
Lemma parseAPIResponse_ERROR (status : Z) (body : string) (parsed : result json)
    (r : APIResponse) (t : Target) :
  bind parsed unmarshalAPIResponse = Ok r -> Code r = "ERROR" ->
  parseAPIResponse (Readable status body parsed) t
  = mkParsed Rec (Some r) (zeroOf t) (Some ("API error: " ++ Message r)).
Proof.
  intros U C. unfold GoClient.parseAPIResponse. rewrite U, C. reflexivity.
Qed.

(** Any other code is no error of the parser: with nothing to decode the
    call succeeds. *)
Lemma parseAPIResponse_other_nil_target (status : Z) (body : string)
    (parsed : result json) (r : APIResponse) :
  bind parsed unmarshalAPIResponse = Ok r -> Code r <> "ERROR" ->
  parseAPIResponse (Readable status body parsed) TgtNil
  = mkParsed Rec (Some r) (DNil Rec) None.
Proof.
  intros U C. unfold GoClient.parseAPIResponse. rewrite U.
  replace (String.eqb (Code r) "ERROR") with false; [reflexivity|].
  symmetry; now apply String.eqb_neq.
Qed.

Lemma parseAPIResponse_other (status : Z) (body : string)
    (parsed : result json) (r : APIResponse) (t : Target) :
  bind parsed unmarshalAPIResponse = Ok r -> Code r <> "ERROR" ->
  let p := parseAPIResponse (Readable status body parsed) t in
  apiResp Rec p = Some r
  /\ (err Rec p = None
      \/ exists e, err Rec p = Some ("failed to unmarshal details: " ++ e)).
Proof.
  intros U C. unfold GoClient.parseAPIResponse. rewrite U.
  replace (String.eqb (Code r) "ERROR") with false
    by (symmetry; now apply String.eqb_neq).
  destruct t; try (split; [reflexivity | now left]);
    (destruct (is_nil (Details r)); [split; [reflexivity | now left]|]);
    match goal with
    | |- context [unmarshalInto ?R ?u ?t ?d] =>
        destruct (unmarshalInto R u t d) as [d'|e]
    end;
    (split; [reflexivity|]); [now left | right; now exists e
     | now left | right; now exists e | now left | right; now exists e
     | now left | right; now exists e | now left | right; now exists e
     | now left | right; now exists e].
Qed.

(** With [Details] nil the caller's variable is left as declared. *)
Lemma parseAPIResponse_nil_details (status : Z) (body : string)
    (parsed : result json) (r : APIResponse) (t : Target) :
  bind parsed unmarshalAPIResponse = Ok r -> Code r <> "ERROR" ->
  Details r = Nil ->
  parseAPIResponse (Readable status body parsed) t
  = mkParsed Rec (Some r) (zeroOf t) None.
Proof.
  intros U C D. unfold GoClient.parseAPIResponse. rewrite U, D.
  replace (String.eqb (Code r) "ERROR") with false
    by (symmetry; now apply String.eqb_neq).
  destruct t; reflexivity.
Qed.

End Parser.

End GoClientFacts.

(** ** Request paths of the string-code client *)

Module PathFacts.
Import GoStrings GoStringsFacts GoFmt GoURL GoURLFacts.

(** A well-formed segment stays so in front of well-formed text. *)
Lemma wellFormedSegment_app_bounded (n : nat) (a b : string) :
  len a <= n -> wellFormedSegment a = true ->
  wellFormedSegment (a ++ b) = wellFormedSegment b.
Proof.
  revert a; induction n as [|n IH]; intros a L W.
  - destruct a; [reflexivity | simpl in L; lia].
  - destruct a as [|c a]; [reflexivity|].
    simpl in W |- *. destruct (Ascii.eqb c "%").
    + destruct a as [|h1 [|h2 a]]; try discriminate W.
      apply andb_true_iff in W as [W1 W3]. simpl. rewrite W1. simpl.
      apply IH; [simpl in L; lia | exact W3].
    + apply andb_true_iff in W as [W1 W2]. rewrite W1. simpl.
      apply IH; [simpl in L; lia | exact W2].
Qed.

Lemma wellFormedSegment_app (a b : string) :
  wellFormedSegment a = true -> wellFormedSegment b = true ->
  wellFormedSegment (a ++ b) = true.
Proof.
  intros A B. now rewrite (wellFormedSegment_app_bounded (len a) a b (le_n _) A).
Qed.

(** Property X23.  [Search]: whatever the search string, the path is
    ["/search/"] and one more well-formed segment. *)
Lemma Search_path_wellFormed (searchString : string) :
  Split (GoClient.Search_path searchString) "/"
  = [""; "search"; QueryEscape searchString]
  /\ wellFormedPath (GoClient.Search_path searchString) = true.
Proof.
  destruct (QueryEscape_wellFormed searchString) as [W C].
  assert (Split (GoClient.Search_path searchString) "/"
          = [""; "search"; QueryEscape searchString]) as E.
  { change (GoClient.Search_path searchString)
      with ("" ++ String "/" ("search" ++ String "/" (QueryEscape searchString))).
    rewrite !Split_app by reflexivity. now rewrite (Split_no_sep _ _ C). }
  split; [exact E|]. unfold wellFormedPath. rewrite E. simpl. now rewrite W.
Qed.

(** Property X24.  [BeginDowntime]: for a host name that is a well-formed
    segment, whatever the owner and the reason, the path is well-formed and
    has the segments the server expects: two or three after the port. *)
Lemma BeginDowntime_path_wellFormed
    (instanceKey : InstanceKey) (owner reason : string) (duration seconds : Z) :
  wellFormedSegment (Hostname instanceKey) = true ->
  Count (Hostname instanceKey) "/" = 0 ->
  Split (GoClient.BeginDowntime_path instanceKey owner reason duration seconds) "/"
  = ([""; "begin-downtime"; Hostname instanceKey; FormatInt (Port instanceKey);
      QueryEscape owner; QueryEscape reason]
     ++ (if (0 <? duration)%Z then [(FormatInt seconds ++ "s")%string] else []))%list
  /\ wellFormedPath (GoClient.BeginDowntime_path instanceKey owner reason duration seconds)
     = true.
Proof.
  intros HW HC.
  destruct (QueryEscape_wellFormed owner) as [OW OC].
  destruct (QueryEscape_wellFormed reason) as [RW RC].
  destruct (FormatInt_wellFormed (Port instanceKey)) as [PW PC].
  destruct (FormatInt_wellFormed seconds) as [SW SC].
  assert (Split (GoClient.BeginDowntime_path instanceKey owner reason duration seconds) "/"
          = ([""; "begin-downtime"; Hostname instanceKey;
              FormatInt (Port instanceKey); QueryEscape owner; QueryEscape reason]
             ++ (if (0 <? duration)%Z then [(FormatInt seconds ++ "s")%string] else []))%list)
    as E.
  { unfold GoClient.BeginDowntime_path.
    change ("/begin-downtime/" ++ ?x)
      with ("" ++ String "/" ("begin-downtime" ++ String "/" x)).
    assert (forall x, "/" ++ x = String "/" x) as slash by reflexivity.
    destruct (0 <? duration)%Z.
    - rewrite !slash, !Split_app by (reflexivity || assumption).
      rewrite Split_no_sep by (rewrite Count_app, SC; reflexivity).
      reflexivity.
    - rewrite !slash, !Split_app, app_empty_r, Split_no_sep
        by (reflexivity || assumption).
      reflexivity. }
  split; [exact E|]. unfold wellFormedPath. rewrite E.
  rewrite forallb_app. simpl. rewrite HW, PW, OW, RW. simpl.
  destruct (0 <? duration)%Z; [|reflexivity].
  simpl. now rewrite wellFormedSegment_app.
Qed.

End PathFacts.

(** * Further facts about the code *)

(** ** More on instance keys *)

Module KeyFacts.
Import GoStrings GoStringsFacts GoFmt GoFmtFacts.

(** The parts of a split contain no separator. *)
Lemma Split_parts_no_sep (s : string) (sep : ascii) :
Forall (fun p => Count p sep = 0%nat) (Split s sep).
Proof.
induction s as [|c s IH]; simpl.
- repeat constructor.
- destruct (Ascii.eqb c sep) eqn:E.
  + constructor; [reflexivity | exact IH].
  + destruct (Split s sep) as [|p ps].
    * constructor; [simpl; now rewrite E | constructor].
    * inversion IH; subst. constructor; [simpl; rewrite E; simpl; assumption | assumption].
Qed.

(** A string with one colon splits into the text before it and the text
  after it. *)
Lemma Split_two (s : string) (host portStr : string) :
Split s ":" = [host; portStr] ->
s = host ++ ":" ++ portStr
/\ Count host ":" = 0%nat /\ Count portStr ":" = 0%nat.
Proof.
intros H. pose proof (Join_Split s ":") as J. rewrite H in J. simpl in J.
pose proof (Split_parts_no_sep s ":") as F. rewrite H in F.
inversion F as [|? ? F1 F2]; subst. inversion F2; subst.
repeat split; auto.
Qed.

(** What [Sscanf] reads is a 64-bit integer. *)
Lemma Sscanf_d_range (str : string) (i : Z) :
Sscanf_d str = Ok i -> inInt64 i = true.
Proof.
unfold Sscanf_d. destruct (SkipSpace str) as [[|c rest]|]; try discriminate.
set (p := if Ascii.eqb c "-" then (true, rest)
          else if Ascii.eqb c "+" then (false, rest)
          else (false, String c rest)).
destruct p as [neg s']. destruct s' as [|d r]; try discriminate.
destruct (isDigit d); try discriminate.
destruct (scanDigits (String d r)) as [tok rem].
destruct (inInt64 (if neg then (- parseDigits tok 0)%Z else parseDigits tok 0))
  eqn:R; try discriminate.
intros [= <-]. exact R.
Qed.

End KeyFacts.

(** ** The SDK's client: URL prefix and plain text *)

Module TransportFacts.
Import GoStrings GoStringsFacts Client.

Lemma TrimSuffix_other (s : string) (c : ascii) :
last_byte s <> Some c -> TrimSuffix s (String c "") = s.
Proof.
intros H. unfold TrimSuffix. now rewrite (HasSuffix_1_false s c H).
Qed.

Lemma HasPrefix_cons (c : ascii) (s : string) :
HasPrefix (String c s) (String c "") = true.
Proof.
unfold HasPrefix. simpl. now rewrite Ascii.eqb_refl.
Qed.

Lemma last_byte_cons (c : ascii) (s : string) :
s <> "" -> last_byte (String c s) = last_byte s.
Proof. destruct s; [congruence | reflexivity]. Qed.

(** A string that [TrimSuffix] empties is empty or the suffix. *)
Lemma TrimSuffix_empty (s : string) (c : ascii) :
TrimSuffix s (String c "") = "" <-> s = "" \/ s = String c "".
Proof.
split.
- unfold TrimSuffix. destruct (HasSuffix s (String c "")) eqn:E; [|now left].
  intros T. apply HasSuffix_inv in E. rewrite T in E. now right.
- intros [->| ->]; [reflexivity|].
  change (String c "") with ("" ++ String c "") at 1.
  apply TrimSuffix_app.
Qed.

(** The prefix [NewClient] keeps, as a function of the configured one. *)
Lemma urlPrefix_NewClient (config : Config) :
urlPrefix (NewClient config)
= let t := TrimSuffix (URLPrefix config) "/" in
  if negb (String.eqb t "") && negb (HasPrefix t "/") then "/" ++ t else t.
Proof. reflexivity. Qed.

End TransportFacts.

(** ** [url.PathEscape], [strings.Replace] and [buildPath] *)

Module EscapeFacts.
Import GoStrings GoStringsFacts GoFmt GoURL GoURLFacts.

Lemma allBytes_app (P : ascii -> bool) (a b : string) :
allBytes P (a ++ b) = allBytes P a && allBytes P b.
Proof.
induction a as [|c a IH]; simpl; [reflexivity|].
now rewrite IH, andb_assoc.
Qed.

Lemma allBytes_impl (P Q : ascii -> bool) (s : string) :
(forall c, P c = true -> Q c = true) ->
allBytes P s = true -> allBytes Q s = true.
Proof.
intros I. induction s as [|c s IH]; simpl; [reflexivity|].
intros H. apply andb_true_iff in H as [H1 H2].
now rewrite (I c H1), (IH H2).
Qed.

(** A byte outside the alphabet of a text does not occur in it. *)
Lemma allBytes_Count (P : ascii -> bool) (s : string) (c : ascii) :
allBytes P s = true -> P c = false -> Count s c = 0.
Proof.
intros H N. induction s as [|d s IH]; simpl; [reflexivity|].
simpl in H. apply andb_true_iff in H as [H1 H2].
destruct (Ascii.eqb d c) eqn:E.
- apply Ascii.eqb_eq in E. congruence.
- now rewrite (IH H2).
Qed.

Lemma PathEscape_cons (c : ascii) (s : string) :
PathEscape (String c s) = PathEscape (String c "") ++ PathEscape s.
Proof. simpl. now destruct (shouldEscapeSegment c). Qed.

Lemma PathEscape_byte_unit (c : ascii) :
escapedUnit (PathEscape (String c "")) = true.
Proof.
revert c. apply all_bytes. vm_compute. reflexivity.
Qed.

Lemma PathEscape_byte_alphabet (c : ascii) :
allBytes isPathSegmentByte (PathEscape (String c "")) = true.
Proof.
revert c. apply all_bytes. vm_compute. reflexivity.
Qed.

Lemma QueryEscape_byte_alphabet (c : ascii) :
allBytes isQueryByte (QueryEscape (String c "")) = true.
Proof.
revert c. apply all_bytes. vm_compute. reflexivity.
Qed.

(** What [PathEscape] writes is made of its alphabet. *)
Lemma PathEscape_alphabet (s : string) :
allBytes isPathSegmentByte (PathEscape s) = true.
Proof.
induction s as [|c s IH]; [reflexivity|].
now rewrite PathEscape_cons, allBytes_app, PathEscape_byte_alphabet, IH.
Qed.

(** What [QueryEscape] writes is made of its alphabet. *)
Lemma QueryEscape_alphabet (s : string) :
allBytes isQueryByte (QueryEscape s) = true.
Proof.
induction s as [|c s IH]; [reflexivity|].
rewrite QueryEscape_cons. unfold escapeByte.
now rewrite allBytes_app, QueryEscape_byte_alphabet, IH.
Qed.

(** What [PathEscape] writes is a well-formed segment. *)
Lemma PathEscape_wellFormed (s : string) :
wellFormedSegment (PathEscape s) = true.
Proof.
induction s as [|c s IH]; [reflexivity|].
rewrite PathEscape_cons.
now rewrite (wellFormedSegment_unit _ _ (PathEscape_byte_unit c)).
Qed.

Lemma PathEscape_braceFree (s : string) :
Client.braceFree (PathEscape s) = true.
Proof.
apply (allBytes_impl isPathSegmentByte); [|apply PathEscape_alphabet].
intros c H.
assert (implb (isPathSegmentByte c)
          (negb (Ascii.eqb c "{" || Ascii.eqb c "}")) = true) as I
  by (revert c H; intros c _; revert c; apply all_bytes; vm_compute; reflexivity).
now rewrite H in I.
Qed.

End EscapeFacts.

Module BuildPathFacts.
Import GoStrings GoStringsFacts GoURL EscapeFacts Client.

Lemma braceFree_app (a b : string) :
braceFree (a ++ b) = braceFree a && braceFree b.
Proof. apply allBytes_app. Qed.

(** A text that does not start with an opening brace does not start with
  the placeholder. *)
Lemma HasPrefix_placeholder_other (c : ascii) (s : string) :
Ascii.eqb c "{" = false -> HasPrefix (String c s) "{}" = false.
Proof.
intros H. unfold HasPrefix. simpl.
destruct s as [|d s]; simpl; [reflexivity|].
now rewrite H.
Qed.

(** The search for the placeholder skips a text without braces. *)
Lemma Replace1_skip (p s new : string) :
braceFree p = true ->
Replace1 (p ++ s) "{}" new = p ++ Replace1 s "{}" new.
Proof.
induction p as [|c p IH]; intros H; [reflexivity|].
simpl in H. apply andb_true_iff in H as [Hc Hp].
apply negb_true_iff, orb_false_iff in Hc as [Hc _].
change (String c p ++ s) with (String c (p ++ s)).
cbn [Replace1]. rewrite (HasPrefix_placeholder_other c (p ++ s) Hc).
now rewrite (IH Hp).
Qed.

(** The placeholder at the start is the one replaced. *)
Lemma Replace1_here (s new : string) :
Replace1 ("{}" ++ s) "{}" new = new ++ s.
Proof.
change ("{}" ++ s) with (String "{" (String "}" s)).
cbn [Replace1]. unfold HasPrefix. simpl.
destruct s; reflexivity.
Qed.

(** A text without the old text is left as it is. *)
Lemma Replace1_absent (s old new : string) :
Contains s old = false -> Replace1 s old new = s.
Proof.
induction s as [|c s IH]; simpl.
- destruct (HasPrefix "" old); [discriminate | reflexivity].
- destruct (HasPrefix (String c s) old); [discriminate|].
  intros H. now rewrite (IH H).
Qed.

Lemma braceFree_no_placeholder (s : string) :
braceFree s = true -> Contains s "{}" = false.
Proof.
induction s as [|c s IH]; intros H; [reflexivity|].
simpl in H. apply andb_true_iff in H as [Hc Hs].
apply negb_true_iff, orb_false_iff in Hc as [Hc _].
cbn [Contains]. rewrite (HasPrefix_placeholder_other c s Hc).
exact (IH Hs).
Qed.

Section Fill.
Variable formatFloat : float64 -> string.

Local Abbreviation esc := (fun p => PathEscape (Sprint formatFloat p)).
Local Abbreviation step :=
(fun result part : string => Replace1 result "{}" part).
Local Abbreviation holes :=
(map (fun vc : Json.any * string => ("{}", snd vc))).
Local Abbreviation filled :=
(map (fun vc : Json.any * string =>
      (PathEscape (Sprint formatFloat (fst vc)), snd vc))).

Lemma buildPath_fold (t : string) (params : list Json.any) :
buildPath formatFloat t params = fold_left step (map esc params) t.
Proof. reflexivity. Qed.

(** Filling from the left: what is already built has no braces, so each
parameter lands in the first placeholder that is left. *)
Lemma fill_from (rest : list (Json.any * string)) :
forall (p c0 tail : string),
braceFree p = true -> braceFree c0 = true ->
Forall (fun vc => braceFree (snd vc) = true) rest ->
fold_left step (map esc (map fst rest))
  (p ++ interleave c0 (holes rest) ++ tail)
= p ++ interleave c0 (filled rest) ++ tail.
Proof.
induction rest as [|[v c] rest IH]; intros p c0 tail Hp Hc0 HF;
[reflexivity|].
inversion HF as [|? ? Hc HF']; subst. simpl in Hc.
cbn [map fst snd interleave fold_left].
replace (p ++ (c0 ++ "{}" ++ interleave c (holes rest)) ++ tail)
with ((p ++ c0) ++ "{}" ++ (interleave c (holes rest) ++ tail))
by (now rewrite !app_assoc).
rewrite Replace1_skip by (now rewrite braceFree_app, Hp, Hc0).
rewrite Replace1_here.
replace ((p ++ c0) ++ PathEscape (Sprint formatFloat v)
       ++ interleave c (holes rest) ++ tail)
with (((p ++ c0) ++ PathEscape (Sprint formatFloat v))
      ++ interleave c (holes rest) ++ tail)
by (now rewrite !app_assoc).
rewrite IH; [now rewrite !app_assoc | | exact Hc | exact HF'].
now rewrite !braceFree_app, Hp, Hc0, PathEscape_braceFree.
Qed.

Lemma filled_braceFree (rest : list (Json.any * string)) :
forall c0, braceFree c0 = true ->
Forall (fun vc => braceFree (snd vc) = true) rest ->
braceFree (interleave c0 (filled rest)) = true.
Proof.
induction rest as [|[v c] rest IH]; intros c0 H0 HF; [exact H0|].
inversion HF as [|? ? Hc HF']; subst. simpl in Hc.
cbn [map fst snd interleave].
now rewrite !braceFree_app, H0, PathEscape_braceFree, (IH c Hc HF').
Qed.

(** Parameters for which no placeholder is left change nothing. *)
Lemma surplus (extra : list Json.any) (t : string) :
Contains t "{}" = false -> fold_left step (map esc extra) t = t.
Proof.
intros H. induction extra as [|x extra IH]; [reflexivity|].
cbn [map fold_left]. now rewrite (Replace1_absent t "{}" _ H).
Qed.

End Fill.

End BuildPathFacts.

(** ** The pinned leader *)

Module PinFacts.
Import GoStrings GoStringsFacts GoClient LeaderFacts.

Lemma normalizeEndpoints_suffix (l : list string) (e : string) :
In e (normalizeEndpoints l) -> HasSuffix e "/api" = true.
Proof.
rewrite normalizeEndpoints_map, in_map_iff.
intros (u & <- & _). apply normalizeURL_has_suffix.
Qed.

Lemma TrimPrefix_cons (c : ascii) (s : string) :
TrimPrefix (String c s) (String c "") = s.
Proof.
unfold TrimPrefix, HasPrefix. simpl. now rewrite Ascii.eqb_refl.
Qed.

Section Detect.
Variable World : Type.
Variable httpGet : string -> World -> option Z * World.

Lemma firstAffirmative_In (check : string -> World -> bool * World)
(eps : list string) (w w' : World) (e : string) :
firstAffirmative World check eps w = (Some e, w') -> In e eps.
Proof.
intros H. apply firstAffirmative_Some in H as (pre & post & w1 & -> & _).
apply in_elt.
Qed.

(** [detectLeader] pins one of the client's endpoints, or fails and leaves
the client as it was. *)
Lemma detectLeader_outcomes (c c' : Client) (e : option error) (w w' : World) :
detectLeader World httpGet c w = (c', e, w') ->
(e = None /\ exists endpoint,
   In endpoint (endpoints c) /\ c' = set_leader c endpoint)
\/ (e = Some "no leader found among endpoints" /\ c' = c).
Proof.
unfold detectLeader.
destruct (firstAffirmative World (isLeader World httpGet) (endpoints c) w)
as [[x|] w1] eqn:D1.
- intros [= <- <- <-]. left. split; [reflexivity|]. exists x.
split; [exact (firstAffirmative_In _ _ _ _ _ D1) | reflexivity].
- destruct (firstAffirmative World (hasRoutedLeader World httpGet)
            (endpoints c) w1) as [[x|] w2] eqn:D2.
+ intros [= <- <- <-]. left. split; [reflexivity|]. exists x.
  split; [exact (firstAffirmative_In _ _ _ _ _ D2) | reflexivity].
+ intros [= <- <- <-]. right. split; reflexivity.
Qed.

End Detect.

End PinFacts.

(** ** [url.QueryEscape] is one-to-one *)

Module QueryFacts.
Import GoStrings GoStringsFacts GoFmt GoURL GoURLFacts EscapeFacts.

Lemma app_inv_head (a x y : string) : a ++ x = a ++ y -> x = y.
Proof.
induction a as [|c a IH]; simpl; [auto|].
intros [= H]. auto.
Qed.

Lemma HasPrefix_nil (s : string) : HasPrefix s "" = true.
Proof. unfold HasPrefix. simpl. destruct s; reflexivity. Qed.

Lemma HasPrefix_cons_cons (c d : ascii) (s t : string) :
HasPrefix (String c s) (String d t) = Ascii.eqb c d && HasPrefix s t.
Proof.
unfold HasPrefix. simpl.
destruct (Ascii.eqb c d); simpl; [reflexivity|].
now rewrite andb_false_r.
Qed.

(** Of two texts that start a common text, one starts the other. *)
Lemma common_start (u v x y : string) :
u ++ x = v ++ y -> HasPrefix u v = true \/ HasPrefix v u = true.
Proof.
revert v. induction u as [|c u IH]; intros v H.
- right. apply HasPrefix_nil.
- destruct v as [|d v]; [left; apply HasPrefix_nil|].
  simpl in H. injection H as -> H.
  rewrite !HasPrefix_cons_cons, Ascii.eqb_refl. simpl.
  exact (IH v H).
Qed.

(** The escapes of two different bytes do not start one another. *)
Lemma escapeByte_prefix_free (c d : ascii) :
HasPrefix (escapeByte c) (escapeByte d) = true -> c = d.
Proof.
assert (forall c d,
           implb (HasPrefix (escapeByte c) (escapeByte d)) (Ascii.eqb c d)
           = true) as T.
{ intros c0. apply all_bytes. revert c0. apply all_bytes.
  vm_compute. reflexivity. }
intros H. specialize (T c d). rewrite H in T. now apply Ascii.eqb_eq.
Qed.

Lemma escapeByte_nonempty (c : ascii) (s : string) :
escapeByte c ++ s <> "".
Proof.
unfold escapeByte. simpl.
destruct (Ascii.eqb c " "); [discriminate|].
destruct (shouldEscape c); discriminate.
Qed.

Lemma QueryEscape_injective (a b : string) :
QueryEscape a = QueryEscape b -> a = b.
Proof.
revert b. induction a as [|c a IH]; intros [|d b] H.
- reflexivity.
- rewrite QueryEscape_cons in H. symmetry in H.
  now apply escapeByte_nonempty in H.
- rewrite QueryEscape_cons in H. now apply escapeByte_nonempty in H.
- rewrite !QueryEscape_cons in H.
  assert (c = d) as ->.
  { destruct (common_start _ _ _ _ H) as [P|P].
    - now apply escapeByte_prefix_free.
    - symmetry. now apply escapeByte_prefix_free. }
  apply app_inv_head in H. now rewrite (IH b H).
Qed.

End QueryFacts.

(** * The properties of the specification, one theorem each *)

(** ** Endpoint normalization *)

(** Claim C8.  [normalizeURL] strips one trailing slash and appends ["/api"]
    unless the URL already ends with it: for every input the result ends with
    ["/api"], and normalizing a normalized URL changes nothing; the same holds
    endpoint by endpoint for [normalizeEndpoints].  The third part says what
    stripping and appending once mean: a URL given with a trailing slash
    normalizes to the URL before the slash, with ["/api"] added only when it
    is not there yet. *)
Theorem normalizeURL_suffix_idempotent (u : string) (endpoints : list string) :
  (exists p, GoClient.normalizeURL u = p ++ "/api")
  /\ GoClient.normalizeURL (GoClient.normalizeURL u) = GoClient.normalizeURL u
  /\ GoClient.normalizeURL (u ++ "/")
     = (if GoStrings.HasSuffix u "/api" then u else u ++ "/api")
  /\ Forall (fun e => exists p, e = p ++ "/api")
            (GoClient.normalizeEndpoints endpoints)
  /\ GoClient.normalizeEndpoints (GoClient.normalizeEndpoints endpoints)
     = GoClient.normalizeEndpoints endpoints.
Proof.
  assert (forall v, exists p, GoClient.normalizeURL v = p ++ "/api") as S
    by (intros v; apply GoStringsFacts.HasSuffix_iff,
          LeaderFacts.normalizeURL_has_suffix).
  split; [apply S|].
  split; [apply LeaderFacts.normalizeURL_fixed, LeaderFacts.normalizeURL_has_suffix|].
  split.
  { unfold GoClient.normalizeURL.
    rewrite GoStringsFacts.TrimSuffix_app.
    now destruct (GoStrings.HasSuffix u "/api"). }
  split.
  - induction endpoints as [|e l IH]; simpl; constructor; [apply S | exact IH].
  - induction endpoints as [|e l IH]; simpl; [reflexivity|].
    rewrite IH. f_equal.
    apply LeaderFacts.normalizeURL_fixed, LeaderFacts.normalizeURL_has_suffix.
Qed.

(** ** Leader resolution *)

(** Claim C4.  With two or more endpoints [NewClient] resolves the leader by
    [detectLeader]: either some endpoint [e] answers the direct leader check
    affirmatively after every endpoint before it, in input order, has
    declined, and [e] is pinned; or every endpoint declines the direct check,
    in order, and then some endpoint [e] answers the routed-leader check
    affirmatively after every endpoint before it has declined that one, and
    [e] is pinned; or every endpoint declines both passes and the call fails
    with the "no leader found" error, returning no client.  The network
    states are threaded through the probes, so the order of the probes is the
    order of the list and no endpoint after the winner is probed.  With one
    endpoint that (normalized) endpoint is pinned and the network is left
    untouched; with none the (normalized) base URL is. *)
Theorem NewClient_leader_resolution
    (World : Type) (httpGet : string -> World -> option Z * World)
    (config : GoClient.Config) (w : World) :
  let eps := GoClient.normalizeEndpoints (GoClient.Endpoints config) in
  let direct := GoClient.isLeader World httpGet in
  let routed := GoClient.hasRoutedLeader World httpGet in
  let outcome := GoClient.NewClient World httpGet (Some config) w in
  (2 <= List.length (GoClient.Endpoints config) ->
   (exists client pre e post w1 w',
       outcome = (Ok client, w') /\ GoClient.leader client = e
       /\ eps = (pre ++ e :: post)%list
       /\ GoClient.declines World direct pre w w1
       /\ direct e w1 = (true, w'))
   \/ (exists client pre e post w1 w2 w',
       outcome = (Ok client, w') /\ GoClient.leader client = e
       /\ eps = (pre ++ e :: post)%list
       /\ GoClient.declines World direct eps w w1
       /\ GoClient.declines World routed pre w1 w2
       /\ routed e w2 = (true, w'))
   \/ (exists w1 w',
       outcome = (Err "failed to detect leader: no leader found among endpoints", w')
       /\ GoClient.declines World direct eps w w1
       /\ GoClient.declines World routed eps w1 w'))
  /\ (forall e, GoClient.Endpoints config = [e] ->
      exists client, outcome = (Ok client, w)
                     /\ GoClient.leader client = GoClient.normalizeURL e)
  /\ (GoClient.Endpoints config = [] ->
      exists client, outcome = (Ok client, w)
                     /\ GoClient.leader client
                        = GoClient.normalizeURL (GoClient.BaseURL config)).
Proof.
  intros eps direct routed outcome. repeat split.
  - intros Hlen. subst outcome. unfold GoClient.NewClient. cbn [GoClient.endpoints].
    fold eps.
    assert (exists x y l, eps = x :: y :: l) as (x & y & l & E).
    { subst eps. destruct (GoClient.Endpoints config) as [|x [|y l]];
        simpl in Hlen; try lia. simpl. eauto. }
    rewrite E. rewrite <- E.
    unfold GoClient.detectLeader. cbn [GoClient.endpoints]. fold eps direct routed.
    destruct (GoClient.firstAffirmative World direct eps w) as [[e|] w1] eqn:D1.
    + left. apply LeaderFacts.firstAffirmative_Some in D1
        as (pre & post & w0 & Heq & Hd & Hc).
      eexists _, pre, e, post, w0, w1. repeat split; eauto.
    + apply LeaderFacts.firstAffirmative_None in D1.
      destruct (GoClient.firstAffirmative World routed eps w1) as [[e|] w2] eqn:D2.
      * right; left. apply LeaderFacts.firstAffirmative_Some in D2
          as (pre & post & w0 & Heq & Hd & Hc).
        eexists _, pre, e, post, w1, w0, w2. repeat split; eauto.
      * right; right. apply LeaderFacts.firstAffirmative_None in D2.
        exists w1, w2. repeat split; assumption.
  - intros e He. subst outcome eps. unfold GoClient.NewClient.
    cbn [GoClient.endpoints]. rewrite He. simpl. eexists; split; reflexivity.
  - intros He. subst outcome eps. unfold GoClient.NewClient.
    cbn [GoClient.endpoints]. rewrite He. simpl. eexists; split; reflexivity.
Qed.

(** The theorem at a configuration of two endpoints, on the logging network:
    the hypothesis of the first part holds and one of its three cases
    follows. *)
Lemma NewClient_leader_resolution_witness :
  2 <= List.length (GoClient.Endpoints Samples.twoEndpoints)
  /\ ((exists client pre e post w1 w',
        GoClient.NewClient (list string) Samples.loggingGet (Some Samples.twoEndpoints) []
        = (Ok client, w') /\ GoClient.leader client = e
        /\ GoClient.normalizeEndpoints (GoClient.Endpoints Samples.twoEndpoints)
           = (pre ++ e :: post)%list
        /\ GoClient.declines (list string)
             (GoClient.isLeader (list string) Samples.loggingGet) pre [] w1
        /\ GoClient.isLeader (list string) Samples.loggingGet e w1 = (true, w'))
      \/ (exists client pre e post w1 w2 w',
        GoClient.NewClient (list string) Samples.loggingGet (Some Samples.twoEndpoints) []
        = (Ok client, w') /\ GoClient.leader client = e
        /\ GoClient.normalizeEndpoints (GoClient.Endpoints Samples.twoEndpoints)
           = (pre ++ e :: post)%list
        /\ GoClient.declines (list string)
             (GoClient.isLeader (list string) Samples.loggingGet)
             (GoClient.normalizeEndpoints (GoClient.Endpoints Samples.twoEndpoints)) [] w1
        /\ GoClient.declines (list string)
             (GoClient.hasRoutedLeader (list string) Samples.loggingGet) pre w1 w2
        /\ GoClient.hasRoutedLeader (list string) Samples.loggingGet e w2 = (true, w'))
      \/ (exists w1 w',
        GoClient.NewClient (list string) Samples.loggingGet (Some Samples.twoEndpoints) []
        = (Err "failed to detect leader: no leader found among endpoints", w')
        /\ GoClient.declines (list string)
             (GoClient.isLeader (list string) Samples.loggingGet)
             (GoClient.normalizeEndpoints (GoClient.Endpoints Samples.twoEndpoints)) [] w1
        /\ GoClient.declines (list string)
             (GoClient.hasRoutedLeader (list string) Samples.loggingGet)
             (GoClient.normalizeEndpoints (GoClient.Endpoints Samples.twoEndpoints)) w1 w')).
Proof.
  assert (2 <= List.length (GoClient.Endpoints Samples.twoEndpoints)) as H
    by (simpl; lia).
  split; [exact H|].
  exact (proj1 (NewClient_leader_resolution (list string) Samples.loggingGet
                  Samples.twoEndpoints []) H).
Defined.

(** On that network the second endpoint is pinned after four probes, in the
    order of the two passes. *)
Example NewClient_probe_order :
  GoClient.NewClient (list string) Samples.loggingGet (Some Samples.twoEndpoints) []
  = (Ok {| GoClient.baseURL := "http://base/api";
           GoClient.username := ""; GoClient.password := "";
           GoClient.leader := "http://b/api";
           GoClient.endpoints := ["http://a/api"; "http://b/api"] |},
     ["http://a/api/leader-check"; "http://b/api/leader-check";
      "http://a/api/routed-leader-check"; "http://b/api/routed-leader-check"]).
Proof. vm_compute. reflexivity. Qed.

(** With one endpoint nothing is asked of the network. *)
Example NewClient_single_endpoint :
  GoClient.NewClient (list string) Samples.loggingGet
    (Some {| GoClient.BaseURL := "http://base";
             GoClient.Endpoints := ["http://a/"];
             GoClient.Username := ""; GoClient.Password := "" |}) []
  = (Ok {| GoClient.baseURL := "http://base/api";
           GoClient.username := ""; GoClient.password := "";
           GoClient.leader := "http://a/api";
           GoClient.endpoints := ["http://a/api"] |}, []).
Proof. vm_compute. reflexivity. Qed.

(** ** Envelope errors *)

(** Claim C1, as stated, fails twice.  In the integer-code client [Health]
    answers an [ERROR] envelope with "health check failed: " before the
    message, not "API error: ".  In the string-code client an envelope whose
    code is neither ["OK"] nor ["ERROR"] is no error at all for
    [parseAPIResponse], so [Forget] returns nil. *)
Lemma envelope_error_text_counterexample :
  Client.Health (Samples.intResponse 0 "Instance not found" Json.JNull "null")
  = Err "health check failed: Instance not found"
  /\ GoClient.Forget Json.any Samples.anyZero Samples.anyRecord
       (Samples.strResponse "FAILED" "Instance not found" Json.JNull "null")
     = None.
Proof. split; vm_compute; reflexivity. Qed.

(** Claim C1, amended.  Integer-code client: for every decoded envelope whose
    code is not [OK], every operation that reads an envelope returns an error
    whose text is the operation's fixed prefix followed exactly by the
    envelope's message; the prefix is "API error: " for all operations but the
    five probes [Health], [LBCheck], [Ping], [LeaderCheck] and
    [LeaderCheckWithErrorCode], which have their own ([errPrefixOf]).
    String-code client: for every decoded envelope whose code is ["ERROR"],
    [parseAPIResponse] returns the error "API error: " followed exactly by the
    message, and so does every operation that calls it; an envelope with any
    other code is returned by [parseAPIResponse] with no error, or with the
    error of decoding its details into the caller's target. *)
Theorem envelope_error_text
    (Rec : Type) (unmarshalRecord : string -> Json.any -> result Rec)
    (formatFloat : float64 -> string) (float64_overflow : float64 -> Z)
    (zeroRecord : string -> Rec) :
  (forall op o response,
      In op Client.operations ->
      Client.getJSON o = Ok response -> Client.Code response <> Client.OK ->
      Client.run Rec unmarshalRecord formatFloat float64_overflow op o
      = Err (Client.errPrefixOf (Client.opName op) ++ Client.Message response))
  /\ (forall status body parsed r target,
      bind parsed GoClient.unmarshalAPIResponse = Ok r ->
      let p := GoClient.parseAPIResponse Rec zeroRecord unmarshalRecord
                 (GoClient.Readable status body parsed) target in
      (GoClient.Code r = "ERROR" ->
       GoClient.err Rec p = Some ("API error: " ++ GoClient.Message r))
      /\ (GoClient.Code r <> "ERROR" ->
          GoClient.apiResp Rec p = Some r
          /\ (GoClient.err Rec p = None
              \/ exists e, GoClient.err Rec p
                           = Some ("failed to unmarshal details: " ++ e))))
  /\ (forall status body parsed r target,
      bind parsed GoClient.unmarshalAPIResponse = Ok r ->
      GoClient.Code r = "ERROR" ->
      let o := GoClient.Responded (GoClient.Readable status body parsed) in
      let e := "API error: " ++ GoClient.Message r in
      GoClient.errorOnly Rec zeroRecord unmarshalRecord o = Some e
      /\ GoClient.decodeVia Rec zeroRecord unmarshalRecord target o = Err e
      /\ GoClient.Discover Rec zeroRecord unmarshalRecord o = Err e
      /\ GoClient.InMaintenance Rec zeroRecord unmarshalRecord o = Err e
      /\ GoClient.GetTopology Rec zeroRecord unmarshalRecord o = Err e).
Proof.
  split; [|split].
  - intros op o response Hin G C.
    rewrite <- (ClientFacts.operations_prefix op Hin).
    now apply ClientFacts.run_not_OK.
  - intros status body parsed r target U p. split.
    + intros C. subst p.
      now rewrite (GoClientFacts.parseAPIResponse_ERROR Rec zeroRecord
                     unmarshalRecord status body parsed r target U C).
    + intros C.
      exact (GoClientFacts.parseAPIResponse_other Rec zeroRecord unmarshalRecord
               status body parsed r target U C).
  - intros status body parsed r target U C o e. subst o e.
    unfold GoClient.errorOnly, GoClient.InMaintenance, GoClient.decodeVia,
      GoClient.Discover, GoClient.GetTopology.
    cbn [GoClient.doRequest].
    rewrite !(GoClientFacts.parseAPIResponse_ERROR Rec zeroRecord unmarshalRecord
                status body parsed r _ U C).
    repeat split; reflexivity.
Qed.

(** The amended claim at the envelope of the tests, [{Code: ERROR, Message:
    "Instance not found"}], for [GetInstance] and for the string-code
    parser. *)
Lemma envelope_error_text_witness :
  Client.run Json.any Samples.anyRecord Samples.noFloats Samples.amd64Overflow
    (Client.mkOp "GetInstance" "API error: "
       (Client.CRecordChecked "Instance" "no instance data in response"))
    (Samples.intResponse 0 "Instance not found" Json.JNull "null")
  = Err "API error: Instance not found"
  /\ GoClient.err Json.any
       (GoClient.parseAPIResponse Json.any Samples.anyZero Samples.anyRecord
          (GoClient.Readable 200
             (Samples.strEnvelopeText "ERROR" "Instance not found" "null")
             (Ok (Samples.strEnvelope "ERROR" "Instance not found" Json.JNull)))
          GoClient.TgtNil)
     = Some "API error: Instance not found".
Proof.
  pose proof (envelope_error_text Json.any Samples.anyRecord Samples.noFloats
                Samples.amd64Overflow Samples.anyZero) as [H1 [H2 _]].
  assert (In (Client.mkOp "GetInstance" "API error: "
                (Client.CRecordChecked "Instance" "no instance data in response"))
             Client.operations) as Hin
    by (apply ClientFacts.written_out_in_table; simpl; tauto).
  split.
  - exact (H1 _ (Samples.intResponse 0 "Instance not found" Json.JNull "null")
             {| Client.Code := 0%Z; Client.Message := "Instance not found";
                Client.Details := Json.Nil |}
             Hin eq_refl ltac:(discriminate)).
  - exact (proj1 (H2 200%Z
                    (Samples.strEnvelopeText "ERROR" "Instance not found" "null")
                    (Ok (Samples.strEnvelope "ERROR" "Instance not found" Json.JNull))
                    {| GoClient.Code := "ERROR";
                       GoClient.Message := "Instance not found";
                       GoClient.Details := Json.Nil |}
                    GoClient.TgtNil eq_refl) eq_refl).
Defined.

(** Claim C9.  In the integer-code client the zero value of the code is
    [ERROR]: an envelope whose object has no member for the code (or only
    [null] ones) decodes to [ERROR], every operation returns an error for a
    response carrying such an envelope, and an operation can succeed only on
    an envelope in which a member named [Code] carries the number of [OK]. *)
Theorem zero_code_is_error
    (Rec : Type) (unmarshalRecord : string -> Json.any -> result Rec)
    (formatFloat : float64 -> string) (float64_overflow : float64 -> Z) :
  Client.Code Client.zeroAPIResponse = Client.ERROR
  /\ (forall members r,
      Client.omitsCode members ->
      Client.unmarshalAPIResponse (Json.JObject members) = Ok r ->
      Client.Code r = Client.ERROR)
  /\ (forall op status body members,
      In op Client.operations -> Client.omitsCode members ->
      is_err (Client.run Rec unmarshalRecord formatFloat float64_overflow op
                (Client.Responded status body (Ok (Json.JObject members))))
      = true)
  /\ (forall op o v,
      In op Client.operations ->
      Client.run Rec unmarshalRecord formatFloat float64_overflow op o = Ok v ->
      exists status body members k n,
        o = Client.Responded status body (Ok (Json.JObject members))
        /\ In (k, Json.JNumber n) members
        /\ Json.fieldOf k = Some Json.FCode
        /\ Json.asInt n = Some Client.OK).
Proof.
  assert (forall members r,
             Client.omitsCode members ->
             Client.unmarshalAPIResponse (Json.JObject members) = Ok r ->
             Client.Code r = Client.ERROR) as Z.
  { intros members r O U.
    destruct (ClientFacts.unmarshalAPIResponse_Code _ _ U)
      as [E|(ms & k & n & [= <-] & Hin & Hf & _)]; [exact E|].
    discriminate (O k (Json.JNumber n) Hin Hf). }
  split; [reflexivity|]. split; [exact Z|]. split.
  - intros op status body members _ O.
    destruct (Client.getJSON (Client.Responded status body (Ok (Json.JObject members))))
      as [r|e] eqn:G.
    + rewrite (ClientFacts.run_not_OK Rec unmarshalRecord formatFloat
                 float64_overflow op _ r G); [reflexivity|].
      apply ClientFacts.getJSON_Ok in G as (s & b & j & [= <- <- <-] & _ & U).
      rewrite (Z members r O U). discriminate.
    + unfold Client.run. rewrite G. reflexivity.
  - intros op o v _ R.
    apply ClientFacts.run_Ok_inv in R as (r & G & C).
    apply ClientFacts.getJSON_Ok in G as (s & b & j & -> & _ & U).
    destruct (ClientFacts.unmarshalAPIResponse_Code _ _ U)
      as [E|(ms & k & n & -> & Hin & Hf & Hn)].
    + rewrite C in E. discriminate E.
    + exists s, b, ms, k, n. rewrite C in Hn. auto.
Qed.

(** The claim at an envelope that has a message and no code. *)
Lemma zero_code_is_error_witness :
  In (Client.mkOp "GetInstanceReplicas" "API error: " (Client.CSlice "Instance"))
     Client.operations
  /\ Client.omitsCode [("Message", Json.JString "done")]
  /\ is_err (Client.run Json.any Samples.anyRecord Samples.noFloats
               Samples.amd64Overflow
               (Client.mkOp "GetInstanceReplicas" "API error: "
                  (Client.CSlice "Instance"))
               Samples.noCodeResponse) = true.
Proof.
  assert (In (Client.mkOp "GetInstanceReplicas" "API error: "
                (Client.CSlice "Instance")) Client.operations) as Hin
    by (apply ClientFacts.written_out_in_table; simpl; tauto).
  assert (Client.omitsCode [("Message", Json.JString "done")]) as O.
  { intros k v [[= <- <-]|[]] F. vm_compute in F. discriminate F. }
  split; [exact Hin|]. split; [exact O|].
  exact (proj1 (proj2 (proj2 (zero_code_is_error Json.any Samples.anyRecord
                                Samples.noFloats Samples.amd64Overflow)))
           _ 200%Z _ _ Hin O).
Defined.

(** ** Nil details *)

(** Claim C2, as stated, fails.  In the string-code client [parseAPIResponse]
    does not touch the caller's variable when [Details] is nil, so
    [RemoveTagFromAll] returns the nil slice it declared; in the integer-code
    client [Status] decodes [null] in place into a nil map. *)
Lemma nil_details_collections_counterexample :
  GoClient.RemoveTagFromAll Json.any Samples.anyZero Samples.anyRecord
    (Samples.strResponse "OK" "" Json.JNull "null")
  = Ok (GoClient.DRecords Json.any NilSlice)
  /\ Client.run Json.any Samples.anyRecord Samples.noFloats Samples.amd64Overflow
       (Client.mkOp "Status" "API error: "
          (Client.CInlineMap "interface {}" "failed to unmarshal status: "))
       (Samples.intResponse 1 "" Json.JNull "null")
     = Ok (Client.VRecordMap Json.any NilMap).
Proof. split; vm_compute; reflexivity. Qed.

(** Claim C2, amended.  For every successful envelope whose [Details] is nil:
    every operation of the integer-code client that converts [Details] with a
    slice or map helper of [helpers.go] (or with the nil check of
    [GetRaftStatus]) returns an empty collection that is not nil; in the
    string-code client [parseAPIResponse] leaves the caller's variable as
    declared, so the operations that return a collection through it return
    the nil slice or the nil map, of length zero. *)
Theorem nil_details_collections
    (Rec : Type) (unmarshalRecord : string -> Json.any -> result Rec)
    (formatFloat : float64 -> string) (float64_overflow : float64 -> Z)
    (zeroRecord : string -> Rec) :
  (forall op o response,
      In op Client.operations ->
      Client.viaCollectionHelper (Client.opConv op) = true ->
      Client.getJSON o = Ok response -> Client.Code response = Client.OK ->
      Client.Details response = Json.Nil ->
      exists v,
        Client.run Rec unmarshalRecord formatFloat float64_overflow op o = Ok v
        /\ Client.emptyNonNil v = true)
  /\ (forall status body parsed r T,
      bind parsed GoClient.unmarshalAPIResponse = Ok r ->
      GoClient.Code r <> "ERROR" -> GoClient.Details r = Json.Nil ->
      let o := GoClient.Responded (GoClient.Readable status body parsed) in
      GoClient.decodeVia Rec zeroRecord unmarshalRecord (GoClient.TgtRecords T) o
      = Ok (GoClient.DRecords Rec NilSlice)
      /\ GoClient.decodeVia Rec zeroRecord unmarshalRecord GoClient.TgtAnySlice o
         = Ok (GoClient.DAnySlice Rec NilSlice)
      /\ GoClient.decodeVia Rec zeroRecord unmarshalRecord GoClient.TgtAnyMap o
         = Ok (GoClient.DAnyMap Rec NilMap)).
Proof.
  split.
  - intros op o response _ V G C D.
    rewrite (ClientFacts.run_OK Rec unmarshalRecord formatFloat float64_overflow
               op o response G C), D.
    destruct (Client.opConv op); try discriminate V;
      eexists; split; reflexivity.
  - intros status body parsed r T U C D o. subst o.
    unfold GoClient.decodeVia. cbn [GoClient.doRequest].
    rewrite !(GoClientFacts.parseAPIResponse_nil_details Rec zeroRecord
                unmarshalRecord status body parsed r _ U C D).
    repeat split; reflexivity.
Qed.

(** The amended claim at [{Code: OK, Details: null}] for [GetInstanceReplicas]
    and at [{Code: "OK", Details: null}] for [RemoveTagFromAll]. *)
Lemma nil_details_collections_witness :
  (exists v,
      Client.run Json.any Samples.anyRecord Samples.noFloats Samples.amd64Overflow
        (Client.mkOp "GetInstanceReplicas" "API error: " (Client.CSlice "Instance"))
        (Samples.intResponse 1 "" Json.JNull "null") = Ok v
      /\ Client.emptyNonNil v = true)
  /\ GoClient.RemoveTagFromAll Json.any Samples.anyZero Samples.anyRecord
       (Samples.strResponse "OK" "" Json.JNull "null")
     = Ok (GoClient.DRecords Json.any NilSlice).
Proof.
  pose proof (nil_details_collections Json.any Samples.anyRecord Samples.noFloats
                Samples.amd64Overflow Samples.anyZero) as [H1 H2].
  assert (In (Client.mkOp "GetInstanceReplicas" "API error: "
                (Client.CSlice "Instance")) Client.operations) as Hin
    by (apply ClientFacts.written_out_in_table; simpl; tauto).
  split.
  - exact (H1 _ (Samples.intResponse 1 "" Json.JNull "null")
             {| Client.Code := 1%Z; Client.Message := "";
                Client.Details := Json.Nil |}
             Hin eq_refl eq_refl eq_refl eq_refl).
  - exact (proj1 (H2 200%Z (Samples.strEnvelopeText "OK" "" "null")
                    (Ok (Samples.strEnvelope "OK" "" Json.JNull))
                    {| GoClient.Code := "OK"; GoClient.Message := "";
                       GoClient.Details := Json.Nil |}
                    "inst.Instance" eq_refl ltac:(discriminate) eq_refl)).
Defined.

(** ** Scalar accessors *)

(** Claim C5, as stated, fails for the boolean flags: [CheckGlobalRecoveries]
    reads [Details] with [convertToBool], which returns an error for a value
    that is not a JSON boolean, here the string ["true"], and does not
    stringify it. *)
Lemma scalar_accessors_counterexample :
  Client.CheckGlobalRecoveries
    (Samples.intResponse 1 "" (Json.JString "true") (Samples.quoted "true"))
  = Err "data is not a bool".
Proof. vm_compute. reflexivity. Qed.

(** Claim C5, amended.  On a successful envelope, the single-string accessors
    of the integer-code client ([GetRaftLeader], [GetInstanceSpecificTagValue])
    read the decoded [Details] directly: nil gives the empty string, a string
    is returned as it is, and every other representation is stringified with
    [fmt.Sprint]; they never return an error.  The boolean accessors
    ([CheckGlobalRecoveries], [InMaintenance], through [convertToBool]) return
    the value of a JSON boolean and an error for nil and for every other
    representation. *)
Theorem scalar_accessors
    (Rec : Type) (unmarshalRecord : string -> Json.any -> result Rec)
    (formatFloat : float64 -> string) (float64_overflow : float64 -> Z)
    (op : Client.Operation) (o : Client.HttpOutcome)
    (response : Client.APIResponse) :
  In op Client.operations ->
  Client.getJSON o = Ok response -> Client.Code response = Client.OK ->
  let r := Client.run Rec unmarshalRecord formatFloat float64_overflow op o in
  (Client.opConv op = Client.CStringOrSprint ->
   r = Ok (Client.VString Rec
             match Client.Details response with
             | Json.Nil => ""
             | Json.Str str => str
             | d => Client.Sprint formatFloat d
             end))
  /\ (Client.opConv op = Client.CBool ->
      (forall b, Client.Details response = Json.Bool b ->
                 r = Ok (Client.VBool Rec b))
      /\ (Client.Details response = Json.Nil -> r = Err "nil data")
      /\ (Json.is_nil (Client.Details response) = false ->
          (forall b, Client.Details response <> Json.Bool b) ->
          r = Err "data is not a bool")).
Proof.
  intros _ G C r. subst r.
  rewrite (ClientFacts.run_OK Rec unmarshalRecord formatFloat float64_overflow
             op o response G C).
  split; intros ->; simpl.
  - destruct (Client.Details response); reflexivity.
  - repeat split.
    + intros b ->. reflexivity.
    + intros ->. reflexivity.
    + intros N B. destruct (Client.Details response) as [|b| | | | | |];
        try reflexivity; [discriminate N | now destruct (B b)].
Qed.

(** The amended claim for [GetRaftLeader] on [Details: true], which is
    stringified. *)
Lemma scalar_accessors_witness :
  Client.run Json.any Samples.anyRecord Samples.noFloats Samples.amd64Overflow
    (Client.mkOp "GetRaftLeader" "API error: " Client.CStringOrSprint)
    (Samples.intResponse 1 "" (Json.JBool true) "true")
  = Ok (Client.VString Json.any "true").
Proof.
  assert (In (Client.mkOp "GetRaftLeader" "API error: " Client.CStringOrSprint)
             Client.operations) as Hin
    by (apply ClientFacts.written_out_in_table; simpl; tauto).
  exact (proj1 (scalar_accessors Json.any Samples.anyRecord Samples.noFloats
                  Samples.amd64Overflow _
                  (Samples.intResponse 1 "" (Json.JBool true) "true")
                  {| Client.Code := 1%Z; Client.Message := "";
                     Client.Details := Json.Bool true |}
                  Hin eq_refl eq_refl) eq_refl).
Defined.

(** ** The lag accessor *)

(** Claim C7.  On a successful envelope [GetHeuristicClusterPoolLagForPool]
    returns what the nil test and the type switch make of the dynamic type
    of [Details].  Nil gives zero.  A [float64] is converted with
    [int64(v)], which discards the fraction: when the integer part of the
    value lies within 64 bits the result is that integer, for every finite
    value, with or without a fraction (every finite [float64] has exactly
    one integer part); for a value that has no integer part within 64 bits
    (too large, an infinity, a NaN) no error is returned either, and the
    result is the one the implementation gives.  An [int64] or an [int] is
    returned as it is by the switch; a decoded envelope never holds one,
    since [encoding/json] decodes every number into a [float64].  A value
    of any other type is the error "unexpected type for lag value" with the
    name of the type. *)
Theorem lag_accessor_conversion
    (float64_overflow : float64 -> Z) (o : Client.HttpOutcome)
    (response : Client.APIResponse) :
  Client.getJSON o = Ok response -> Client.Code response = Client.OK ->
  let lag := Client.GetHeuristicClusterPoolLagForPool float64_overflow o in
  lag = Client.lagSwitch float64_overflow (Client.Details response)
  /\ (Client.Details response = Json.Nil -> lag = Ok 0%Z)
  /\ (forall v n, Client.Details response = Json.Float64 v ->
                  Client.integerPart v n -> GoFmt.inInt64 n = true ->
                  lag = Ok n)
  /\ (forall v, Client.Details response = Json.Float64 v ->
                (forall n, Client.integerPart v n -> GoFmt.inInt64 n = false) ->
                lag = Ok (float64_overflow v))
  /\ (forall v, Client.isFinite v = true ->
                exists n, Client.integerPart v n
                          /\ forall n', Client.integerPart v n' -> n' = n)
  /\ (forall v n, Client.Details response = Json.Float64 v ->
                  Client.holdsInteger v n -> GoFmt.inInt64 n = true ->
                  lag = Ok n)
  /\ (forall n, Client.lagSwitch float64_overflow (Json.Int64 n) = Ok n
                /\ Client.lagSwitch float64_overflow (Json.Int n) = Ok n)
  /\ (forall n, Client.Details response <> Json.Int64 n
                /\ Client.Details response <> Json.Int n)
  /\ (Json.is_nil (Client.Details response) = false ->
      Client.isLagNumber (Client.Details response) = false ->
      lag = Err ("unexpected type for lag value: "
                 ++ Json.typeName (Client.Details response))).
Proof.
  intros G C lag. subst lag. unfold Client.GetHeuristicClusterPoolLagForPool.
  rewrite G, C. cbn [negb Z.eqb Client.OK Pos.eqb].
  split; [destruct (Client.Details response); reflexivity|].
  split; [intros ->; reflexivity|].
  split.
  { intros v n -> H R. unfold Client.int64_of_float64.
    now rewrite (LagFacts.integerPart_truncate v n H), R. }
  split.
  { intros v -> H. unfold Client.int64_of_float64.
    destruct (Client.truncate v) as [t|] eqn:T; [|reflexivity].
    now rewrite (H t (LagFacts.truncate_integerPart v t T)). }
  split.
  { intros v F. destruct (LagFacts.integerPart_exists v F) as [n H].
    exists n. split; [exact H|].
    intros n' H'. exact (LagFacts.integerPart_unique v n' n H' H). }
  split.
  { intros v n -> H R. unfold Client.int64_of_float64.
    now rewrite (ClientFacts.truncate_holdsInteger v n H), R. }
  split; [intros n; split; reflexivity|].
  split; [exact (LagFacts.getJSON_no_integer o response G)|].
  intros N L. destruct (Client.Details response); try reflexivity;
    discriminate.
Qed.

(** The claim at [{Code: OK, Details: 1.5}] and at [{Code: OK, Details:
    -2.75}]: the decoder hands over the [float64], whose integer part, 1 or
    -2, the accessor returns. *)
Lemma lag_accessor_conversion_witness :
  Client.GetHeuristicClusterPoolLagForPool Samples.amd64Overflow
    (Samples.intResponse 1 ""
       (Json.JNumber
          {| Json.asInt := None;
             Json.asFloat := Some (S754_finite false 6755399441055744 (-52)) |})
       "1.5")
  = Ok 1%Z
  /\ Client.GetHeuristicClusterPoolLagForPool Samples.amd64Overflow
       (Samples.intResponse 1 ""
          (Json.JNumber
             {| Json.asInt := None;
                Json.asFloat := Some (S754_finite true 6192449487634432 (-51)) |})
          "-2.75")
     = Ok (-2)%Z.
Proof.
  split.
  - refine (proj1 (proj2 (proj2
             (lag_accessor_conversion Samples.amd64Overflow
                (Samples.intResponse 1 ""
                   (Json.JNumber
                      {| Json.asInt := None;
                         Json.asFloat :=
                           Some (S754_finite false 6755399441055744 (-52)) |})
                   "1.5")
                {| Client.Code := 1%Z; Client.Message := "";
                   Client.Details :=
                     Json.Float64 (S754_finite false 6755399441055744 (-52)) |}
                eq_refl eq_refl)))
             (S754_finite false 6755399441055744 (-52)) 1%Z
             eq_refl _ eq_refl).
    unfold Client.integerPart. simpl. lia.
  - refine (proj1 (proj2 (proj2
             (lag_accessor_conversion Samples.amd64Overflow
                (Samples.intResponse 1 ""
                   (Json.JNumber
                      {| Json.asInt := None;
                         Json.asFloat :=
                           Some (S754_finite true 6192449487634432 (-51)) |})
                   "-2.75")
                {| Client.Code := 1%Z; Client.Message := "";
                   Client.Details :=
                     Json.Float64 (S754_finite true 6192449487634432 (-51)) |}
                eq_refl eq_refl)))
             (S754_finite true 6192449487634432 (-51)) (-2)%Z
             eq_refl _ eq_refl).
    unfold Client.integerPart. simpl. lia.
Defined.

(** ** Pool members *)

(** Claim C10.  For every successful envelope whose [Details] lists the pool
    members as strings, [GetClusterPoolInstancesForPool] and
    [GetHeuristicClusterPoolInstancesForPool] return, without error, the keys
    of exactly those entries that [ParseInstanceKey] accepts, in the order of
    the list: the result is the list of the parsed keys with the entries that
    do not parse left out. *)
Theorem pool_instances_parsed
    (o : Client.HttpOutcome) (response : Client.APIResponse)
    (members : list string) :
  Client.getJSON o = Ok response -> Client.Code response = Client.OK ->
  Client.Details response = Json.Slice (map Json.Str members) ->
  Client.GetClusterPoolInstancesForPool o
  = Ok (SliceOf (Client.parseKeys members))
  /\ Client.GetHeuristicClusterPoolInstancesForPool o
     = Ok (SliceOf (Client.parseKeys members))
  /\ Client.parseKeys members
     = flat_map (fun s => match ParseInstanceKey s with
                          | Ok key => [key]
                          | Err _ => []
                          end) members
  /\ (forall key, In key (Client.parseKeys members)
                  <-> exists s, In s members /\ ParseInstanceKey s = Ok key).
Proof.
  intros G C D.
  unfold Client.GetClusterPoolInstancesForPool,
    Client.GetHeuristicClusterPoolInstancesForPool.
  rewrite G, C, D, ClientFacts.convertToStringSlice_strings.
  cbn [negb Z.eqb Client.OK Pos.eqb Client.elements].
  repeat split; try reflexivity.
  - apply ClientFacts.parseKeys_flat_map.
  - apply ClientFacts.parseKeys_In.
  - apply ClientFacts.parseKeys_In.
Qed.

(** The claim at three members of which the second is no instance key. *)
Lemma pool_instances_parsed_witness :
  Client.getJSON Samples.poolResponse
  = Ok {| Client.Code := 1%Z; Client.Message := "";
          Client.Details := Json.Slice (map Json.Str Samples.poolMembers) |}
  /\ Client.GetClusterPoolInstancesForPool Samples.poolResponse
     = Ok (SliceOf [ {| Hostname := "db1"; Port := 3306 |};
                     {| Hostname := "db2"; Port := 3307 |} ]).
Proof.
  split; [vm_compute; reflexivity|].
  exact (proj1 (pool_instances_parsed Samples.poolResponse
                  {| Client.Code := 1%Z; Client.Message := "";
                     Client.Details := Json.Slice (map Json.Str Samples.poolMembers) |}
                  Samples.poolMembers eq_refl eq_refl eq_refl)).
Defined.

(** ** Instance keys *)

(** Claim C3, at an input the code accepts against the claim:
    [ParseInstanceKey] reads the port with [fmt.Sscanf(parts[1], "%d", &port)],
    which stops at the first byte that is not a digit and reports no error
    for what follows.  The port ["3306abc"] is not numeric, yet the string
    parses, and the key formats to another string than the input.  (What
    holds is proved in [InstanceKeyFacts]: the round trip for a host without
    colon and the decimal form of a port, the rejection of every string
    without exactly one colon and of every port that does not start with a
    number, and, in [ParseInstanceKey_trailing_bytes], that text after the
    digits is accepted whatever the key.) *)
Theorem ParseInstanceKey_accepts_trailing_text :
  ParseInstanceKey "db1:3306abc" = Ok {| Hostname := "db1"; Port := 3306 |}
  /\ InstanceKey_String {| Hostname := "db1"; Port := 3306 |} = "db1:3306".
Proof. split; vm_compute; reflexivity. Qed.

(** ** Free-form strings in request paths *)

(** Claim C6, at an input for which the integer-code client builds a path
    that is not well-formed: [SearchInstances] embeds the search string as it
    is, so a percent sign, a space or a question mark of the string end up in
    the path.  The string-code client passes the same string through
    [url.QueryEscape] and builds a well-formed path.  (That it does so for
    every string is proved in [PathFacts].) *)
Theorem SearchInstances_path_not_escaped :
  Client.SearchInstances_path "50% off?" = "/api/search/50% off?"
  /\ GoURL.wellFormedPath (Client.SearchInstances_path "50% off?") = false
  /\ GoClient.Search_path "50% off?" = "/search/50%25+off%3F"
  /\ GoURL.wellFormedPath (GoClient.Search_path "50% off?") = true.
Proof. repeat split; vm_compute; reflexivity. Qed.

(** * Further properties of the code *)

(** ** Instance keys *)

(** Property X1.  [ParseInstanceKey] has three outcomes and no other.  A
    string that does not hold exactly one colon is the error "invalid
    instance key format" with the whole input.  Otherwise the input is
    [host:port]: when [fmt.Sscanf] reads an integer from the port text, the
    key is returned with the host as it is written (nothing is asked of the
    host, which may be empty) and a port within 64 bits; when it does not,
    the error is "invalid port in instance key" with the port text. *)
Theorem ParseInstanceKey_outcomes (s : string) :
  (GoStrings.Count s ":" <> 1%nat
   /\ ParseInstanceKey s = Err ("invalid instance key format: " ++ s))
  \/ exists host portStr,
       s = host ++ ":" ++ portStr
       /\ GoStrings.Count host ":" = 0%nat
       /\ GoStrings.Count portStr ":" = 0%nat
       /\ ((exists port,
              GoFmt.Sscanf_d portStr = Ok port
              /\ GoFmt.inInt64 port = true
              /\ ParseInstanceKey s = Ok {| Hostname := host; Port := port |})
           \/ (is_err (GoFmt.Sscanf_d portStr) = true
               /\ ParseInstanceKey s
                  = Err ("invalid port in instance key: " ++ portStr))).
Proof.
  destruct (Nat.eq_dec (GoStrings.Count s ":") 1) as [E|N].
  - right. pose proof (GoStringsFacts.Split_length s ":") as L. rewrite E in L.
    destruct (GoStrings.Split s ":") as [|host [|portStr [|x l]]] eqn:S;
      try discriminate L.
    destruct (KeyFacts.Split_two s host portStr S) as (Hs & Hh & Hp).
    exists host, portStr. repeat split; try assumption.
    unfold ParseInstanceKey. rewrite S.
    destruct (GoFmt.Sscanf_d portStr) as [port|e] eqn:P.
    + left. exists port. repeat split.
      exact (KeyFacts.Sscanf_d_range portStr port P).
    + right. split; reflexivity.
  - left. split; [exact N|].
    unfold ParseInstanceKey.
    pose proof (GoStringsFacts.Split_length s ":") as L.
    destruct (GoStrings.Split s ":") as [|a [|b [|c l]]]; try reflexivity.
    simpl in L. exfalso; apply N; congruence.
Qed.

(** Property X2.  Formatting a parsed key and parsing the text again gives
    the same key: whatever [ParseInstanceKey] accepts, [String] writes in a
    form that [ParseInstanceKey] reads back exactly. *)
Theorem ParseInstanceKey_canonical (s : string) (key : InstanceKey) :
  ParseInstanceKey s = Ok key ->
  ParseInstanceKey (InstanceKey_String key) = Ok key.
Proof.
  intros H. unfold ParseInstanceKey in H.
  destruct (GoStrings.Split s ":") as [|host [|portStr [|x l]]] eqn:S;
    try discriminate H.
  destruct (KeyFacts.Split_two s host portStr S) as (_ & Hh & _).
  destruct (GoFmt.Sscanf_d portStr) as [port|e] eqn:P; [|discriminate H].
  injection H as <-.
  exact (proj1 (InstanceKeyFacts.ParseInstanceKey_String_roundtrip host port Hh
                  (KeyFacts.Sscanf_d_range portStr port P))).
Qed.

(** The property at a text with a blank, a sign and leading zeros before
    the port. *)
Lemma ParseInstanceKey_canonical_witness :
  ParseInstanceKey "db1: +003306" = Ok {| Hostname := "db1"; Port := 3306 |}
  /\ ParseInstanceKey (InstanceKey_String {| Hostname := "db1"; Port := 3306 |})
     = Ok {| Hostname := "db1"; Port := 3306 |}.
Proof.
  assert (ParseInstanceKey "db1: +003306"
          = Ok {| Hostname := "db1"; Port := 3306 |}) as H
    by (vm_compute; reflexivity).
  split; [exact H|].
  exact (ParseInstanceKey_canonical "db1: +003306"
           {| Hostname := "db1"; Port := 3306 |} H).
Defined.

(** The round trip of [InstanceKeyFacts.String_ParseInstanceKey] at a key
    with a negative port, which [ParseInstanceKey] does not refuse. *)
Lemma String_ParseInstanceKey_witness :
  GoStrings.Count (Hostname {| Hostname := "db-1.example.com"; Port := -1 |}) ":"
  = 0%nat
  /\ GoFmt.inInt64 (Port {| Hostname := "db-1.example.com"; Port := -1 |}) = true
  /\ ParseInstanceKey
       (InstanceKey_String {| Hostname := "db-1.example.com"; Port := -1 |})
     = Ok {| Hostname := "db-1.example.com"; Port := -1 |}.
Proof.
  split; [reflexivity|]. split; [reflexivity|].
  exact (InstanceKeyFacts.String_ParseInstanceKey
           {| Hostname := "db-1.example.com"; Port := -1 |} eq_refl eq_refl).
Defined.

(** The rejection of [InstanceKeyFacts.ParseInstanceKey_port_not_a_number]
    at the port of the test table, ["abc"]. *)
Lemma ParseInstanceKey_port_not_a_number_witness :
  ParseInstanceKey ("host" ++ ":" ++ "abc")
  = Err ("invalid port in instance key: " ++ "abc").
Proof.
  refine (InstanceKeyFacts.ParseInstanceKey_port_not_a_number "host" "abc"
            eq_refl eq_refl _).
  right. exists "a"%char, "bc". repeat split; try reflexivity;
    vm_compute; discriminate.
Defined.

(** ** The SDK's client *)

(** Property X5.  [NewClient] of the SDK: the base URL is the scheme chosen
    by [UseHTTPS], ["://"] and the host; the URL prefix it keeps is empty or
    starts with a slash, and is empty exactly for the configured prefixes
    [""] and ["/"]; and a prefix word written with or without a leading
    slash and with or without one trailing slash gives the same prefix, the
    word after one slash, so that every request URL is the base URL, that
    prefix and the path. *)
Theorem NewClient_urlPrefix (config : Client.Config) :
  let c := Client.NewClient config in
  Client.baseURL c
  = (if Client.UseHTTPS config then "https" else "http") ++ "://"
    ++ Client.Host config
  /\ (Client.urlPrefix c = ""
      \/ GoStrings.HasPrefix (Client.urlPrefix c) "/" = true)
  /\ (Client.urlPrefix c = ""
      <-> Client.URLPrefix config = "" \/ Client.URLPrefix config = "/")
  /\ (forall word,
         word <> "" -> GoStrings.HasPrefix word "/" = false ->
         GoStrings.last_byte word <> Some "/"%char ->
         Client.URLPrefix config = word
         \/ Client.URLPrefix config = "/" ++ word
         \/ Client.URLPrefix config = word ++ "/"
         \/ Client.URLPrefix config = "/" ++ word ++ "/" ->
         Client.urlPrefix c = "/" ++ word
         /\ forall path,
              Client.requestURL c path
              = Client.baseURL c ++ "/" ++ word ++ path).
Proof.
  intros c. subst c. split; [reflexivity|].
  rewrite TransportFacts.urlPrefix_NewClient. cbv zeta.
  set (t := GoStrings.TrimSuffix (Client.URLPrefix config) "/").
  split; [|split].
  - destruct (String.eqb t "") eqn:E; simpl.
    + left. now apply String.eqb_eq.
    + right. destruct (GoStrings.HasPrefix t "/") eqn:P; simpl; [exact P|].
      apply TransportFacts.HasPrefix_cons.
  - rewrite <- (TransportFacts.TrimSuffix_empty (Client.URLPrefix config) "/").
    fold t. destruct (String.eqb t "") eqn:E; simpl.
    + apply String.eqb_eq in E. tauto.
    + apply String.eqb_neq in E.
      destruct (GoStrings.HasPrefix t "/"); simpl; split; try tauto;
        discriminate.
  - intros word Hne Hp Hl Hcases.
    assert (t = word \/ t = "/" ++ word) as Ht.
    { subst t. destruct Hcases as [-> | [-> | [-> | ->]]].
      - left. now apply TransportFacts.TrimSuffix_other.
      - right. apply TransportFacts.TrimSuffix_other.
        change ("/" ++ word) with (String "/" word).
        now rewrite TransportFacts.last_byte_cons.
      - left. apply GoStringsFacts.TrimSuffix_app.
      - right. change ("/" ++ word ++ "/") with (("/" ++ word) ++ "/").
        apply GoStringsFacts.TrimSuffix_app. }
    assert ((if negb (String.eqb t "") && negb (GoStrings.HasPrefix t "/")
             then "/" ++ t else t) = "/" ++ word) as R.
    { destruct Ht as [-> | ->].
      - rewrite Hp. apply String.eqb_neq in Hne. now rewrite Hne.
      - change ("/" ++ word) with (String "/" word).
        now rewrite TransportFacts.HasPrefix_cons, andb_false_r. }
    split; [exact R|].
    intros path. unfold Client.requestURL.
    rewrite TransportFacts.urlPrefix_NewClient. cbv zeta. fold t. rewrite R.
    now rewrite !GoStringsFacts.app_assoc.
Qed.

(** The table of the prefix test: four spellings of one word, and none. *)
Example NewClient_urlPrefix_table :
  map (fun prefix =>
         Client.urlPrefix
           (Client.NewClient
              {| Client.Host := "localhost:3000"; Client.Username := "";
                 Client.Password := ""; Client.UseHTTPS := false;
                 Client.URLPrefix := prefix; Client.HTTPClient := None;
                 Client.Timeout := 0 |}))
      ["orchestrator"; "/orchestrator"; "orchestrator/"; "/orchestrator/"; ""]
  = ["/orchestrator"; "/orchestrator"; "/orchestrator"; "/orchestrator"; ""].
Proof. vm_compute. reflexivity. Qed.

(** Property X6.  Which error an operation of the SDK returns is decided in
    a fixed order, the same for every operation that reads an envelope: a
    request that cannot be built or sent, or a body that cannot be read, is
    that failure; a status of 400 or more is "API request failed with
    status" with the status and the body, whatever the body holds, an
    envelope with the code [OK] included; below 400 a body that is not JSON
    is "failed to parse response" with the decoder's error and the body; and
    the body [null] is taken for the zero envelope, whose code is [ERROR],
    so that the operation fails with its prefix and an empty message. *)
Theorem operations_error_precedence
    (Rec : Type) (unmarshalRecord : string -> Json.any -> result Rec)
    (formatFloat : float64 -> string) (float64_overflow : float64 -> Z)
    (op : Client.Operation) :
  In op Client.operations ->
  let run := Client.run Rec unmarshalRecord formatFloat float64_overflow op in
  (forall cause,
      run (Client.RequestInvalid cause)
      = Err ("failed to create request: " ++ cause))
  /\ (forall cause,
      run (Client.RequestFailed cause)
      = Err ("failed to execute request: " ++ cause))
  /\ (forall status cause,
      run (Client.ReadFailed status cause)
      = Err ("failed to read response body: " ++ cause))
  /\ (forall status body parsed,
      (400 <= status)%Z ->
      run (Client.Responded status body parsed)
      = Err ("API request failed with status " ++ GoFmt.FormatInt status
             ++ ": " ++ body))
  /\ (forall status body e,
      (status < 400)%Z ->
      run (Client.Responded status body (Err e))
      = Err ("failed to parse response: " ++ e ++ " (body: " ++ body ++ ")"))
  /\ (forall status body,
      (status < 400)%Z ->
      run (Client.Responded status body (Ok Json.JNull))
      = Err (Client.errPrefixOf (Client.opName op) ++ "")).
Proof.
  intros Hin run. subst run. unfold Client.run.
  repeat split; try reflexivity.
  - intros status body parsed H. simpl.
    apply Z.leb_le in H. now rewrite H.
  - intros status body e H. simpl.
    apply Z.leb_gt in H. now rewrite H.
  - intros status body H. simpl.
    apply Z.leb_gt in H. rewrite H. simpl.
    now rewrite (ClientFacts.operations_prefix op Hin).
Qed.

(** The property at the response of the error-handling test: status 500
    with an envelope in the body. *)
Lemma operations_error_precedence_witness :
  Client.run Json.any Samples.anyRecord Samples.noFloats Samples.amd64Overflow
    (Client.mkOp "GetInstance" "API error: "
       (Client.CRecordChecked "Instance" "no instance data in response"))
    (Client.Responded 500
       (Samples.intEnvelopeText 1 "Success" "null")
       (Ok (Samples.intEnvelope 1 "Success" Json.JNull)))
  = Err ("API request failed with status " ++ GoFmt.FormatInt 500 ++ ": "
         ++ Samples.intEnvelopeText 1 "Success" "null").
Proof.
  assert (In (Client.mkOp "GetInstance" "API error: "
                (Client.CRecordChecked "Instance" "no instance data in response"))
             Client.operations) as Hin
    by (apply ClientFacts.written_out_in_table; simpl; tauto).
  exact (proj1 (proj2 (proj2 (proj2
           (operations_error_precedence Json.any Samples.anyRecord
              Samples.noFloats Samples.amd64Overflow _ Hin))))
           500%Z _ _ ltac:(lia)).
Defined.

(** Property X7.  [getPlainText] returns a text exactly when a response came
    with a status below 400, and the text is then the body as it is: the
    body is not parsed, so it need not be JSON. *)
Theorem getPlainText_body (o : Client.HttpOutcome) (text : string) :
  Client.getPlainText o = Ok text
  <-> exists status parsed,
        o = Client.Responded status text parsed /\ (status < 400)%Z.
Proof.
  split.
  - destruct o as [c|c|s c|status body parsed]; simpl; try discriminate.
    destruct (400 <=? status)%Z eqn:E; [discriminate|].
    intros [= <-]. exists status, parsed. split; [reflexivity|].
    now apply Z.leb_gt.
  - intros (status & parsed & -> & H). simpl.
    apply Z.leb_gt in H. now rewrite H.
Qed.

(** Property X22.  An operation of the SDK that returns one record through a
    [convertTo...] helper never returns a nil record with a nil error: on a
    successful envelope without details it fails, with "nil data" when it
    hands the helper's error on, with "failed to convert response: nil data"
    when it wraps it, and with its own message when it tests the details
    first, as [GetInstance] does. *)
Theorem record_operations_nil_details
    (Rec : Type) (unmarshalRecord : string -> Json.any -> result Rec)
    (formatFloat : float64 -> string) (float64_overflow : float64 -> Z)
    (op : Client.Operation) (o : Client.HttpOutcome)
    (response : Client.APIResponse) :
  In op Client.operations ->
  Client.getJSON o = Ok response -> Client.Code response = Client.OK ->
  Client.Details response = Json.Nil ->
  let r := Client.run Rec unmarshalRecord formatFloat float64_overflow op o in
  (forall T, Client.opConv op = Client.CRecord T -> r = Err "nil data")
  /\ (forall T, Client.opConv op = Client.CRecordWrapped T ->
                r = Err "failed to convert response: nil data")
  /\ (forall T nilMsg, Client.opConv op = Client.CRecordChecked T nilMsg ->
                       r = Err nilMsg).
Proof.
  intros _ G C D r. subst r.
  rewrite (ClientFacts.run_OK Rec unmarshalRecord formatFloat float64_overflow
             op o response G C), D.
  repeat split; intros; match goal with H : Client.opConv op = _ |- _ =>
    rewrite H end; reflexivity.
Qed.

(** The property for [GetAgent] and [SetReadOnly] at [{Code: OK, Details:
    null}]. *)
Lemma record_operations_nil_details_witness :
  Client.run Json.any Samples.anyRecord Samples.noFloats Samples.amd64Overflow
    (Client.mkOp "GetAgent" "API error: " (Client.CRecord "Agent"))
    (Samples.intResponse 1 "" Json.JNull "null")
  = Err "nil data"
  /\ Client.run Json.any Samples.anyRecord Samples.noFloats Samples.amd64Overflow
       (Client.mkOp "SetReadOnly" "API error: " (Client.CRecordWrapped "Instance"))
       (Samples.intResponse 1 "" Json.JNull "null")
     = Err "failed to convert response: nil data".
Proof.
  assert (In (Client.mkOp "GetAgent" "API error: " (Client.CRecord "Agent"))
             Client.operations) as H1
    by (unfold Client.operations; repeat (first [left; reflexivity | right])).
  assert (In (Client.mkOp "SetReadOnly" "API error: "
                (Client.CRecordWrapped "Instance")) Client.operations) as H2
    by (unfold Client.operations; repeat (first [left; reflexivity | right])).
  split.
  - exact (proj1 (record_operations_nil_details Json.any Samples.anyRecord
                    Samples.noFloats Samples.amd64Overflow _
                    (Samples.intResponse 1 "" Json.JNull "null")
                    {| Client.Code := 1%Z; Client.Message := "";
                       Client.Details := Json.Nil |}
                    H1 eq_refl eq_refl eq_refl) "Agent" eq_refl).
  - exact (proj1 (proj2 (record_operations_nil_details Json.any Samples.anyRecord
                    Samples.noFloats Samples.amd64Overflow _
                    (Samples.intResponse 1 "" Json.JNull "null")
                    {| Client.Code := 1%Z; Client.Message := "";
                       Client.Details := Json.Nil |}
                    H2 eq_refl eq_refl eq_refl)) "Instance" eq_refl).
Defined.

(** ** Building a path from a template *)

(** Property X8.  [buildPath] fills the placeholders of a template from the
    left, one parameter each, with the escaped print of the parameter: for a
    template whose literal chunks hold no brace, the result is the chunks
    with the escaped values between them.  Parameters beyond the
    placeholders are dropped, and placeholders beyond the parameters, in
    whatever follows the chunks, stay in the path as they are. *)
Theorem buildPath_positional
    (formatFloat : float64 -> string)
    (chunk : string) (rest : list (Json.any * string))
    (extra : list Json.any) (tail : string) :
  Client.braceFree chunk = true ->
  Forall (fun vc => Client.braceFree (snd vc) = true) rest ->
  let template :=
    Client.interleave chunk (map (fun vc => ("{}", snd vc)) rest) in
  let built :=
    Client.interleave chunk
      (map (fun vc => (GoURL.PathEscape (Client.Sprint formatFloat (fst vc)),
                       snd vc)) rest) in
  Client.buildPath formatFloat template (map fst rest ++ extra)%list = built
  /\ Client.buildPath formatFloat (template ++ tail) (map fst rest)
     = built ++ tail.
Proof.
  intros H0 HF template built. subst template built. split.
  - rewrite BuildPathFacts.buildPath_fold, !map_app, fold_left_app.
    pose proof (BuildPathFacts.fill_from formatFloat rest "" chunk ""
                  eq_refl H0 HF) as F.
    cbn [append] in F. rewrite !GoStringsFacts.app_empty_r in F. rewrite F.
    apply BuildPathFacts.surplus, BuildPathFacts.braceFree_no_placeholder.
    now apply BuildPathFacts.filled_braceFree.
  - rewrite BuildPathFacts.buildPath_fold.
    exact (BuildPathFacts.fill_from formatFloat rest "" chunk tail
             eq_refl H0 HF).
Qed.

(** The property at the template of a tag, with a name, a number and one
    parameter too many. *)
Lemma buildPath_positional_witness :
  Client.buildPath Samples.noFloats "/api/tag/{}/{}"
    [Json.Str "role/db"; Json.Int 3306; Json.Str "dropped"]
  = "/api/tag/role%2Fdb/3306"
  /\ Client.buildPath Samples.noFloats "/api/tag/{}/{}/{}"
       [Json.Str "role/db"; Json.Int 3306]
     = "/api/tag/role%2Fdb/3306/{}".
Proof.
  assert (Forall (fun vc : Json.any * string => Client.braceFree (snd vc) = true)
            [(Json.Str "role/db", "/"); (Json.Int 3306, "")]) as HF
    by (repeat constructor).
  exact (buildPath_positional Samples.noFloats "/api/tag/"
           [(Json.Str "role/db", "/"); (Json.Int 3306, "")]
           [Json.Str "dropped"] "/{}" eq_refl HF).
Defined.

(** Property X9.  What [url.PathEscape] writes is one well-formed path
    segment whatever the input: it is made of letters, digits, the marks
    [- _ . ~], the characters [$ & + : = @] and percent escapes, and so
    holds no slash, question mark, number sign, blank or brace.  A path
    that [buildPath] makes from the search template is therefore well-formed
    for every search string, with the string in one segment. *)
Theorem buildPath_escapes (formatFloat : float64 -> string) (s : string) :
  let e := GoURL.PathEscape s in
  GoURL.wellFormedSegment e = true
  /\ GoURL.allBytes GoURL.isPathSegmentByte e = true
  /\ GoStrings.Count e "/" = 0%nat /\ GoStrings.Count e "?" = 0%nat
  /\ GoStrings.Count e "#" = 0%nat /\ GoStrings.Count e " " = 0%nat
  /\ Client.braceFree e = true
  /\ GoStrings.Split
       (Client.buildPath formatFloat "/api/search/{}" [Json.Str s]) "/"
     = [""; "api"; "search"; e]
  /\ GoURL.wellFormedPath
       (Client.buildPath formatFloat "/api/search/{}" [Json.Str s]) = true.
Proof.
  intros e. subst e.
  pose proof (EscapeFacts.PathEscape_alphabet s) as A.
  pose proof (EscapeFacts.PathEscape_wellFormed s) as W.
  assert (forall c, GoURL.isPathSegmentByte c = false ->
                    GoStrings.Count (GoURL.PathEscape s) c = 0%nat) as C
    by (intros c; apply EscapeFacts.allBytes_Count, A).
  assert (Client.buildPath formatFloat "/api/search/{}" [Json.Str s]
          = "/api/search/" ++ GoURL.PathEscape s) as B.
  { rewrite BuildPathFacts.buildPath_fold.
    pose proof (BuildPathFacts.fill_from formatFloat [(Json.Str s, "")]
                  "" "/api/search/" "" eq_refl eq_refl
                  ltac:(repeat constructor)) as P.
    cbn [map fst snd Client.interleave Client.Sprint append] in P.
    now rewrite !GoStringsFacts.app_empty_r in P. }
  assert (GoStrings.Split ("/api/search/" ++ GoURL.PathEscape s) "/"
          = [""; "api"; "search"; GoURL.PathEscape s]) as E.
  { change ("/api/search/" ++ GoURL.PathEscape s)
      with ("" ++ String "/" ("api" ++ String "/"
              ("search" ++ String "/" (GoURL.PathEscape s)))).
    rewrite !GoStringsFacts.Split_app by reflexivity.
    now rewrite (GoStringsFacts.Split_no_sep _ _ (C "/"%char eq_refl)). }
  repeat split; try (apply C; reflexivity); try assumption.
  - apply EscapeFacts.PathEscape_braceFree.
  - now rewrite B.
  - unfold GoURL.wellFormedPath. rewrite B, E. simpl. now rewrite W.
Qed.

(** ** The string-code client: status and envelope *)

(** Property X10.  The methods of the string-code client that read the body
    as the result itself ([parseResponse]) decide by the HTTP status first.
    With a status of 400 or more the call fails and nothing is decoded into
    the result: the error is "API error: code - message" when the body
    decodes as an envelope, and "HTTP error" with the status and the body
    when it does not.  Below 400 the body is decoded into the result as it
    is; an envelope in it, and its code, are not looked at. *)
Theorem decodeDirect_status
    (Rec : Type)
    (unmarshalBody : GoClient.Target -> Json.json -> result (GoClient.Decoded Rec))
    (t : GoClient.Target) (status : Z) (body : string)
    (parsed : result Json.json) :
  let r := GoClient.decodeDirect Rec unmarshalBody t
             (GoClient.Responded (GoClient.Readable status body parsed)) in
  ((400 <= status)%Z ->
   (forall env,
       bind parsed GoClient.unmarshalAPIResponse = Ok env ->
       r = Err ("API error: " ++ GoClient.Code env ++ " - "
                ++ GoClient.Message env))
   /\ (is_err (bind parsed GoClient.unmarshalAPIResponse) = true ->
       r = Err ("HTTP error " ++ GoFmt.FormatInt status ++ ": " ++ body)))
  /\ ((status < 400)%Z -> t <> GoClient.TgtNil ->
      r = wrap "failed to unmarshal response: "
            (bind parsed (unmarshalBody t))).
Proof.
  intros r. subst r. unfold GoClient.decodeDirect. cbn [GoClient.doRequest].
  unfold GoClient.parseResponse. split.
  - intros H. apply Z.leb_le in H. rewrite H. split.
    + intros env ->. reflexivity.
    + destruct (bind parsed GoClient.unmarshalAPIResponse);
        [discriminate | reflexivity].
  - intros H N. apply Z.leb_gt in H. rewrite H.
    destruct t; try reflexivity. now destruct N.
Qed.

(** The property at a 404 whose body is an envelope, and at one whose body
    is not JSON. *)
Example decodeDirect_status_404 :
  GoClient.Search Json.any (fun _ _ => Ok (GoClient.DNil Json.any))
    (GoClient.Responded
       (GoClient.Readable 404
          (Samples.strEnvelopeText "ERROR" "no such cluster" "null")
          (Ok (Samples.strEnvelope "ERROR" "no such cluster" Json.JNull))))
  = Err "API error: ERROR - no such cluster"
  /\ GoClient.Search Json.any (fun _ _ => Ok (GoClient.DNil Json.any))
       (GoClient.Responded
          (GoClient.Readable 404 "not found"
             (Err "invalid character 'o' in literal null (expecting 'u')")))
     = Err "HTTP error 404: not found".
Proof. split; vm_compute; reflexivity. Qed.

(** Property X11.  The methods that read an envelope ([parseAPIResponse])
    never look at the HTTP status: two responses with the same body give
    the same result and the same error whatever their statuses, so that a
    response with status 500 and an envelope that is not an error is a
    success. *)
Theorem envelope_operations_ignore_status
    (Rec : Type) (zeroRecord : string -> Rec)
    (unmarshalRecord : string -> Json.any -> result Rec)
    (status status' : Z) (body : string) (parsed : result Json.json)
    (t : GoClient.Target) :
  let o := GoClient.Responded (GoClient.Readable status body parsed) in
  let o' := GoClient.Responded (GoClient.Readable status' body parsed) in
  GoClient.errorOnly Rec zeroRecord unmarshalRecord o
  = GoClient.errorOnly Rec zeroRecord unmarshalRecord o'
  /\ GoClient.decodeVia Rec zeroRecord unmarshalRecord t o
     = GoClient.decodeVia Rec zeroRecord unmarshalRecord t o'
  /\ GoClient.Discover Rec zeroRecord unmarshalRecord o
     = GoClient.Discover Rec zeroRecord unmarshalRecord o'
  /\ GoClient.InMaintenance Rec zeroRecord unmarshalRecord o
     = GoClient.InMaintenance Rec zeroRecord unmarshalRecord o'
  /\ GoClient.GetTopology Rec zeroRecord unmarshalRecord o
     = GoClient.GetTopology Rec zeroRecord unmarshalRecord o'
  /\ (forall env,
         bind parsed GoClient.unmarshalAPIResponse = Ok env ->
         GoClient.Code env <> "ERROR" ->
         GoClient.errorOnly Rec zeroRecord unmarshalRecord o = None).
Proof.
  intros o o'. subst o o'. repeat split.
  intros env U C. unfold GoClient.errorOnly. cbn [GoClient.doRequest].
  now rewrite (GoClientFacts.parseAPIResponse_other_nil_target Rec zeroRecord
                 unmarshalRecord status body parsed env U C).
Qed.

(** Property X12.  The two probes of the string-code client look at the
    status and at nothing else.  [Health] succeeds exactly when a response
    came with status 200, and its error for any other status names the
    status.  [LeaderCheck] returns no error once a response came, whatever
    its status, and answers true exactly for status 200. *)
Theorem probes_read_status (o : GoClient.HttpOutcome) :
  (GoClient.Health o = None
   <-> exists resp, o = GoClient.Responded resp
                    /\ GoClient.statusOf resp = 200%Z)
  /\ (forall resp,
         o = GoClient.Responded resp -> GoClient.statusOf resp <> 200%Z ->
         GoClient.Health o
         = Some ("health check failed with status "
                 ++ GoFmt.FormatInt (GoClient.statusOf resp)))
  /\ (forall resp,
         o = GoClient.Responded resp ->
         GoClient.LeaderCheck o
         = Ok (GoClient.statusOf resp =? 200)%Z)
  /\ (is_err (GoClient.LeaderCheck o) = true
      <-> forall resp, o <> GoClient.Responded resp).
Proof.
  unfold GoClient.Health, GoClient.LeaderCheck. repeat split.
  - destruct o as [c|c|resp]; simpl; try discriminate.
    destruct (GoClient.statusOf resp =? 200)%Z eqn:E; simpl; [|discriminate].
    intros _. exists resp. split; [reflexivity | now apply Z.eqb_eq].
  - intros (resp & -> & H). simpl. apply Z.eqb_eq in H. now rewrite H.
  - intros resp -> H. simpl. apply Z.eqb_neq in H. now rewrite H.
  - intros resp ->. reflexivity.
  - destruct o as [c|c|resp]; simpl; try discriminate; intros _ r; discriminate.
  - destruct o as [c|c|resp]; simpl; try reflexivity.
    intros H. now destruct (H resp).
Qed.

(** Property X13.  [Discover] is the one method of the string-code client
    that asks for the code ["OK"]: it returns an instance only for an
    envelope whose code is ["OK"], and an envelope with any other code that
    [parseAPIResponse] lets through (here one without details) is the error
    "discover failed" with the envelope's message. *)
Theorem Discover_requires_OK
    (Rec : Type) (zeroRecord : string -> Rec)
    (unmarshalRecord : string -> Json.any -> result Rec)
    (o : GoClient.HttpOutcome) :
  (forall v,
      GoClient.Discover Rec zeroRecord unmarshalRecord o = Ok v ->
      exists status body parsed env,
        o = GoClient.Responded (GoClient.Readable status body parsed)
        /\ bind parsed GoClient.unmarshalAPIResponse = Ok env
        /\ GoClient.Code env = "OK")
  /\ (forall status body parsed env,
      o = GoClient.Responded (GoClient.Readable status body parsed) ->
      bind parsed GoClient.unmarshalAPIResponse = Ok env ->
      GoClient.Code env <> "OK" -> GoClient.Code env <> "ERROR" ->
      GoClient.Details env = Json.Nil ->
      GoClient.Discover Rec zeroRecord unmarshalRecord o
      = Err ("discover failed: " ++ GoClient.Message env)).
Proof.
  split.
  - intros v. unfold GoClient.Discover.
    destruct o as [c|c|[status cause|status body parsed]];
      cbn [GoClient.doRequest]; try discriminate.
    set (p := GoClient.parseAPIResponse Rec zeroRecord unmarshalRecord
                (GoClient.Readable status body parsed)
                (GoClient.TgtRecord "Instance")).
    destruct (bind parsed GoClient.unmarshalAPIResponse) as [env|e] eqn:U.
    + destruct (String.eqb (GoClient.Code env) "ERROR") eqn:C.
      * apply String.eqb_eq in C.
        subst p. rewrite (GoClientFacts.parseAPIResponse_ERROR Rec zeroRecord
                            unmarshalRecord status body parsed env _ U C).
        discriminate.
      * apply String.eqb_neq in C.
        destruct (GoClientFacts.parseAPIResponse_other Rec zeroRecord
                    unmarshalRecord status body parsed env
                    (GoClient.TgtRecord "Instance") U C) as [A _].
        fold p in A. rewrite A.
        destruct (GoClient.err Rec p); [discriminate|].
        destruct (String.eqb (GoClient.Code env) "OK") eqn:E; [|discriminate].
        intros _. exists status, body, parsed, env.
        split; [reflexivity|]. split; [exact U|]. now apply String.eqb_eq.
    + subst p. unfold GoClient.parseAPIResponse. rewrite U. discriminate.
  - intros status body parsed env -> U C1 C2 D.
    unfold GoClient.Discover. cbn [GoClient.doRequest].
    rewrite (GoClientFacts.parseAPIResponse_nil_details Rec zeroRecord
               unmarshalRecord status body parsed env _ U C2 D).
    cbn [GoClient.err GoClient.apiResp].
    apply String.eqb_neq in C1. now rewrite C1.
Qed.

(** The property at an envelope with the code ["WARNING"]. *)
Example Discover_requires_OK_warning :
  GoClient.Discover Json.any Samples.anyZero Samples.anyRecord
    (Samples.strResponse "WARNING" "seed in progress" Json.JNull "null")
  = Err "discover failed: seed in progress"
  /\ GoClient.Forget Json.any Samples.anyZero Samples.anyRecord
       (Samples.strResponse "WARNING" "seed in progress" Json.JNull "null")
     = None.
Proof. split; vm_compute; reflexivity. Qed.

(** Property X14.  [InMaintenance] of the string-code client decodes the
    details into a string and compares it with ["true"]: on an envelope
    that is not an error the answer is true exactly for the JSON string
    ["true"], false for any other string and for no details, and a value
    that is not a string, the JSON boolean [true] included, is the error
    "failed to unmarshal details" with the decoder's type error. *)
Theorem InMaintenance_reads_string
    (Rec : Type) (zeroRecord : string -> Rec)
    (unmarshalRecord : string -> Json.any -> result Rec)
    (status : Z) (body : string) (parsed : result Json.json)
    (env : GoClient.APIResponse) :
  bind parsed GoClient.unmarshalAPIResponse = Ok env ->
  GoClient.Code env <> "ERROR" ->
  let r := GoClient.InMaintenance Rec zeroRecord unmarshalRecord
             (GoClient.Responded (GoClient.Readable status body parsed)) in
  (forall s, GoClient.Details env = Json.Str s -> r = Ok (String.eqb s "true"))
  /\ (GoClient.Details env = Json.Nil -> r = Ok false)
  /\ (Json.is_nil (GoClient.Details env) = false ->
      (forall s, GoClient.Details env <> Json.Str s) ->
      r = Err ("failed to unmarshal details: "
               ++ Json.typeError (Json.jsonKind (GoClient.Details env))
                    "string")).
Proof.
  intros U C r. subst r.
  unfold GoClient.InMaintenance, GoClient.decodeVia.
  cbn [GoClient.doRequest]. unfold GoClient.parseAPIResponse.
  rewrite U. apply String.eqb_neq in C. rewrite C.
  repeat split.
  - intros s ->. reflexivity.
  - intros ->. reflexivity.
  - intros N S. destruct (GoClient.Details env) as [| | | | |s| |];
      try reflexivity; [discriminate N | now destruct (S s)].
Qed.

(** The property at the details [true], a JSON boolean. *)
Lemma InMaintenance_reads_string_witness :
  GoClient.InMaintenance Json.any Samples.anyZero Samples.anyRecord
    (GoClient.Responded
       (GoClient.Readable 200 (Samples.strEnvelopeText "OK" "" "true")
          (Ok (Samples.strEnvelope "OK" "" (Json.JBool true)))))
  = Err ("failed to unmarshal details: "
         ++ Json.typeError (Json.jsonKind (Json.Bool true)) "string").
Proof.
  exact (proj2 (proj2
           (InMaintenance_reads_string Json.any Samples.anyZero
              Samples.anyRecord 200%Z (Samples.strEnvelopeText "OK" "" "true")
              (Ok (Samples.strEnvelope "OK" "" (Json.JBool true)))
              {| GoClient.Code := "OK"; GoClient.Message := "";
                 GoClient.Details := Json.Bool true |}
              eq_refl ltac:(discriminate)))
           eq_refl ltac:(discriminate)).
Defined.

(** Property X15.  [GetTopology] of the string-code client returns the
    details of an envelope that is not an error exactly when they are a
    JSON string, and that string as it is; details of any other kind, none
    included, are the error "unexpected response format". *)
Theorem GetTopology_reads_string
    (Rec : Type) (zeroRecord : string -> Rec)
    (unmarshalRecord : string -> Json.any -> result Rec)
    (status : Z) (body : string) (parsed : result Json.json)
    (env : GoClient.APIResponse) :
  bind parsed GoClient.unmarshalAPIResponse = Ok env ->
  GoClient.Code env <> "ERROR" ->
  let r := GoClient.GetTopology Rec zeroRecord unmarshalRecord
             (GoClient.Responded (GoClient.Readable status body parsed)) in
  (forall topology, r = Ok topology <-> GoClient.Details env = Json.Str topology)
  /\ ((forall s, GoClient.Details env <> Json.Str s) ->
      r = Err "unexpected response format").
Proof.
  intros U C r. subst r. unfold GoClient.GetTopology.
  cbn [GoClient.doRequest].
  rewrite (GoClientFacts.parseAPIResponse_other_nil_target Rec zeroRecord
             unmarshalRecord status body parsed env U C).
  cbn [GoClient.err GoClient.apiResp]. split.
  - intros topology.
    destruct (GoClient.Details env); split; intros H;
      try discriminate H; congruence.
  - intros S. destruct (GoClient.Details env) as [| | | | |s| |];
      try reflexivity. now destruct (S s).
Qed.

(** The property at details that are a list of lines. *)
Lemma GetTopology_reads_string_witness :
  GoClient.GetTopology Json.any Samples.anyZero Samples.anyRecord
    (GoClient.Responded
       (GoClient.Readable 200
          (Samples.strEnvelopeText "OK" "" ("[" ++ Samples.quoted "db1:3306" ++ "]"))
          (Ok (Samples.strEnvelope "OK" "" (Json.JArray [Json.JString "db1:3306"])))))
  = Err "unexpected response format".
Proof.
  exact (proj2
           (GetTopology_reads_string Json.any Samples.anyZero
              Samples.anyRecord 200%Z
              (Samples.strEnvelopeText "OK" "" ("[" ++ Samples.quoted "db1:3306" ++ "]"))
              (Ok (Samples.strEnvelope "OK" "" (Json.JArray [Json.JString "db1:3306"])))
              {| GoClient.Code := "OK"; GoClient.Message := "";
                 GoClient.Details := Json.Slice [Json.Str "db1:3306"] |}
              eq_refl ltac:(discriminate))
           ltac:(discriminate)).
Defined.

(** ** The leader a client talks to *)

(** Property X16.  A client that [NewClient] returns has a leader that was
    configured: one of the normalized endpoints when there are any, the
    normalized base URL when there are none, in each case a URL that ends
    with ["/api"]; and with fewer than two endpoints the network was not
    used to choose it. *)
Theorem NewClient_leader_configured
    (World : Type) (httpGet : string -> World -> option Z * World)
    (config : GoClient.Config) (w w' : World) (client : GoClient.Client) :
  GoClient.NewClient World httpGet (Some config) w = (Ok client, w') ->
  GoClient.baseURL client = GoClient.normalizeURL (GoClient.BaseURL config)
  /\ GoClient.endpoints client
     = GoClient.normalizeEndpoints (GoClient.Endpoints config)
  /\ (In (GoClient.leader client) (GoClient.endpoints client)
      \/ (GoClient.endpoints client = []
          /\ GoClient.leader client = GoClient.baseURL client))
  /\ GoStrings.HasSuffix (GoClient.leader client) "/api" = true
  /\ (List.length (GoClient.Endpoints config) < 2 -> w' = w).
Proof.
  unfold GoClient.NewClient. cbn [GoClient.endpoints].
  pose proof (PinFacts.normalizeEndpoints_suffix (GoClient.Endpoints config))
    as Sfx.
  assert (List.length (GoClient.normalizeEndpoints (GoClient.Endpoints config))
          = List.length (GoClient.Endpoints config)) as Len
    by (rewrite LeaderFacts.normalizeEndpoints_map; apply length_map).
  destruct (GoClient.normalizeEndpoints (GoClient.Endpoints config))
    as [|x [|y l]].
  - intros [= <- <-]. unfold GoClient.set_leader.
    cbn [GoClient.baseURL GoClient.endpoints GoClient.leader].
    repeat split; auto. apply LeaderFacts.normalizeURL_has_suffix.
  - intros [= <- <-]. unfold GoClient.set_leader.
    cbn [GoClient.baseURL GoClient.endpoints GoClient.leader].
    repeat split; auto; [left; now left | apply Sfx; now left].
  - match goal with
    | |- context [GoClient.detectLeader World httpGet ?c w] => set (c0 := c)
    end.
    destruct (GoClient.detectLeader World httpGet c0 w) as [[c1 e] w1] eqn:D.
    destruct (PinFacts.detectLeader_outcomes World httpGet c0 c1 e w w1 D)
      as [[-> (endpoint & Hin & ->)] | [-> ->]]; [|discriminate].
    intros [= <- <-]. subst c0. unfold GoClient.set_leader.
    cbn [GoClient.baseURL GoClient.endpoints GoClient.leader] in *.
    repeat split; auto.
    intros L. simpl in Len. lia.
Qed.

(** The property at the client of two endpoints on the logging network,
    which pins the second. *)
Lemma NewClient_leader_configured_witness :
  GoClient.baseURL
    {| GoClient.baseURL := "http://base/api";
       GoClient.username := ""; GoClient.password := "";
       GoClient.leader := "http://b/api";
       GoClient.endpoints := ["http://a/api"; "http://b/api"] |}
  = GoClient.normalizeURL (GoClient.BaseURL Samples.twoEndpoints)
  /\ ["http://a/api"; "http://b/api"]
     = GoClient.normalizeEndpoints (GoClient.Endpoints Samples.twoEndpoints)
  /\ (In "http://b/api" ["http://a/api"; "http://b/api"]
      \/ (["http://a/api"; "http://b/api"] = []
          /\ "http://b/api" = "http://base/api"))
  /\ GoStrings.HasSuffix "http://b/api" "/api" = true
  /\ (List.length (GoClient.Endpoints Samples.twoEndpoints) < 2 ->
      ["http://a/api/leader-check"; "http://b/api/leader-check";
       "http://a/api/routed-leader-check"; "http://b/api/routed-leader-check"]
      = []).
Proof.
  exact (NewClient_leader_configured (list string) Samples.loggingGet
           Samples.twoEndpoints [] _
           {| GoClient.baseURL := "http://base/api";
              GoClient.username := ""; GoClient.password := "";
              GoClient.leader := "http://b/api";
              GoClient.endpoints := ["http://a/api"; "http://b/api"] |}
           eq_refl).
Defined.

(** Property X17.  [RefreshLeader] changes nothing of a client but its
    leader.  With fewer than two endpoints it does nothing at all, the
    network included.  With two or more it either pins one of the client's
    endpoints, or fails with "no leader found among endpoints", and a
    failure leaves the client, and so the leader pinned before, as it
    was. *)
Theorem RefreshLeader_outcomes
    (World : Type) (httpGet : string -> World -> option Z * World)
    (c c' : GoClient.Client) (e : option error) (w w' : World) :
  GoClient.RefreshLeader World httpGet c w = (c', e, w') ->
  (GoClient.baseURL c' = GoClient.baseURL c
   /\ GoClient.username c' = GoClient.username c
   /\ GoClient.password c' = GoClient.password c
   /\ GoClient.endpoints c' = GoClient.endpoints c)
  /\ ((List.length (GoClient.endpoints c) < 2
       /\ e = None /\ c' = c /\ w' = w)
      \/ (2 <= List.length (GoClient.endpoints c)
          /\ e = None /\ In (GoClient.leader c') (GoClient.endpoints c))
      \/ (2 <= List.length (GoClient.endpoints c)
          /\ e = Some "no leader found among endpoints" /\ c' = c)).
Proof.
  unfold GoClient.RefreshLeader.
  destruct (GoClient.endpoints c) as [|x [|y l]] eqn:E.
  - intros [= <- <- <-]. split; [auto|]. left. simpl. auto.
  - intros [= <- <- <-]. split; [auto|]. left. simpl. auto.
  - intros D.
    destruct (PinFacts.detectLeader_outcomes World httpGet c c' e w w' D)
      as [[-> (endpoint & Hin & ->)] | [-> ->]].
    + split; [auto|]. right; left. rewrite E in Hin.
      repeat split; [simpl; lia | exact Hin].
    + split; [auto|]. right; right. simpl. repeat split. lia.
Qed.

(** The property at a client of two endpoints on a network where nobody
    answers: the refresh fails and the leader stays. *)
Lemma RefreshLeader_outcomes_witness :
  (GoClient.baseURL
     {| GoClient.baseURL := "http://base/api"; GoClient.username := "";
        GoClient.password := ""; GoClient.leader := "http://a/api";
        GoClient.endpoints := ["http://a/api"; "http://c/api"] |}
   = "http://base/api"
   /\ "" = "" /\ "" = ""
   /\ ["http://a/api"; "http://c/api"] = ["http://a/api"; "http://c/api"])
  /\ ((List.length ["http://a/api"; "http://c/api"] < 2
       /\ Some "no leader found among endpoints" = None
       /\ {| GoClient.baseURL := "http://base/api"; GoClient.username := "";
             GoClient.password := ""; GoClient.leader := "http://a/api";
             GoClient.endpoints := ["http://a/api"; "http://c/api"] |}
          = {| GoClient.baseURL := "http://base/api"; GoClient.username := "";
               GoClient.password := ""; GoClient.leader := "http://a/api";
               GoClient.endpoints := ["http://a/api"; "http://c/api"] |}
       /\ ["http://a/api/leader-check"; "http://c/api/leader-check";
           "http://a/api/routed-leader-check";
           "http://c/api/routed-leader-check"] = [])
      \/ (2 <= List.length ["http://a/api"; "http://c/api"]
          /\ Some "no leader found among endpoints" = None
          /\ In "http://a/api" ["http://a/api"; "http://c/api"])
      \/ (2 <= List.length ["http://a/api"; "http://c/api"]
          /\ Some "no leader found among endpoints"
             = Some "no leader found among endpoints"
          /\ {| GoClient.baseURL := "http://base/api"; GoClient.username := "";
                GoClient.password := ""; GoClient.leader := "http://a/api";
                GoClient.endpoints := ["http://a/api"; "http://c/api"] |}
             = {| GoClient.baseURL := "http://base/api"; GoClient.username := "";
                  GoClient.password := ""; GoClient.leader := "http://a/api";
                  GoClient.endpoints := ["http://a/api"; "http://c/api"] |})).
Proof.
  exact (RefreshLeader_outcomes (list string) Samples.loggingGet
           {| GoClient.baseURL := "http://base/api"; GoClient.username := "";
              GoClient.password := ""; GoClient.leader := "http://a/api";
              GoClient.endpoints := ["http://a/api"; "http://c/api"] |}
           _ _ []
           ["http://a/api/leader-check"; "http://c/api/leader-check";
            "http://a/api/routed-leader-check";
            "http://c/api/routed-leader-check"]
           eq_refl).
Defined.

(** Property X18.  Every request of a client that [NewClient] returns goes
    under the API path of its leader: the URL is the leader, a slash, and
    the path without its leading slash, so that a path written with or
    without the leading slash is the same request, and the URL starts with a
    configured URL that ends with ["/api"]. *)
Theorem requestURL_under_api
    (World : Type) (httpGet : string -> World -> option Z * World)
    (config : GoClient.Config) (w w' : World) (client : GoClient.Client)
    (path : string) :
  GoClient.NewClient World httpGet (Some config) w = (Ok client, w') ->
  GoStrings.HasPrefix path "/" = false ->
  exists base,
    GoClient.leader client = base ++ "/api"
    /\ GoClient.requestURL client path = base ++ "/api/" ++ path
    /\ GoClient.requestURL client ("/" ++ path) = base ++ "/api/" ++ path.
Proof.
  intros N P.
  assert (GoStrings.HasSuffix (GoClient.leader client) "/api" = true) as S.
  { unfold GoClient.NewClient in N. cbn [GoClient.endpoints] in N.
    pose proof (PinFacts.normalizeEndpoints_suffix (GoClient.Endpoints config))
      as Sfx.
    destruct (GoClient.normalizeEndpoints (GoClient.Endpoints config))
      as [|x [|y l]].
    - injection N as <- _. apply LeaderFacts.normalizeURL_has_suffix.
    - injection N as <- _. apply Sfx. now left.
    - match type of N with
      | context [GoClient.detectLeader World httpGet ?c w] => set (c0 := c) in N
      end.
      destruct (GoClient.detectLeader World httpGet c0 w) as [[c1 e] w1] eqn:D.
      destruct (PinFacts.detectLeader_outcomes World httpGet c0 c1 e w w1 D)
        as [[-> (endpoint & Hin & ->)] | [-> ->]]; [|discriminate].
      injection N as <- _. apply Sfx. exact Hin. }
  apply GoStringsFacts.HasSuffix_iff in S as [base S]. exists base.
  split; [exact S|]. unfold GoClient.requestURL. rewrite S.
  change ("/" ++ path) with (String "/" path).
  rewrite PinFacts.TrimPrefix_cons.
  unfold GoStrings.TrimPrefix. rewrite P.
  now rewrite !GoStringsFacts.app_assoc.
Qed.

(** The property at a client without endpoints. *)
Lemma requestURL_under_api_witness :
  exists base,
    GoClient.leader
      {| GoClient.baseURL := "http://base/api"; GoClient.username := "";
         GoClient.password := ""; GoClient.leader := "http://base/api";
         GoClient.endpoints := [] |}
    = base ++ "/api"
    /\ GoClient.requestURL
         {| GoClient.baseURL := "http://base/api"; GoClient.username := "";
            GoClient.password := ""; GoClient.leader := "http://base/api";
            GoClient.endpoints := [] |} "clusters"
       = base ++ "/api/" ++ "clusters"
    /\ GoClient.requestURL
         {| GoClient.baseURL := "http://base/api"; GoClient.username := "";
            GoClient.password := ""; GoClient.leader := "http://base/api";
            GoClient.endpoints := [] |} ("/" ++ "clusters")
       = base ++ "/api/" ++ "clusters".
Proof.
  exact (requestURL_under_api (list string) Samples.loggingGet
           {| GoClient.BaseURL := "http://base/"; GoClient.Endpoints := [];
              GoClient.Username := ""; GoClient.Password := "" |}
           [] [] _ "clusters" eq_refl eq_refl).
Defined.

(** ** Escaped strings in the paths of the string-code client *)

(** Property X19.  [url.QueryEscape], as the string-code client applies it
    to free-form strings, is one-to-one: two strings have the same escape
    only if they are the same string, so that two searches ask for the same
    path only if they search the same string. *)
Theorem QueryEscape_one_to_one (a b : string) :
  (GoURL.QueryEscape a = GoURL.QueryEscape b <-> a = b)
  /\ (GoClient.Search_path a = GoClient.Search_path b <-> a = b).
Proof.
  split; split; try (intros ->; reflexivity).
  - apply QueryFacts.QueryEscape_injective.
  - unfold GoClient.Search_path. intros H.
    apply QueryFacts.app_inv_head in H.
    now apply QueryFacts.QueryEscape_injective.
Qed.

(** Property X20.  What [url.QueryEscape] writes holds letters, digits, the
    marks [- _ . ~], [+] and [%] only.  A comment given to the
    acknowledging methods therefore adds to the path exactly one query,
    [?comment=] and the escaped comment, and cannot add a second parameter,
    a fragment or a path segment; an empty comment adds nothing, and the
    empty cluster name asks for the blocked recoveries of all clusters. *)
Theorem comment_query_escaped (clusterName comment : string) :
  GoURL.allBytes GoURL.isQueryByte (GoURL.QueryEscape comment) = true
  /\ (forall c, GoURL.isQueryByte c = false ->
                GoStrings.Count (GoURL.QueryEscape comment) c = 0%nat)
  /\ GoClient.AcknowledgeAllRecoveries_path comment
     = "/ack-all-recoveries"
       ++ (if String.eqb comment "" then ""
           else "?comment=" ++ GoURL.QueryEscape comment)
  /\ GoClient.AcknowledgeClusterRecoveries_path clusterName comment
     = "/ack-recovery/cluster/" ++ GoURL.QueryEscape clusterName
       ++ (if String.eqb comment "" then ""
           else "?comment=" ++ GoURL.QueryEscape comment)
  /\ (forall path,
         path = GoClient.AcknowledgeAllRecoveries_path comment
         \/ path = GoClient.AcknowledgeClusterRecoveries_path clusterName comment ->
         GoStrings.Count path "?"
         = (if String.eqb comment "" then 0%nat else 1%nat)
         /\ GoStrings.Count path "="
            = (if String.eqb comment "" then 0%nat else 1%nat)
         /\ GoStrings.Count path "&" = 0%nat
         /\ GoStrings.Count path "#" = 0%nat)
  /\ GoStrings.Count
       (GoClient.AcknowledgeClusterRecoveries_path clusterName comment) "/"
     = 3%nat
  /\ (GoClient.GetBlockedRecoveries_path clusterName = "/blocked-recoveries"
      <-> clusterName = "").
Proof.
  pose proof (EscapeFacts.QueryEscape_alphabet comment) as A.
  pose proof (EscapeFacts.QueryEscape_alphabet clusterName) as B.
  assert (forall s c, GoURL.isQueryByte c = false ->
                      GoStrings.Count (GoURL.QueryEscape s) c = 0%nat) as C
    by (intros s c; apply EscapeFacts.allBytes_Count,
          EscapeFacts.QueryEscape_alphabet).
  assert (GoClient.AcknowledgeAllRecoveries_path comment
          = "/ack-all-recoveries"
            ++ (if String.eqb comment "" then ""
                else "?comment=" ++ GoURL.QueryEscape comment)) as E1
    by (unfold GoClient.AcknowledgeAllRecoveries_path;
        destruct (String.eqb comment ""); reflexivity).
  assert (GoClient.AcknowledgeClusterRecoveries_path clusterName comment
          = "/ack-recovery/cluster/" ++ GoURL.QueryEscape clusterName
            ++ (if String.eqb comment "" then ""
                else "?comment=" ++ GoURL.QueryEscape comment)) as E2.
  { unfold GoClient.AcknowledgeClusterRecoveries_path. cbv zeta.
    destruct (String.eqb comment ""); simpl;
      rewrite ?GoStringsFacts.app_empty_r, ?GoStringsFacts.app_assoc;
      reflexivity. }
  split; [exact A|]. split; [apply C|]. split; [exact E1|]. split; [exact E2|].
  split; [|split].
  - intros path [-> | ->]; [rewrite E1 | rewrite E2];
      destruct (String.eqb comment "");
      rewrite ?GoStringsFacts.Count_app, ?C by reflexivity;
      repeat split; reflexivity.
  - rewrite E2. destruct (String.eqb comment "");
      rewrite ?GoStringsFacts.Count_app, ?C by reflexivity; reflexivity.
  - unfold GoClient.GetBlockedRecoveries_path.
    destruct (String.eqb clusterName "") eqn:E; simpl.
    + apply String.eqb_eq in E. tauto.
    + apply String.eqb_neq in E. split; [discriminate | tauto].
Qed.

(** The well-formed downtime path of [PathFacts.BeginDowntime_path_wellFormed]
    for an owner and a reason with blanks and a slash, and ninety seconds. *)
Lemma BeginDowntime_path_wellFormed_witness :
  GoStrings.Split
    (GoClient.BeginDowntime_path {| Hostname := "db1"; Port := 3306 |}
       "ops team" "disk swap / rack 4" 90000000000 90) "/"
  = ["";  "begin-downtime"; "db1"; "3306"; "ops+team";
     "disk+swap+%2F+rack+4"; "90s"]
  /\ GoURL.wellFormedPath
       (GoClient.BeginDowntime_path {| Hostname := "db1"; Port := 3306 |}
          "ops team" "disk swap / rack 4" 90000000000 90) = true.
Proof.
  exact (PathFacts.BeginDowntime_path_wellFormed
           {| Hostname := "db1"; Port := 3306 |}
           "ops team" "disk swap / rack 4" 90000000000%Z 90%Z
           eq_refl eq_refl).
Defined.

(** ** Takeovers *)

(** Property X21.  A takeover of the string-code client reads the successor
    out of the details by name and then asks for that instance.  When the
    details hold no object under ["SuccessorKey"], a nil map included, the
    call fails with "unexpected response format" after the one request it
    made.  When they do, the second request is [GetInstance] of the key made
    of that object's ["Hostname"], if it is a string, and ["Port"], if it is
    a number, converted to an integer; a member that is missing or of
    another type counts as the empty host or the port 0, so that a successor
    object without the two asks for the path ["/instance//0"]. *)
Theorem takeover_successor
    (Rec : Type) (zeroRecord : string -> Rec)
    (unmarshalRecord : string -> Json.any -> result Rec)
    (unmarshalBody : GoClient.Target -> Json.json -> result (GoClient.Decoded Rec))
    (float64_overflow : float64 -> Z)
    (World : Type) (send : string -> World -> GoClient.HttpOutcome * World)
    (path : string) (w w1 : World) (o : GoClient.HttpOutcome)
    (result : GoMap Json.any) :
  send path w = (o, w1) ->
  GoClient.decodeVia Rec zeroRecord unmarshalRecord GoClient.TgtAnyMap o
  = Ok (GoClient.DAnyMap Rec result) ->
  let entries := match result with NilMap => [] | MapOf l => l end in
  let run := GoClient.takeover Rec zeroRecord unmarshalRecord unmarshalBody
               float64_overflow World send path w in
  (forall successorData,
      GoClient.mapIndex entries "SuccessorKey" = Json.Map successorData ->
      run = GoClient.GetInstanceOn Rec unmarshalBody World send
              {| Hostname :=
                   match GoClient.mapIndex successorData "Hostname" with
                   | Json.Str s => s
                   | _ => ""
                   end;
                 Port :=
                   match GoClient.mapIndex successorData "Port" with
                   | Json.Float64 f => Client.int64_of_float64 float64_overflow f
                   | _ => 0%Z
                   end |} w1)
  /\ (forall successorData,
      GoClient.mapIndex entries "SuccessorKey" = Json.Map successorData ->
      GoClient.mapIndex successorData "Hostname" = Json.Nil ->
      GoClient.mapIndex successorData "Port" = Json.Nil ->
      run = (let (o2, w2) := send "/instance//0" w1 in
             (GoClient.GetInstance Rec unmarshalBody o2, w2)))
  /\ ((forall successorData,
          GoClient.mapIndex entries "SuccessorKey" <> Json.Map successorData) ->
      run = (Err "unexpected response format", w1)).
Proof.
  intros S D entries run. subst run. unfold GoClient.takeover.
  rewrite S, D. unfold GoClient.successorKey. fold entries.
  split; [|split].
  - intros sd H. rewrite H. cbv beta iota zeta.
    destruct (GoClient.mapIndex sd "Port"); reflexivity.
  - intros sd H Hh Hp. rewrite H. cbv beta iota zeta. rewrite Hh, Hp.
    reflexivity.
  - intros N.
    destruct (GoClient.mapIndex entries "SuccessorKey") as [| | | | | | |sd];
      try reflexivity. now destruct (N sd).
Qed.

(** The property on the network that names the successor [db2:3306]: the
    second request asks for that instance. *)
Lemma takeover_successor_witness :
  GoClient.GracefulMasterTakeover Json.any Samples.anyZero Samples.anyRecord
    Samples.bodyAsAny Samples.amd64Overflow (list string) Samples.takeoverSend
    "c1" None []
  = (Ok (GoClient.DRecord Json.any (Json.Str "/instance/db2/3306")),
     ["/graceful-master-takeover/c1"; "/instance/db2/3306"]).
Proof.
  pose proof (takeover_successor Json.any Samples.anyZero Samples.anyRecord
                Samples.bodyAsAny Samples.amd64Overflow (list string)
                Samples.takeoverSend "/graceful-master-takeover/c1" []
                ["/graceful-master-takeover/c1"]
                (Samples.strResponse "OK" "" Samples.successorDetails
                   Samples.successorDetailsText)
                (MapOf [("SuccessorKey",
                         Json.Map [("Hostname", Json.Str "db2");
                                   ("Port",
                                    Json.Float64
                                      (binary_normalize 53 1024 3306 0 false))])])
                eq_refl eq_refl) as [H _].
  exact (H [("Hostname", Json.Str "db2");
            ("Port", Json.Float64 (binary_normalize 53 1024 3306 0 false))]
           eq_refl).
Defined.

